(** * Dotfiles visualizer: conditional evaluation and deployment resolution

    A shallow embedding of the parsers of the dotfiles visualizer
    (lib/parsers/IgnoreParser.ts, TemplateParser.ts, FileMapper.ts,
    YAMLParser.ts) and of the two route handlers that combine them
    (GET /api/files and POST /api/simulate), followed by the
    properties proved about them.

    Conventions of the embedding.
    - A JavaScript string is a [string]: a sequence of code units, each
      below 256.  Among those, the code units that [trim] strips and that
      the class \s matches are 9-13, 32 and 160.
    - A parsed YAML/JSON value is a [jsval]; objects are finite maps over
      their own properties, and a read finds the own properties.  What
      every object inherits from Object.prototype enters where the code
      can write it, in [TemplateParser.applyModuleChanges], through a
      [Realm].
    - A JavaScript array used as a stack is a list whose head is the top.
    - Code that can throw returns an [option]; [None] is the exception. *)

From Stdlib Require Import String Ascii List ZArith Lia Bool.
From stdpp Require Import base option strings gmap list.

Open Scope string_scope.

(** ** String primitives of the host language *)

Module JS.

Definition code (c : ascii) : nat := nat_of_ascii c.

(** WhiteSpace and LineTerminator code units. *)
Definition isSpace (c : ascii) : bool :=
  let n := code c in
  ((9 <=? n) && (n <=? 13) || (n =? 32) || (n =? 160))%nat.

(** The class \w: letters, digits and underscore. *)
Definition isWord (c : ascii) : bool :=
  let n := code c in
  ((48 <=? n) && (n <=? 57) || (65 <=? n) && (n <=? 90)
   || (97 <=? n) && (n <=? 122) || (n =? 95))%nat.

Definition isLineTerminator (c : ascii) : bool :=
  let n := code c in ((n =? 10) || (n =? 13))%nat.

Definition isEmpty (s : string) : bool :=
  match s with "" => true | String _ _ => false end.

Fixpoint trimStart (s : string) : string :=
  match s with
  | "" => ""
  | String c s' => if isSpace c then trimStart s' else s
  end.

Fixpoint trimEnd (s : string) : string :=
  match s with
  | "" => ""
  | String c s' =>
      let t := trimEnd s' in
      if isSpace c && isEmpty t then "" else String c t
  end.

(** [s.trim()] *)
Definition trim (s : string) : string := trimEnd (trimStart s).

(** [s.startsWith(p)] *)
Definition startsWith (s p : string) : bool := String.prefix p s.

(** [s.substring(n)]: the text from index [n] on. *)
Fixpoint substringFrom (n : nat) (s : string) : string :=
  match n, s with
  | 0, _ => s
  | S n', String _ s' => substringFrom n' s'
  | S _, "" => ""
  end.

(** [s.endsWith(p)] *)
Definition endsWith (s p : string) : bool :=
  (String.length p <=? String.length s)%nat
  && String.eqb (substringFrom (String.length s - String.length p) s) p.

(** [s.includes(p)] *)
Fixpoint includes (s p : string) : bool :=
  String.prefix p s
  || match s with "" => false | String _ s' => includes s' p end.

(** [s.split(sep)] for a separator of one code unit. *)
Fixpoint split (sep : ascii) (s : string) : list string :=
  match s with
  | "" => [""]
  | String c s' =>
      if Ascii.eqb c sep then "" :: split sep s'
      else match split sep s' with
           | h :: t => String c h :: t
           | [] => [String c ""]
           end
  end.

(** [parts.join(sep)] *)
Fixpoint join (sep : string) (parts : list string) : string :=
  match parts with
  | [] => ""
  | [p] => p
  | p :: rest => p ++ sep ++ join sep rest
  end.

(** [s.replace(/needle/g, by)] for a regular expression that is a literal
    [needle]: the occurrences are replaced from left to right, without
    overlap, and the replacement text is not scanned again.  [skip]
    counts the code units of an occurrence still to be dropped. *)
Fixpoint replaceAllFrom (needle by_ : string) (skip : nat) (s : string) : string :=
  match s with
  | "" => ""
  | String c s' =>
      match skip with
      | S k => replaceAllFrom needle by_ k s'
      | 0 =>
          if String.prefix needle s
          then by_ ++ replaceAllFrom needle by_ (String.length needle - 1) s'
          else String c (replaceAllFrom needle by_ 0 s')
      end
  end.

Definition replaceAll (needle by_ s : string) : string :=
  replaceAllFrom needle by_ 0 s.

(** [s.replace(/^p/, by)] for a literal [p]. *)
Definition replacePrefix (p by_ s : string) : string :=
  if startsWith s p then by_ ++ substringFrom (String.length p) s else s.

(** [s.replace(/p$/, by)] for a literal [p]. *)
Definition replaceSuffix (p by_ s : string) : string :=
  if endsWith s p
  then String.substring 0 (String.length s - String.length p) s ++ by_
  else s.

(** The one-character strings that cannot be written inside a literal. *)
Definition dquote : string := String "034" "".
Definition newline : string := String "010" "".

End JS.

(** ** Regular expressions of the host language

    The matcher follows the continuation-passing semantics of the
    language standard: a matcher takes a state and a continuation and
    backtracks by trying alternatives in order. *)

Module RegExp.

Inductive cclass :=
| CDot                (* .  : any code unit but a line terminator *)
| CWord               (* \w *)
| CSpace              (* \s *)
| CExcept (c : ascii) (* [^c] *).

Inductive regex :=
| Empty
| Char (c : ascii)
| Class (k : cclass)
| Seq (r1 r2 : regex)
| Alt (r1 r2 : regex)
| Star (greedy : bool) (r : regex)
| Group (n : nat) (r : regex)
| Bol
| Eol.

(** A literal text. *)
Fixpoint Lit (s : string) : regex :=
  match s with
  | "" => Empty
  | String c s' => Seq (Char c) (Lit s')
  end.

(** [r+], [r+?] and [r?]. *)
Definition Plus (greedy : bool) (r : regex) : regex := Seq r (Star greedy r).
Definition Opt (r : regex) : regex := Alt r Empty.

(** The concatenation of a list of regular expressions. *)
Definition Cat (rs : list regex) : regex := fold_right Seq Empty rs.

Definition inClass (k : cclass) (c : ascii) : bool :=
  match k with
  | CDot => negb (JS.isLineTerminator c)
  | CWord => JS.isWord c
  | CSpace => JS.isSpace c
  | CExcept d => negb (Ascii.eqb c d)
  end.

(** The state of a match: the index reached, the input still to be read
    from there, and the captures made so far (latest first). *)
Record MatchState := {
  endIndex : nat;
  rest : string;
  captures : list (nat * string)
}.

Definition Continuation := MatchState -> option MatchState.

Definition advance (x : MatchState) (s' : string) : MatchState :=
  {| endIndex := S (endIndex x); rest := s'; captures := captures x |}.

Definition capture (n : nat) (x y : MatchState) : MatchState :=
  {| endIndex := endIndex y;
     rest := rest y;
     captures :=
       (n, String.substring 0 (String.length (rest x) - String.length (rest y)) (rest x))
       :: captures y |}.

(** The repetition of a matcher [m]: at most [fuel] further iterations,
    the greedy form trying one more iteration first and the lazy form
    trying the continuation first.  An iteration that consumes nothing
    is rejected, so the length of the input bounds the iterations. *)
Fixpoint repeatMatcher (m : MatchState -> Continuation -> option MatchState)
    (greedy : bool) (c : Continuation) (fuel : nat) (x : MatchState)
    : option MatchState :=
  match fuel with
  | 0 => c x
  | S fuel' =>
      let again (_ : unit) :=
        m x (fun y =>
          if (String.length (rest y) <? String.length (rest x))%nat
          then repeatMatcher m greedy c fuel' y else None) in
      if greedy
      then match again tt with Some z => Some z | None => c x end
      else match c x with Some z => Some z | None => again tt end
  end.

Fixpoint matcher (r : regex) (x : MatchState) (c : Continuation) : option MatchState :=
  match r with
  | Empty => c x
  | Char a =>
      match rest x with
      | String b s' => if Ascii.eqb a b then c (advance x s') else None
      | "" => None
      end
  | Class k =>
      match rest x with
      | String b s' => if inClass k b then c (advance x s') else None
      | "" => None
      end
  | Seq r1 r2 => matcher r1 x (fun y => matcher r2 y c)
  | Alt r1 r2 =>
      match matcher r1 x c with
      | Some z => Some z
      | None => matcher r2 x c
      end
  | Star greedy r0 =>
      repeatMatcher (matcher r0) greedy c (String.length (rest x)) x
  | Group n r0 => matcher r0 x (fun y => c (capture n x y))
  | Bol => if (endIndex x =? 0)%nat then c x else None
  | Eol => if JS.isEmpty (rest x) then c x else None
  end.

(** The leftmost match: every start index is tried in turn. *)
Fixpoint search (r : regex) (i : nat) (s : string) : option (nat * MatchState) :=
  match matcher r {| endIndex := i; rest := s; captures := [] |} Some with
  | Some y => Some (i, y)
  | None =>
      match s with
      | "" => None
      | String _ s' => search r (S i) s'
      end
  end.

(** [s.match(r)] for a regular expression without the global flag. *)
Definition exec (r : regex) (s : string) : option MatchState :=
  snd <$> search r 0 s.

(** [r.test(s)] *)
Definition test (r : regex) (s : string) : bool :=
  match exec r s with Some _ => true | None => false end.

(** [m[n]] for a group that took part in the match; a group that did
    not is [undefined], read here as the empty text. *)
Fixpoint lookupGroup (n : nat) (caps : list (nat * string)) : string :=
  match caps with
  | [] => ""
  | (k, v) :: caps' => if (k =? n)%nat then v else lookupGroup n caps'
  end.

Definition group (n : nat) (m : MatchState) : string :=
  lookupGroup n (captures m).

(** *** The constructor [new RegExp(source)]

    [parse] reads the sources made of ordinary characters, escaped
    syntax characters, the dot, the class [^/], the star and the two
    anchors.  Every other source is left to the host ([Host]), which
    answers [None] when the constructor throws a SyntaxError. *)

Definition isSyntaxChar (c : ascii) : bool :=
  existsb (Ascii.eqb c)
    ["^"; "$"; "\"; "."; "*"; "+"; "?"; "("; ")"; "["; "]"; "{"; "}"; "|"]%char.

Fixpoint parse (src : string) : option regex :=
  match src with
  | "" => Some Empty
  | String "\" (String c src') =>
      if isSyntaxChar c || Ascii.eqb c "/"
      then match src' with
           | String "*" src'' => Seq (Star true (Char c)) <$> parse src''
           | _ => Seq (Char c) <$> parse src'
           end
      else None
  | String "[" (String "^" (String "/" (String "]" src'))) =>
      match src' with
      | String "*" src'' => Seq (Star true (Class (CExcept "/"))) <$> parse src''
      | _ => Seq (Class (CExcept "/")) <$> parse src'
      end
  | String "^" src' => Seq Bol <$> parse src'
  | String "$" src' => Seq Eol <$> parse src'
  | String "." src' =>
      match src' with
      | String "*" src'' => Seq (Star true (Class CDot)) <$> parse src''
      | _ => Seq (Class CDot) <$> parse src'
      end
  | String c src' =>
      if isSyntaxChar c then None
      else match src' with
           | String "*" src'' => Seq (Star true (Char c)) <$> parse src''
           | _ => Seq (Char c) <$> parse src'
           end
  end.

(** The host's answer for the sources [parse] does not read. *)
Class Host := hostTest : string -> string -> option bool.

(** [new RegExp(source).test(s)]; [None] when the constructor throws. *)
Definition compileAndTest `{Host} (source s : string) : option bool :=
  match parse source with
  | Some r => Some (test r s)
  | None => hostTest source s
  end.

End RegExp.

(** ** Data model (lib/types.ts) *)

(** A value read from the YAML configuration or from a JSON request.
    Finite numbers are the integers.  An array is represented by the
    object of its own properties (its indices and [length]).  The last
    three are values that YAML has and JSON has not: the numbers [.nan]
    and [.inf] (or [-.inf]), and a timestamp, which is loaded as a Date
    object; [iso] is the text that [toJSON] gives for it.  The tagged
    YAML type [binary] is left out. *)
#[warnings="-register-all"]
Inductive jsval :=
| JNull
| JBool (b : bool)
| JNum (n : Z)
| JStr (s : string)
| JObj (props : gmap string jsval)
| JNaN
| JInfinity (negative : bool)
| JDate (iso : string).

(** Truthiness: [!!v]. *)
Definition truthy (v : jsval) : bool :=
  match v with
  | JNull => false
  | JBool b => b
  | JNum n => negb (n =? 0)%Z
  | JStr s => negb (JS.isEmpty s)
  | JObj _ => true
  | JNaN => false
  | JInfinity _ => true
  | JDate _ => true
  end.

(** Truthiness of a value that may be [undefined]. *)
Definition truthyOpt (v : option jsval) : bool :=
  match v with Some v => truthy v | None => false end.

(** [v && typeof v === 'object'] *)
Definition isObject (v : option jsval) : bool :=
  match v with Some (JObj _) | Some (JDate _) => true | _ => false end.

(** [v[p]] on a value that is neither [null] nor [undefined]; [None] is
    [undefined].  On a primitive and on a date the code only ever reads
    [enabled], which neither has. *)
Definition getProp (v : jsval) (p : string) : option jsval :=
  match v with
  | JObj props => props !! p
  | _ => None
  end.

(** [v[p] = x] in strict-mode code: a TypeError on [null] and on a
    primitive.  A date takes the property; the model keeps the date only
    (the code assigns within a JSON copy, where no date occurs). *)
Definition setProp (v : jsval) (p : string) (x : jsval) : option jsval :=
  match v with
  | JObj props => Some (JObj (<[p := x]> props))
  | JDate iso => Some (JDate iso)
  | _ => None
  end.

(** [JSON.parse(JSON.stringify(v))]: a number that is not finite is
    written out as [null] and a date as the text of [toJSON]; every
    other value is read back as it was. *)
Fixpoint jsonCopy (v : jsval) : jsval :=
  match v with
  | JObj props => JObj (jsonCopy <$> props)
  | JNaN | JInfinity _ => JNull
  | JDate iso => JStr iso
  | _ => v
  end.

(** [type Platform = 'linux' | 'darwin' | 'windows'], unchecked at run
    time: the routes cast the text of the request. *)
Definition Platform := string.

Record GitUser := { gitUser_name : string; gitUser_email : string }.

Record GitHubRepo := { github_user : string; github_repo : string }.

Record RepoPolicy := {
  protectedBranches : list string;
  requiredApprovals : Z;
  requiredChecks : list string
}.

Record AgeConfig := { identity : string; recipient : string }.

(** [interface ModuleConfiguration]: module name to module value; the
    index signature admits any value. *)
Record ConfigData := {
  gitUser : GitUser;
  windows : bool;
  github : option GitHubRepo;
  repoPolicy : option RepoPolicy;
  modules : gmap string jsval
}.

Record DotfilesConfig := {
  data : ConfigData;
  encryption : string;
  age : AgeConfig
}.

Definition withModules (config : DotfilesConfig) (ms : gmap string jsval) : DotfilesConfig :=
  {| data := {| gitUser := gitUser (data config);
                windows := windows (data config);
                github := github (data config);
                repoPolicy := repoPolicy (data config);
                modules := ms |};
     encryption := encryption config;
     age := age config |}.

(** [config.data.modules[name]?.enabled], read for its truthiness. *)
Definition moduleEnabled (config : DotfilesConfig) (name : string) : bool :=
  truthyOpt (modules (data config) !! name ≫= fun m => getProp m "enabled").

(** [JSON.parse(JSON.stringify(config))]: the fields outside the module
    map are texts, booleans and integers, which are read back as they
    were. *)
Definition copyConfig (config : DotfilesConfig) : DotfilesConfig :=
  withModules config (jsonCopy <$> modules (data config)).

(** *** What every object inherits

    The module map is a plain object: besides its own properties it has
    those of Object.prototype, which the operator [in] and a property
    read find as well.  They are the functions below and, under the name
    [__proto__], Object.prototype itself.  All objects share them, so a
    property written on one of them is there for every object, until
    the process ends. *)

Definition prototypeFunctions : list string :=
  ["constructor"; "hasOwnProperty"; "isPrototypeOf"; "propertyIsEnumerable";
   "toLocaleString"; "toString"; "valueOf"; "__defineGetter__";
   "__defineSetter__"; "__lookupGetter__"; "__lookupSetter__"].

(** The properties that code has written on Object.prototype, and on
    each of its functions. *)
Record Realm := {
  prototypeProps : gmap string jsval;
  functionProps : gmap string (gmap string jsval)
}.

(** Nothing has been written yet. *)
Definition pristine : Realm := {| prototypeProps := ∅; functionProps := ∅ |}.

(** [Object.prototype[p] = x] *)
Definition writePrototype (realm : Realm) (p : string) (x : jsval) : Realm :=
  {| prototypeProps := <[p := x]> (prototypeProps realm);
     functionProps := functionProps realm |}.

(** [Object.prototype[f][p] = x], for a function [f] of Object.prototype. *)
Definition writeFunction (realm : Realm) (f p : string) (x : jsval) : Realm :=
  {| prototypeProps := prototypeProps realm;
     functionProps := <[f := <[p := x]> (default ∅ (functionProps realm !! f))]>
                        (functionProps realm) |}.

(** What [obj[name]] is, for a plain object with the own properties
    [own]: an own property comes first, then what Object.prototype
    holds under that name. *)
Inductive Holder :=
| OwnValue (v : jsval)
| ThePrototype
| PrototypeFunction (f : string)
| PrototypeValue (v : jsval)
| Missing.

Definition holder (realm : Realm) (own : gmap string jsval) (name : string) : Holder :=
  match own !! name with
  | Some v => OwnValue v
  | None =>
      if String.eqb name "__proto__" then ThePrototype
      else if existsb (String.eqb name) prototypeFunctions then PrototypeFunction name
      else match prototypeProps realm !! name with
           | Some v => PrototypeValue v
           | None => Missing
           end
  end.

(** [name in obj] *)
Definition hasProperty (realm : Realm) (own : gmap string jsval) (name : string) : bool :=
  match holder realm own name with Missing => false | _ => true end.

(** [v.enabled] for a value [v] other than [null]: its own property, or
    else the one that Object.prototype has. *)
Definition enabledOf (realm : Realm) (v : jsval) : option jsval :=
  match getProp v "enabled" with
  | Some x => Some x
  | None => prototypeProps realm !! "enabled"
  end.

(** [config.data.modules[name]?.enabled] in a realm, read for its
    truthiness. *)
Definition moduleEnabledIn (realm : Realm) (config : DotfilesConfig) (name : string) : bool :=
  truthyOpt
    match holder realm (modules (data config)) name with
    | OwnValue JNull | PrototypeValue JNull => None
    | OwnValue v | PrototypeValue v => enabledOf realm v
    | ThePrototype => prototypeProps realm !! "enabled"
    | PrototypeFunction f =>
        match functionProps realm !! f ≫= fun props => props !! "enabled" with
        | Some x => Some x
        | None => prototypeProps realm !! "enabled"
        end
    | Missing => None
    end.

(** [interface FileMapping] (the optional [size] and [lastModified] are
    never set by the code). *)
Record FileMapping := {
  sourcePath : string;
  deployPath : string;
  isTemplate : bool;
  isExecutable : bool;
  requiredModules : list string;
  platforms : list Platform
}.

(** [Partial<FileMapping>] as [FileMapper.mapFile] fills it: the first
    four fields are always present, the last two may be absent. *)
Record PartialFileMapping := {
  partial_sourcePath : string;
  partial_deployPath : string;
  partial_isTemplate : bool;
  partial_isExecutable : bool;
  partial_requiredModules : option (list string);
  partial_platforms : option (list Platform)
}.

(** [interface SimulateRequest]; [None] is a missing or invalid field. *)
Record SimulateRequest := {
  req_moduleChanges : option (gmap string bool);
  req_platform : option Platform
}.

(** [interface SimulateResponse] (the two alias lists are always empty). *)
Record SimulateResponse := {
  filesAdded : list FileMapping;
  filesRemoved : list FileMapping;
  totalFilesBefore : nat;
  totalFilesAfter : nat;
  resp_platform : Platform;
  resp_moduleChanges : gmap string bool
}.

(** What [request.json()] gives: its promise is rejected when the text of
    the request is not JSON; the JSON text [null] is read as [null];
    for any other value the fields are read off it. *)
Inductive RequestBody :=
| Unreadable
| NullBody
| Body (request : SimulateRequest).

Inductive Response (A : Type) :=
| Ok (body : A)
| BadRequest
| ServerError.
Arguments Ok {A} body.
Arguments BadRequest {A}.
Arguments ServerError {A}.

(** ** lib/parsers/IgnoreParser.ts *)

Module IgnoreParser.
Import RegExp.

Definition ws : regex := Class CSpace.

(** [/\{\{-?\s*if\s+(.+?)\s*\}\}/] *)
Definition re_if : regex :=
  Cat [Lit "{{"; Opt (Char "-"); Star true ws; Lit "if"; Plus true ws;
       Group 1 (Plus false (Class CDot)); Star true ws; Lit "}}"].

(** [/eq\s+\.chezmoi\.os\s+"(\w+)"/] *)
Definition re_eq_os : regex :=
  Cat [Lit "eq"; Plus true ws; Lit ".chezmoi.os"; Plus true ws;
       Char "034"; Group 1 (Plus true (Class CWord)); Char "034"].

(** [/\.modules\.(\w+)\.(\w+)/] *)
Definition re_property : regex :=
  Cat [Lit ".modules."; Group 1 (Plus true (Class CWord)); Char ".";
       Group 2 (Plus true (Class CWord))].

(** [/\.modules\.(\w+)\.enabled/] *)
Definition re_enabled : regex :=
  Cat [Lit ".modules."; Group 1 (Plus true (Class CWord)); Lit ".enabled"].

(** [/not\s+\.modules\.(\w+)\.(\w+)/] *)
Definition re_not_property : regex :=
  Cat [Lit "not"; Plus true ws; re_property].

(** [/not\s+\.modules\.(\w+)\.enabled/] *)
Definition re_not_enabled : regex :=
  Cat [Lit "not"; Plus true ws; re_enabled].

(** [condition.includes(text) ? condition.match(re) : null], the guard
    and the match of one branch of the evaluator. *)
Definition guarded (guard : bool) (re : regex) (condition : string) : option MatchState :=
  if guard then exec re condition else None.

Definition extractCondition (line : string) : string :=
  match exec re_if line with
  | Some m => JS.trim (group 1 m)
  | None => ""
  end.

Definition evaluateCondition (condition : string) (config : DotfilesConfig)
    (platform : Platform) : bool :=
  let moduleOf (m : MatchState) := modules (data config) !! group 1 m in
  (* eq .chezmoi.os "platform" *)
  match guarded (JS.includes condition "eq .chezmoi.os") re_eq_os condition with
  | Some m => String.eqb platform (group 1 m)
  | None =>
  (* not .modules.X.Y *)
  match guarded (JS.includes condition "not .modules."
                 && negb (JS.includes condition ".enabled"))
                re_not_property condition with
  | Some m =>
      let moduleConfig := moduleOf m in
      if isObject moduleConfig
      then negb (truthyOpt (moduleConfig ≫= fun v => getProp v (group 2 m)))
      else true
  | None =>
  (* not .modules.X.enabled *)
  match guarded (JS.includes condition "not .modules.") re_not_enabled condition with
  | Some m =>
      let moduleConfig := moduleOf m in
      negb (truthyOpt moduleConfig
            && truthyOpt (moduleConfig ≫= fun v => getProp v "enabled"))
  | None =>
  (* .modules.X.Y *)
  match guarded (JS.includes condition ".modules."
                 && negb (JS.includes condition ".enabled"))
                re_property condition with
  | Some m =>
      let moduleConfig := moduleOf m in
      if isObject moduleConfig
      then truthyOpt (moduleConfig ≫= fun v => getProp v (group 2 m))
      else false
  | None =>
  (* .modules.X.enabled *)
  match guarded (JS.includes condition ".modules.") re_enabled condition with
  | Some m =>
      let moduleConfig := moduleOf m in
      truthyOpt moduleConfig
      && truthyOpt (moduleConfig ≫= fun v => getProp v "enabled")
  | None =>
      (* unknown condition: include *)
      true
  end end end end end.

(** The three markers, told apart in the order of the else-if chain. *)
Inductive marker := MarkIf | MarkElse | MarkEnd | MarkOther.

Definition classify (trimmed : string) : marker :=
  if JS.includes trimmed "{{- if " then MarkIf
  else if JS.includes trimmed "{{- else" then MarkElse
  else if JS.includes trimmed "{{- end" then MarkEnd
  else MarkOther.

(** [stack[stack.length - 1]], read for its truthiness. *)
Definition top (stack : list bool) : bool := hd false stack.

Definition handleConditional (line : string) (stack : list bool)
    (config : DotfilesConfig) (platform : Platform) : list bool :=
  let trimmed := JS.trim line in
  match classify trimmed with
  | MarkIf =>
      let condition := extractCondition trimmed in
      let result := evaluateCondition condition config platform in
      let parentState := top stack in
      (parentState && result) :: stack
  | MarkElse =>
      match stack with
      | currentState :: (parentState :: _) as below =>
          (parentState && negb currentState) :: below
      | _ => stack
      end
  | MarkEnd =>
      match stack with
      | _ :: (_ :: _) as below => below
      | _ => stack
      end
  | MarkOther => stack
  end.

(** The two local variables of the loop of [parse]. *)
Record LoopState := {
  conditionStack : list bool;
  patterns : list string
}.

Definition initial : LoopState :=
  {| conditionStack := [true]; patterns := [] |}.

(** One iteration of the loop over the lines. *)
Definition step (config : DotfilesConfig) (platform : Platform)
    (st : LoopState) (line : string) : LoopState :=
  let trimmed := JS.trim line in
  if JS.isEmpty trimmed then st
  else if JS.startsWith trimmed "{{-" then
    {| conditionStack := handleConditional trimmed (conditionStack st) config platform;
       patterns := patterns st |}
  else if JS.startsWith trimmed "#" then st
  else
    let currentlyIncluded := top (conditionStack st) in
    if currentlyIncluded && negb (JS.isEmpty trimmed)
    then {| conditionStack := conditionStack st;
            patterns := patterns st ++ [trimmed] |}
    else st.

Definition run (ignoreContent : string) (config : DotfilesConfig)
    (platform : Platform) : LoopState :=
  fold_left (step config platform) (JS.split "010" ignoreContent) initial.

Definition parse (ignoreContent : string) (config : DotfilesConfig)
    (platform : Platform) : list string :=
  patterns (run ignoreContent config platform).

(** The states of the loop in order: before the first line and after
    each line. *)
Fixpoint statesFrom (config : DotfilesConfig) (platform : Platform)
    (st : LoopState) (lines : list string) : list LoopState :=
  st :: match lines with
        | [] => []
        | line :: lines' =>
            statesFrom config platform (step config platform st line) lines'
        end.

Definition states (ignoreContent : string) (config : DotfilesConfig)
    (platform : Platform) : list LoopState :=
  statesFrom config platform initial (JS.split "010" ignoreContent).

Definition getIgnorePatterns (ignoreContent : string) (config : DotfilesConfig)
    (platform : Platform) : list string :=
  parse ignoreContent config platform.

(** The text handed to [new RegExp] for one pattern, before anchoring. *)
Definition regexPattern (pattern : string) : string :=
  JS.replaceAll "." "\."
    (JS.replaceAll "?" "."
       (JS.replaceAll "___DOUBLESTAR___" ".*"
          (JS.replaceAll "*" "[^/]*"
             (JS.replaceAll "**" "___DOUBLESTAR___" pattern)))).

(** The callback of [some]: a pattern the constructor rejects matches
    nothing. *)
Definition patternMatches `{Host} (filePath pattern : string) : bool :=
  match compileAndTest ("^" ++ regexPattern pattern) filePath with
  | Some b => b
  | None => false
  end.

Definition shouldIgnore `{Host} (filePath : string) (ignorePatterns : list string) : bool :=
  existsb (patternMatches filePath) ignorePatterns.

End IgnoreParser.

(** ** lib/parsers/TemplateParser.ts *)

Module TemplateParser.
Import RegExp.

(** The local variables of the loop of [splitExpression]. *)
Record SplitState := {
  parts : list string;
  current : string;
  inQuotes : bool
}.

Definition splitStep (st : SplitState) (char : ascii) : SplitState :=
  let appended := current st ++ String char "" in
  if Ascii.eqb char "034" then
    {| parts := parts st; current := appended; inQuotes := negb (inQuotes st) |}
  else if Ascii.eqb char " " && negb (inQuotes st)
          && negb (JS.isEmpty (JS.trim (current st))) then
    if JS.startsWith (current st) "." || JS.startsWith (current st) "eq"
       || JS.startsWith (current st) "not"
    then {| parts := parts st ++ [JS.trim (current st)];
            current := "";
            inQuotes := inQuotes st |}
    else {| parts := parts st; current := appended; inQuotes := inQuotes st |}
  else {| parts := parts st; current := appended; inQuotes := inQuotes st |}.

Definition splitLoop (expr : string) : SplitState :=
  fold_left splitStep (list_ascii_of_string expr)
    {| parts := []; current := ""; inQuotes := false |}.

Definition splitExpression (expr : string) : list string :=
  let st := splitLoop expr in
  let parts :=
    if negb (JS.isEmpty (JS.trim (current st)))
    then (parts st ++ [JS.trim (current st)])%list
    else parts st in
  match parts with
  | [] => [expr]
  | _ => parts
  end.

(** [parts.every(f)] and [parts.some(f)] for a callback that may run
    out of fuel: the parts are visited in order, up to the first one
    that decides. *)
Fixpoint every (f : string -> option bool) (parts : list string) : option bool :=
  match parts with
  | [] => Some true
  | part :: parts' =>
      match f part with
      | Some true => every f parts'
      | r => r
      end
  end.

Fixpoint some (f : string -> option bool) (parts : list string) : option bool :=
  match parts with
  | [] => Some false
  | part :: parts' =>
      match f part with
      | Some false => some f parts'
      | r => r
      end
  end.

(** The recursive evaluator, with the depth of the recursion bounded by
    [fuel]; [None] when the bound is reached.  The value returned by
    the source is read for its truthiness by every caller. *)
Fixpoint evaluateWithin (fuel : nat) (expression : string)
    (config : DotfilesConfig) (platform : Platform) : option bool :=
  match fuel with
  | 0 => None
  | S fuel' =>
      let trimmed := JS.trim expression in
      if JS.startsWith trimmed "not " then
        let innerExpr := JS.trim (JS.substringFrom 4 trimmed) in
        negb <$> evaluateWithin fuel' innerExpr config platform
      else if JS.startsWith trimmed "and " then
        let parts := splitExpression (JS.trim (JS.substringFrom 4 trimmed)) in
        every (fun part => evaluateWithin fuel' part config platform) parts
      else if JS.startsWith trimmed "or " then
        let parts := splitExpression (JS.trim (JS.substringFrom 3 trimmed)) in
        some (fun part => evaluateWithin fuel' part config platform) parts
      else
        (* eq .chezmoi.os "platform" *)
        match IgnoreParser.guarded (JS.includes trimmed "eq .chezmoi.os")
                IgnoreParser.re_eq_os trimmed with
        | Some m => Some (String.eqb platform (group 1 m))
        | None =>
        (* .modules.X.enabled *)
        match IgnoreParser.guarded (JS.includes trimmed ".modules.")
                IgnoreParser.re_enabled trimmed with
        | Some m => Some (moduleEnabled config (group 1 m))
        | None =>
        (* .modules.X.Y *)
        match IgnoreParser.guarded (JS.startsWith trimmed ".modules.")
                IgnoreParser.re_property trimmed with
        | Some m =>
            let module := modules (data config) !! group 1 m in
            if isObject module
            then Some (truthyOpt (module ≫= fun v => getProp v (group 2 m)))
            else Some true
        | None => Some true
        end end end
  end.

(** Every recursive call is on a strictly shorter text, so a bound
    above the length of the expression is never reached (lemma
    [evaluateWithin_enough]). *)
Definition evaluateCondition (expression : string) (config : DotfilesConfig)
    (platform : Platform) : bool :=
  match evaluateWithin (S (String.length expression)) expression config platform with
  | Some b => b
  | None => true
  end.

(** One pass of the loop over [Object.entries(moduleChanges)], on the
    copy and the realm.  The guard [moduleName in newConfig.data.modules]
    holds for a module of that name and for a name that every object
    inherits; the assignment is made to [enabled] of what is found
    under the name.  [None] is the TypeError of an assignment to a
    property of [null], of [undefined] or of a primitive. *)
Definition applyChange (state : option (DotfilesConfig * Realm)) (entry : string * bool)
    : option (DotfilesConfig * Realm) :=
  state ≫= fun '(newConfig, realm) =>
    let '(moduleName, enabled) := entry in
    if hasProperty realm (modules (data newConfig)) moduleName then
      match holder realm (modules (data newConfig)) moduleName with
      | OwnValue module =>
          (fun module' =>
             (withModules newConfig (<[moduleName := module']> (modules (data newConfig))),
              realm))
          <$> setProp module "enabled" (JBool enabled)
      | ThePrototype => Some (newConfig, writePrototype realm "enabled" (JBool enabled))
      | PrototypeFunction f =>
          Some (newConfig, writeFunction realm f "enabled" (JBool enabled))
      | PrototypeValue v =>
          (fun v' => (newConfig, writePrototype realm moduleName v'))
          <$> setProp v "enabled" (JBool enabled)
      | Missing => None
      end
    else Some (newConfig, realm).

(** [applyModuleChanges] in a realm, with the entries of [moduleChanges]
    in the order of [Object.entries]: the configuration returned and the
    realm after the call. *)
Definition applyModuleChangesIn (realm : Realm) (baseConfig : DotfilesConfig)
    (entries : list (string * bool)) : option (DotfilesConfig * Realm) :=
  fold_left applyChange entries (Some (copyConfig baseConfig, realm)).

(** The configuration that [applyModuleChanges] returns in a pristine
    realm; the entries are taken in the order of [map_to_list]. *)
Definition applyModuleChanges (baseConfig : DotfilesConfig)
    (moduleChanges : gmap string bool) : option DotfilesConfig :=
  fst <$> applyModuleChangesIn pristine baseConfig (map_to_list moduleChanges).

(** [/\{\{-?\s*if\s+/] *)
Definition re_if_head : regex :=
  Cat [Lit "{{"; Opt (Char "-"); Star true IgnoreParser.ws; Lit "if";
       Plus true IgnoreParser.ws].

(** [/\{\{-?\s*else\s*\}\}/] *)
Definition re_else : regex :=
  Cat [Lit "{{"; Opt (Char "-"); Star true IgnoreParser.ws; Lit "else";
       Star true IgnoreParser.ws; Lit "}}"].

(** [/\{\{-?\s*end\s*\}\}/] *)
Definition re_end : regex :=
  Cat [Lit "{{"; Opt (Char "-"); Star true IgnoreParser.ws; Lit "end";
       Star true IgnoreParser.ws; Lit "}}"].

(** One iteration of the loop of [shouldIncludeTemplate] over the lines.
    The entries of the stack are read for their truthiness only. *)
Definition includeStep (config : DotfilesConfig) (platform : Platform)
    (conditionStack : list bool) (line : string) : list bool :=
  let trimmed := JS.trim line in
  if test re_if_head trimmed then
    match exec IgnoreParser.re_if trimmed with
    | Some m =>
        let expression := group 1 m in
        let parentCondition := IgnoreParser.top conditionStack in
        let currentCondition :=
          parentCondition && evaluateCondition expression config platform in
        currentCondition :: conditionStack
    | None => conditionStack
    end
  else if test re_else trimmed then
    match conditionStack with
    | current :: (parent :: _) as below => (parent && negb current) :: below
    | _ => conditionStack
    end
  else if test re_end trimmed then
    match conditionStack with
    | _ :: (_ :: _) as below => below
    | _ => conditionStack
    end
  else conditionStack.

(** The stack after the loop. *)
Definition includeStack (templateContent : string) (config : DotfilesConfig)
    (platform : Platform) : list bool :=
  fold_left (includeStep config platform) (JS.split "010" templateContent) [true].

Definition shouldIncludeTemplate (templateContent : string) (config : DotfilesConfig)
    (platform : Platform) : bool :=
  forallb id (includeStack templateContent config platform).

End TemplateParser.

(** ** lib/parsers/YAMLParser.ts

    The functions on a parsed configuration; [parse] and [stringify]
    are calls into the YAML library. *)

Module YAMLParser.

Definition getModules (config : DotfilesConfig) : gmap string jsval :=
  modules (data config).


Definition requiredModuleNames : list string :=
  ["shell"; "git"; "vscode"; "powershell"; "start_menu"; "modern_tools";
   "smart_search"].

(** The three checks of one pass of the loop of [validateModules];
    [false] is the early [return false]. *)
Definition checkModule (ms : gmap string jsval) (moduleName : string) : bool :=
  match ms !! moduleName with
  | None => false
  | Some (JObj props) => bool_decide (is_Some (props !! "enabled"))
  | Some _ => false
  end.

Definition validateModules (ms : gmap string jsval) : bool :=
  forallb (checkModule ms) requiredModuleNames.

End YAMLParser.

(** ** lib/parsers/FileMapper.ts *)

Module FileMapper.
Import RegExp.

Definition mapFile (sourcePath : string) : PartialFileMapping :=
  let pathParts := JS.split "/" sourcePath in
  let filename := List.last pathParts "" in
  let dirPath := removelast pathParts in
  let isExecutable := JS.startsWith filename "executable_" in
  let filename := if isExecutable then JS.replacePrefix "executable_" "" filename
                  else filename in
  let isTemplate := JS.endsWith filename ".tmpl" in
  let filename := if isTemplate then JS.replaceSuffix ".tmpl" "" filename
                  else filename in
  let modifiedPath := JS.join "/" (dirPath ++ [filename])%list in
  let deployPath :=
    JS.join "/" (map (JS.replacePrefix "dot_" ".") (JS.split "/" modifiedPath)) in
  let deployPath :=
    if negb (JS.startsWith deployPath "/") && negb (JS.startsWith deployPath ".")
    then "~/" ++ deployPath
    else if JS.startsWith deployPath "." then "~/" ++ deployPath
    else deployPath in
  {| partial_sourcePath := sourcePath;
     partial_deployPath := deployPath;
     partial_isTemplate := isTemplate;
     partial_isExecutable := isExecutable;
     partial_requiredModules := None;
     partial_platforms := None |}.

(** [cond ? [m] : []], the effect of one guarded [modules.push(m)]. *)
Definition pushIf (cond : bool) (m : string) : list string :=
  if cond then [m] else [].

Definition inferModules (sourcePath : string) : list string :=
  let has := JS.includes sourcePath in
  (pushIf (has "shell/" || has "dot_bashrc" || has "dot_zshrc") "shell"
   ++ pushIf (has "Code/User/") "vscode"
   ++ pushIf (has "PowerShell/") "powershell"
   ++ pushIf (has "start_menu") "start_menu"
   ++ pushIf (has "gitconfig") "git"
   ++ pushIf (has "smart-search" || has "smart_search") "smart_search")%list.

Definition inferPlatforms (sourcePath : string) : list Platform :=
  let has := JS.includes sourcePath in
  if has "PowerShell/" then ["windows"]
  else if has "dot_bashrc" || has "dot_zshrc" then ["linux"; "darwin"]
  else if has "Code/User/" then ["linux"; "darwin"; "windows"]
  else if has "bin/executable_" || has "scripts/" then ["linux"; "darwin"]
  else ["linux"; "darwin"; "windows"].

(** The same text as [IgnoreParser.regexPattern]; this call site
    anchors it at both ends. *)
Definition regexPattern (pattern : string) : string :=
  JS.replaceAll "." "\."
    (JS.replaceAll "?" "."
       (JS.replaceAll "___DOUBLESTAR___" ".*"
          (JS.replaceAll "*" "[^/]*"
             (JS.replaceAll "**" "___DOUBLESTAR___" pattern)))).

Definition patternMatches `{Host} (path pattern : string) : bool :=
  match compileAndTest ("^" ++ regexPattern pattern ++ "$") path with
  | Some b => b
  | None => false
  end.

Definition shouldIgnore `{Host} (path : string) (patterns : list string) : bool :=
  existsb (patternMatches path) patterns.

(** [x || fallback] on a text. *)
Definition orText (x fallback : string) : string :=
  if JS.isEmpty x then fallback else x.

Definition buildFileMapping (sourcePath : string)
    (requiredModules : option (list string)) (platforms : option (list Platform))
    : FileMapping :=
  let baseMapping := mapFile sourcePath in
  {| sourcePath := sourcePath;
     deployPath := orText (partial_deployPath baseMapping) "";
     isTemplate := partial_isTemplate baseMapping || false;
     isExecutable := partial_isExecutable baseMapping || false;
     requiredModules := default (inferModules sourcePath) requiredModules;
     platforms := default (inferPlatforms sourcePath) platforms |}.

(** [interface FileTreeNode]; [None] is an absent [children] or
    [fileInfo]. *)
Inductive NodeType := File | Directory.

#[warnings="-register-all"]
Inductive FileTreeNode :=
| Node (name path : string) (type : NodeType)
       (children : option (list FileTreeNode)) (fileInfo : option FileMapping).

Definition node_name (n : FileTreeNode) : string :=
  match n with Node name _ _ _ _ => name end.

Definition node_path (n : FileTreeNode) : string :=
  match n with Node _ path _ _ _ => path end.

Definition node_type (n : FileTreeNode) : NodeType :=
  match n with Node _ _ type _ _ => type end.

Definition node_children (n : FileTreeNode) : option (list FileTreeNode) :=
  match n with Node _ _ _ children _ => children end.

Definition node_fileInfo (n : FileTreeNode) : option FileMapping :=
  match n with Node _ _ _ _ fileInfo => fileInfo end.

(** [children?.find(child => child.name === part)] *)
Definition findChild (part : string) (children : list FileTreeNode)
    : option FileTreeNode :=
  List.find (fun child => String.eqb (node_name child) part) children.

(** The children after the node found by [findChild] has been worked
    on by [f]: the nodes are objects, changed in place. *)
Fixpoint replaceChild (part : string) (f : FileTreeNode -> FileTreeNode)
    (children : list FileTreeNode) : list FileTreeNode :=
  match children with
  | [] => []
  | child :: rest =>
      if String.eqb (node_name child) part then f child :: rest
      else child :: replaceChild part f rest
  end.

(** The inner loop of [buildFileTree] from the part at index [i] on:
    [done] holds the parts before it and [parts] the parts from it on;
    the result is [currentNode] after the loop. *)
Fixpoint addPath (file : FileMapping) (done parts : list string)
    (currentNode : FileTreeNode) : FileTreeNode :=
  match parts with
  | [] => currentNode
  | part :: rest =>
      let isLastPart := match rest with [] => true | _ :: _ => false end in
      let upTo := (done ++ [part])%list in
      match currentNode with
      | Node name path type children fileInfo =>
          let siblings := default [] children in
          match findChild part siblings with
          | Some _ =>
              Node name path type
                (Some (replaceChild part (addPath file upTo rest) siblings)) fileInfo
          | None =>
              let childNode :=
                Node part (JS.join "/" upTo)
                  (if isLastPart then File else Directory)
                  (if isLastPart then None else Some [])
                  (if isLastPart then Some file else None) in
              Node name path type
                (Some (siblings ++ [addPath file upTo rest childNode])%list) fileInfo
          end
      end
  end.

(** The parts of the deploy path below the home directory. *)
Definition relativeParts (file : FileMapping) : list string :=
  JS.split "/" (JS.replacePrefix "~/" "" (deployPath file)).

Definition treeRoot : FileTreeNode := Node "~" "~" Directory (Some []) None.

Definition buildFileTree (files : list FileMapping) : FileTreeNode :=
  fold_left (fun root file => addPath file [] (relativeParts file) root) files treeRoot.

End FileMapper.

(** ** app/api/files/route.ts: GET /api/files

    The three fetches from the repository (configuration, ignore file,
    list of source files) are inputs; the configuration is given parsed. *)

Module FilesRoute.
Import RegExp.

Record FilesResponse := {
  files : list FileMapping;
  totalFiles : nat;
  files_platform : Platform
}.

(** Directories and special files. *)
Definition skipped (sourcePath : string) : bool :=
  JS.endsWith sourcePath "/"
  || String.eqb sourcePath ".git"
  || JS.startsWith sourcePath ".git/"
  || String.eqb sourcePath "LICENSE"
  || String.eqb sourcePath "README.md"
  || String.eqb sourcePath "CLAUDE.md"
  || JS.startsWith sourcePath "docs/"
  || String.eqb sourcePath ".gitignore"
  || String.eqb sourcePath ".pre-commit-config.yaml"
  || String.eqb sourcePath ".secrets.baseline"
  || String.eqb sourcePath "Makefile".

(** The body of the loop over the source files; [None] is [continue]. *)
Definition resolve `{Host} (config : DotfilesConfig) (platform : Platform)
    (ignorePatterns : list string) (sourcePath : string) : option FileMapping :=
  if skipped sourcePath then None
  else
    let fileMapping := FileMapper.buildFileMapping sourcePath None None in
    let deployPathForIgnore := JS.replacePrefix "~/" "" (deployPath fileMapping) in
    if IgnoreParser.shouldIgnore deployPathForIgnore ignorePatterns then None
    else if negb (existsb (String.eqb platform) (platforms fileMapping)) then None
    else if negb (forallb (moduleEnabled config) (requiredModules fileMapping)) then None
    else Some fileMapping.

Definition resolveFiles `{Host} (config : DotfilesConfig) (platform : Platform)
    (ignoreContent : string) (allSourceFiles : list string) : list FileMapping :=
  let ignorePatterns := IgnoreParser.getIgnorePatterns ignoreContent config platform in
  omap (resolve config platform ignorePatterns) allSourceFiles.

Definition GET `{Host} (platformParam : option string) (config : DotfilesConfig)
    (ignoreContent : string) (allSourceFiles : list string) : FilesResponse :=
  let platform := FileMapper.orText (default "" platformParam) "linux" in
  let files := resolveFiles config platform ignoreContent allSourceFiles in
  {| files := files; totalFiles := length files; files_platform := platform |}.

End FilesRoute.

(** ** app/api/simulate/route.ts: POST /api/simulate *)

Module SimulateRoute.
Import RegExp.

(** Special files. *)
Definition skipped (sourcePath : string) : bool :=
  String.eqb sourcePath ".chezmoi.yaml"
  || String.eqb sourcePath ".chezmoiignore"
  || JS.includes sourcePath ".git/"
  || JS.includes sourcePath "node_modules/"
  || JS.startsWith sourcePath ".".

(** The mapping built for the source file [path]: the spread of
    [FileMapper.mapFile] with the four fields set again. *)
Definition fullMapping (platform : Platform) (path : string) : FileMapping :=
  let fileMapping := FileMapper.mapFile path in
  {| sourcePath := path;
     deployPath := FileMapper.orText (partial_deployPath fileMapping) path;
     isTemplate := partial_isTemplate fileMapping;
     isExecutable := partial_isExecutable fileMapping;
     platforms := default [platform] (partial_platforms fileMapping);
     requiredModules := default [] (partial_requiredModules fileMapping) |}.

(** The body of the loop of [getFilesForConfig], for the source file
    [path]; [None] is [continue]. *)
Definition resolve `{Host} (config : DotfilesConfig) (platform : Platform)
    (ignorePatterns : list string) (path : string) : option FileMapping :=
  if skipped path then None
  else
    let fullMapping := fullMapping platform path in
    if IgnoreParser.shouldIgnore (sourcePath fullMapping) ignorePatterns then None
    else if negb (existsb (String.eqb platform) (platforms fullMapping)) then None
    else if negb (forallb (moduleEnabled config) (requiredModules fullMapping)) then None
    else Some fullMapping.

Definition getFilesForConfig `{Host} (ignoreContent : string) (platform : Platform)
    (allSourceFiles : list string) (config : DotfilesConfig) : list FileMapping :=
  let ignorePatterns := IgnoreParser.getIgnorePatterns ignoreContent config platform in
  omap (resolve config platform ignorePatterns) allSourceFiles.

Definition deployPaths (fs : list FileMapping) : gset string :=
  list_to_set (map deployPath fs).

(** The handler on a body that is a JSON value other than [null], from
    the check of [moduleChanges] on, in a pristine realm. *)
Definition POST `{Host} (body : SimulateRequest) (baseConfig : DotfilesConfig)
    (ignoreContent : string) (allSourceFiles : list string)
    : Response SimulateResponse :=
  let platform := default "linux" (req_platform body) in
  match req_moduleChanges body with
  | None => BadRequest
  | Some moduleChanges =>
      match TemplateParser.applyModuleChanges baseConfig moduleChanges with
      | None => ServerError
      | Some simulatedConfig =>
          let baseFiles :=
            getFilesForConfig ignoreContent platform allSourceFiles baseConfig in
          let simulatedFiles :=
            getFilesForConfig ignoreContent platform allSourceFiles simulatedConfig in
          let baseFilePaths := deployPaths baseFiles in
          let simulatedFilePaths := deployPaths simulatedFiles in
          Ok {| filesAdded :=
                  List.filter (fun f => negb (bool_decide (deployPath f ∈ baseFilePaths)))
                    simulatedFiles;
                filesRemoved :=
                  List.filter (fun f => negb (bool_decide (deployPath f ∈ simulatedFilePaths)))
                    baseFiles;
                totalFilesBefore := length baseFiles;
                totalFilesAfter := length simulatedFiles;
                resp_platform := platform;
                resp_moduleChanges := moduleChanges |}
      end
  end.

(** The handler from the text of the request on: [request.json()], the
    destructuring of the body (a TypeError on [null]) and the [catch],
    which answers with status 500. *)
Definition handle `{Host} (body : RequestBody) (baseConfig : DotfilesConfig)
    (ignoreContent : string) (allSourceFiles : list string)
    : Response SimulateResponse :=
  match body with
  | Unreadable | NullBody => ServerError
  | Body request => POST request baseConfig ignoreContent allSourceFiles
  end.

End SimulateRoute.

(** ** Notions used in the statements and proofs *)

(** No separator occurs in [x]. *)
Fixpoint noSlash (x : string) : bool :=
  match x with
  | "" => true
  | String c x' => negb (Ascii.eqb c "/") && noSlash x'
  end.

(** The joined text of [xs] begins with a separator: an empty first
    segment followed by another segment. *)
Definition slashFirst (xs : list string) : bool :=
  match xs with
  | "" :: _ :: _ => true
  | _ => false
  end.

(** No capture group occurs in [r]. *)
Fixpoint groupless (r : RegExp.regex) : bool :=
  match r with
  | RegExp.Seq r1 r2 | RegExp.Alt r1 r2 => groupless r1 && groupless r2
  | RegExp.Star _ r0 => groupless r0
  | RegExp.Group _ _ => false
  | _ => true
  end.

(** The state [j] code units further into the input than [x]. *)
Definition shift (j : nat) (x : RegExp.MatchState) : RegExp.MatchState :=
  {| RegExp.endIndex := j + RegExp.endIndex x;
     RegExp.rest := JS.substringFrom j (RegExp.rest x);
     RegExp.captures := RegExp.captures x |}.

(** A platform test or a module test (of [enabled] or of any other
    property) occurs somewhere in [condition]; the evaluators search the
    text for them. *)
Definition mentionsTest (condition : string) : bool :=
  RegExp.test IgnoreParser.re_eq_os condition
  || RegExp.test IgnoreParser.re_property condition.

(** A form that the evaluators know occurs in [trimmed]: it begins with
    [not], [and] or [or], or it mentions a test. *)
Definition containsForm (trimmed : string) : bool :=
  JS.startsWith trimmed "not " || JS.startsWith trimmed "and "
  || JS.startsWith trimmed "or "
  || mentionsTest trimmed.

(** [r] from the first to the last code unit of a text. *)
Definition whole (r : RegExp.regex) : RegExp.regex :=
  RegExp.Cat [RegExp.Bol; r; RegExp.Eol].

(** The expression is of one of the documented predicate forms: once
    trimmed, it begins with [not], [and] or [or], or the whole of it is
    a platform test [eq .chezmoi.os "<name>"] or a module test
    [.modules.<name>.<property>]. *)
Definition documentedForm (expression : string) : bool :=
  let trimmed := JS.trim expression in
  JS.startsWith trimmed "not " || JS.startsWith trimmed "and "
  || JS.startsWith trimmed "or "
  || RegExp.test (whole IgnoreParser.re_eq_os) trimmed
  || RegExp.test (whole IgnoreParser.re_property) trimmed.

(** The state in which a match is tried at index [i], with [s] the
    input from there on. *)
Definition start (i : nat) (s : string) : RegExp.MatchState :=
  {| RegExp.endIndex := i; RegExp.rest := s; RegExp.captures := [] |}.

(** A matcher succeeds with a continuation that succeeds at least where
    another one with which it succeeds does. *)
Definition monotone
    (m : RegExp.MatchState -> RegExp.Continuation -> option RegExp.MatchState) : Prop :=
  forall x k k', (forall y, is_Some (k y) -> is_Some (k' y)) ->
                 is_Some (m x k) -> is_Some (m x k').

(** A matcher without groups hands its continuation a state further
    into the input, with the captures untouched. *)
Definition advances
    (m : RegExp.MatchState -> RegExp.Continuation -> option RegExp.MatchState) : Prop :=
  forall x k, is_Some (m x k) ->
    exists j, j <= String.length (RegExp.rest x) /\ is_Some (k (shift j x)).

(** The module value after the change [change], for a module that is an
    object. *)
Definition changedModule (change : option bool) (module : option jsval) : option jsval :=
  match change, module with
  | Some b, Some (JObj props) => Some (JObj (<["enabled" := JBool b]> props))
  | _, _ => module
  end.

(** Every module named by an entry and present in the module map [ms] is
    an object (neither [null] nor a primitive). *)
Definition changesObjects (ms : gmap string jsval) (entries : list (string * bool)) : bool :=
  forallb (fun entry => match ms !! fst entry with
                        | Some module => isObject (Some module)
                        | None => true
                        end)
          entries.

(** An entry is keyed [__proto__] and the module map has no module of
    that name: the name then stands for Object.prototype. *)
Definition reachesPrototype (ms : gmap string jsval) (entries : list (string * bool)) : bool :=
  match ms !! "__proto__" with
  | Some _ => false
  | None => existsb (fun entry => String.eqb (fst entry) "__proto__") entries
  end.

(** The number of objects in a value. *)
Fixpoint weight (v : jsval) : nat :=
  match v with
  | JObj props => S (map_fold (fun _ x n => weight x + n) 0 props)
  | _ => 0
  end.

(** Each entry of the stack implies the entries below it, and the
    bottom entry is true. *)
Fixpoint nested (stack : list bool) : bool :=
  match stack with
  | [] => false
  | [bottom] => bottom
  | current :: (parent :: _) as below => implb current parent && nested below
  end.

(** A trimmed line of an ignore file that is neither blank, nor a
    conditional marker, nor a comment. *)
Definition patternLine (trimmed : string) : bool :=
  negb (JS.isEmpty trimmed) && negb (JS.startsWith trimmed "{{-")
  && negb (JS.startsWith trimmed "#").

(** No line of the ignore file is a conditional marker. *)
Definition unconditional (ignoreContent : string) : bool :=
  forallb (fun line => negb (JS.startsWith (JS.trim line) "{{-"))
    (JS.split "010" ignoreContent).

(** The file name of a source path without its [executable_] prefix
    and [.tmpl] suffix, as [FileMapper.mapFile] strips them. *)
Definition strippedName (filename : string) : string :=
  let filename :=
    if JS.startsWith filename "executable_"
    then JS.replacePrefix "executable_" "" filename else filename in
  if JS.endsWith filename ".tmpl" then JS.replaceSuffix ".tmpl" "" filename else filename.

(** The segments of the deploy path of a source path, before the home
    prefix is added. *)
Definition deploySegments (sourcePath : string) : list string :=
  let pathParts := JS.split "/" sourcePath in
  map (JS.replacePrefix "dot_" ".")
    (removelast pathParts ++ [strippedName (List.last pathParts "")]).

(** A relative source path that carries no attribute of the
    source-state naming: no segment begins with [dot_], and the file
    name neither begins with [executable_] nor ends in [.tmpl]. *)
Definition plainPath (sourcePath : string) : bool :=
  let pathParts := JS.split "/" sourcePath in
  forallb (fun part => negb (JS.startsWith part "dot_")) pathParts
  && negb (JS.startsWith (List.last pathParts "") "executable_")
  && negb (JS.endsWith (List.last pathParts "") ".tmpl")
  && negb (JS.startsWith sourcePath "/").

(** The number of [if] blocks open after a line of a template, given
    the number open before it: the markers are recognized as
    [TemplateParser.shouldIncludeTemplate] recognizes them. *)
Definition depthStep (depth : nat) (line : string) : nat :=
  let trimmed := JS.trim line in
  if RegExp.test TemplateParser.re_if_head trimmed then
    if RegExp.test IgnoreParser.re_if trimmed then S depth else depth
  else if RegExp.test TemplateParser.re_else trimmed then depth
  else if RegExp.test TemplateParser.re_end trimmed then Nat.pred depth
  else depth.

(** The number of [if] blocks left open at the end of a template. *)
Definition openBlocks (templateContent : string) : nat :=
  fold_left depthStep (JS.split "010" templateContent) 0.

(** Every code unit of [s] satisfies [p]. *)
Fixpoint allChars (p : ascii -> bool) (s : string) : bool :=
  match s with
  | "" => true
  | String c s' => p c && allChars p s'
  end.

(** The code unit [c] occurs in [s]. *)
Fixpoint occurs (c : ascii) (s : string) : bool :=
  match s with
  | "" => false
  | String a s' => Ascii.eqb a c || occurs c s'
  end.

(** A run of the class [k] cannot go on into [t]. *)
Definition stops (k : RegExp.cclass) (t : string) : bool :=
  match t with
  | "" => true
  | String c _ => negb (RegExp.inClass k c)
  end.

(** The match state at index [i], with [s] still to be read and the
    captures [caps]. *)
Definition state (i : nat) (s : string) (caps : list (nat * string))
    : RegExp.MatchState :=
  {| RegExp.endIndex := i; RegExp.rest := s; RegExp.captures := caps |}.

(** A name as the class \w+ reads it: a non-empty text of letters,
    digits and underscores. *)
Definition isName (w : string) : bool :=
  negb (JS.isEmpty w) && allChars JS.isWord w.

(** An operand that [TemplateParser.splitExpression] keeps whole and
    splits after: it begins with a dot and holds neither white space
    nor a double quote. *)
Definition isOperand (a : string) : bool :=
  JS.startsWith a "."
  && allChars (fun c => negb (JS.isSpace c) && negb (Ascii.eqb c "034")) a.

(** A condition as it is written between [if] and the closing braces:
    not empty, on one line, without a closing brace, and with no white
    space at either end. *)
Definition isCondition (condition : string) : bool :=
  negb (JS.isEmpty condition)
  && allChars (fun c => negb (JS.isLineTerminator c)) condition
  && negb (occurs "}" condition)
  && String.eqb (JS.trimStart condition) condition
  && String.eqb (JS.trimEnd condition) condition.

(** A pattern as it stands on a line of its own in an ignore file. *)
Definition isPatternText (pattern : string) : bool :=
  patternLine pattern && String.eqb (JS.trim pattern) pattern
  && negb (occurs "010" pattern).

(** A character that stands for itself in a pattern: any character
    that is not special in a regular expression, and the dot, which
    the pattern compiler escapes. *)
Definition literalChar (c : ascii) : bool :=
  negb (RegExp.isSyntaxChar c) || Ascii.eqb c ".".

(** A pattern without wildcards (and without the placeholder text the
    compiler uses for the double star). *)
Definition literalPattern (pattern : string) : bool :=
  allChars literalChar pattern && negb (JS.includes pattern "___DOUBLESTAR___").

(** The literal text [p] followed by [r]. *)
Fixpoint litThen (p : string) (r : RegExp.regex) : RegExp.regex :=
  match p with
  | "" => r
  | String c p' => RegExp.Seq (RegExp.Char c) (litThen p' r)
  end.

(** The source text does not begin with a star. *)
Definition noStar (src : string) : bool :=
  match src with
  | String c _ => negb (Ascii.eqb c "*")
  | "" => true
  end.

(** The node reached from [node] along [parts], child by child. *)
Fixpoint findPath (parts : list string) (node : FileMapper.FileTreeNode)
    : option FileMapper.FileTreeNode :=
  match parts with
  | [] => Some node
  | part :: rest =>
      FileMapper.findChild part (default [] (FileMapper.node_children node))
      ≫= findPath rest
  end.

(** ** Inputs used by the examples *)

Module Examples.

(** A host whose constructor rejects every source it is asked about. *)
Definition rejectingHost : RegExp.Host := fun _ _ => None.

Definition configWith (ms : gmap string jsval) : DotfilesConfig :=
  {| data := {| gitUser := {| gitUser_name := "Ada"; gitUser_email := "ada@example.org" |};
                windows := false;
                github := None;
                repoPolicy := None;
                modules := ms |};
     encryption := "age";
     age := {| identity := "~/.config/age/key.txt"; recipient := "age1" |} |}.

(** [shell: {enabled: false, zsh_extras: true}], [git: {enabled: true}] *)
Definition shellDisabled : DotfilesConfig :=
  configWith
    (<["shell" := JObj (<["enabled" := JBool false]> (<["zsh_extras" := JBool true]> ∅))]>
       (<["git" := JObj (<["enabled" := JBool true]> ∅)]> ∅)).

(** [shell: {enabled: true}], [git: {enabled: false}] *)
Definition gitDisabled : DotfilesConfig :=
  configWith
    (<["shell" := JObj (<["enabled" := JBool true]> ∅)]>
       (<["git" := JObj (<["enabled" := JBool false]> ∅)]> ∅)).

(** [shell: {enabled: true}], [extra: null] *)
Definition nullModule : DotfilesConfig :=
  configWith
    (<["shell" := JObj (<["enabled" := JBool true]> ∅)]> (<["extra" := JNull]> ∅)).

(** [shell: {enabled: true, history: .inf}], [since: 2001-12-14] *)
Definition datedModule : DotfilesConfig :=
  configWith
    (<["shell" := JObj (<["enabled" := JBool true]> (<["history" := JInfinity false]> ∅))]>
       (<["since" := JDate "2001-12-14T00:00:00.000Z"]> ∅)).

(** [shell: {enabled: false}], [tools: {}] *)
Definition bareModule : DotfilesConfig :=
  configWith
    (<["shell" := JObj (<["enabled" := JBool false]> ∅)]> (<["tools" := JObj ∅]> ∅)).

(** An ignore file with one platform block: an
    [if eq .chezmoi.os "windows"] line, [foo/**], an [else] line,
    [bar/**] and the closing [end] line. *)
Definition ignoreByOs : string :=
  "{{- if eq .chezmoi.os " ++ JS.dquote ++ "windows" ++ JS.dquote ++ " }}" ++ JS.newline
  ++ "foo/**" ++ JS.newline
  ++ "{{- else }}" ++ JS.newline
  ++ "bar/**" ++ JS.newline
  ++ "{{- end }}".

(** An ignore file with one module block: an
    [if .modules.shell.history] line, [foo] and the closing [end]
    line. *)
Definition ignoreHistory : string :=
  "{{- if .modules.shell.history }}" ++ JS.newline ++ "foo" ++ JS.newline ++ "{{- end }}".

(** [neq .chezmoi.os "windows"] *)
Definition otherThanWindows : string :=
  "neq .chezmoi.os " ++ JS.dquote ++ "windows" ++ JS.dquote.

(** [not eq .chezmoi.os "linux"] *)
Definition notLinux : string :=
  "not eq .chezmoi.os " ++ JS.dquote ++ "linux" ++ JS.dquote.

Definition bashrcMapping (platform : Platform) : FileMapping :=
  {| sourcePath := "dot_bashrc";
     deployPath := "~/.bashrc";
     isTemplate := false;
     isExecutable := false;
     requiredModules := [];
     platforms := [platform] |}.

Definition enableShell : SimulateRequest :=
  {| req_moduleChanges := Some {["shell" := true]};
     req_platform := Some "linux" |}.

End Examples.

(** ** Further inputs *)

Module Fixtures.

(** The seven modules of the sample configuration, [git] and [shell]
    enabled and the others disabled. *)
Definition allModules : DotfilesConfig :=
  Examples.configWith
    (<["shell" := JObj (<["enabled" := JBool true]> (<["zsh_extras" := JBool false]> ∅))]>
    (<["git" := JObj (<["enabled" := JBool true]> ∅)]>
    (<["vscode" := JObj (<["enabled" := JBool false]> ∅)]>
    (<["powershell" := JObj (<["enabled" := JBool false]> ∅)]>
    (<["start_menu" := JObj (<["enabled" := JBool false]> ∅)]>
    (<["modern_tools" := JObj (<["enabled" := JBool false]> ∅)]>
    (<["smart_search" := JObj (<["enabled" := JBool false]> ∅)]> ∅))))))).

End Fixtures.

(** * Properties *)

(** ** The ignore-file resolver on a platform block *)

(** C5: for every configuration, the ignore text with an
    [if eq .chezmoi.os "windows"] block holding [foo/**] and an [else]
    branch holding [bar/**] resolves to exactly [bar/**] on linux and to
    exactly [foo/**] on windows. *)
Theorem parse_ignore_by_os (config : DotfilesConfig) :
  IgnoreParser.parse Examples.ignoreByOs config "linux" = ["bar/**"]
  /\ IgnoreParser.parse Examples.ignoreByOs config "windows" = ["foo/**"].
Proof. split; vm_compute; reflexivity. Qed.

(** ** The two condition evaluators disagree *)

(** C3, at the failing input [not eq .chezmoi.os "linux"] on linux: the
    evaluator of the template parser negates the platform test and
    answers false; the evaluator of the ignore parser drops the [not]
    and answers true.  They also disagree on an [and] of two module
    tests, which the ignore parser reads as its first operand. *)
Theorem evaluators_disagree (config : DotfilesConfig) :
  TemplateParser.evaluateCondition Examples.notLinux config "linux" = false
  /\ IgnoreParser.evaluateCondition Examples.notLinux config "linux" = true
  /\ TemplateParser.evaluateCondition
       "and .modules.shell.enabled .modules.git.enabled" Examples.gitDisabled "linux" = false
  /\ IgnoreParser.evaluateCondition
       "and .modules.shell.enabled .modules.git.enabled" Examples.gitDisabled "linux" = true.
Proof. repeat split; vm_compute; reflexivity. Qed.

(** ** The glob matcher escapes the dots it has just written *)

(** C4, at the failing inputs: the text compiled for [a?c] is [a\.c] and
    the text compiled for [foo/**] is [foo/\.*], so at both call sites
    [abc] does not match [a?c] (only [a.c] does), and at the call site
    anchored at both ends [foo/bar/baz] does not match [foo/**]. *)
Theorem glob_wildcards_become_literal_dots `{RegExp.Host} :
  IgnoreParser.regexPattern "a?c" = "a\.c"
  /\ IgnoreParser.regexPattern "foo/**" = "foo/\.*"
  /\ FileMapper.regexPattern "a?c" = "a\.c"
  /\ FileMapper.regexPattern "foo/**" = "foo/\.*"
  /\ IgnoreParser.shouldIgnore "abc" ["a?c"] = false
  /\ FileMapper.shouldIgnore "abc" ["a?c"] = false
  /\ IgnoreParser.shouldIgnore "a.c" ["a?c"] = true
  /\ FileMapper.shouldIgnore "a.c" ["a?c"] = true
  /\ FileMapper.shouldIgnore "foo/bar/baz" ["foo/**"] = false
  /\ IgnoreParser.shouldIgnore "foo/bar/baz" ["foo/**"] = true
  /\ FileMapper.shouldIgnore "foo/.." ["foo/**"] = true.
Proof. repeat split; vm_compute; reflexivity. Qed.

(** ** Files kept by the two routes *)

Section Resolution.
Context `{RegExp.Host}.

Lemma simulate_resolve_Some config platform ignorePatterns path m :
  SimulateRoute.resolve config platform ignorePatterns path = Some m ->
  m = SimulateRoute.fullMapping platform path.
Proof.
  unfold SimulateRoute.resolve.
  destruct (SimulateRoute.skipped path); [discriminate |].
  destruct (IgnoreParser.shouldIgnore _ _); [discriminate |].
  destruct (negb (existsb _ _)); [discriminate |].
  destruct (negb (forallb _ _)); [discriminate |].
  now intros [= <-].
Qed.

Lemma files_resolve_Some config platform ignorePatterns path m :
  FilesRoute.resolve config platform ignorePatterns path = Some m ->
  m = FileMapper.buildFileMapping path None None
  /\ existsb (String.eqb platform) (platforms m) = true
  /\ forallb (moduleEnabled config) (requiredModules m) = true.
Proof.
  unfold FilesRoute.resolve.
  destruct (FilesRoute.skipped path); [discriminate |].
  destruct (IgnoreParser.shouldIgnore _ _); [discriminate |].
  destruct (existsb _ _) eqn:Hp; [| discriminate].
  destruct (forallb _ _) eqn:Hm; [| discriminate].
  cbn. intros [= <-]. auto.
Qed.


End Resolution.

Lemma getFilesForConfig_In `{RegExp.Host} ignoreContent platform allSourceFiles config m :
  In m (SimulateRoute.getFilesForConfig ignoreContent platform allSourceFiles config) ->
  requiredModules m = [] /\ platforms m = [platform].
Proof.
  unfold SimulateRoute.getFilesForConfig. intros Hin.
  apply list_elem_of_In, list_elem_of_omap in Hin as (path & _ & Hres).
  apply simulate_resolve_Some in Hres as ->. split; reflexivity.
Qed.

(** C2: every mapping that the simulate endpoint builds for a source
    path, and so every mapping that its [getFilesForConfig] returns, has
    an empty [requiredModules] and has the requested platform as its only
    platform: [FileMapper.mapFile] supplies neither field, so the
    fallbacks are always taken. *)
Theorem simulate_mappings_carry_no_modules `{RegExp.Host}
    (ignoreContent : string) (platform : Platform) (allSourceFiles : list string)
    (config : DotfilesConfig) :
  (forall path,
     partial_requiredModules (FileMapper.mapFile path) = None
     /\ partial_platforms (FileMapper.mapFile path) = None
     /\ requiredModules (SimulateRoute.fullMapping platform path) = []
     /\ platforms (SimulateRoute.fullMapping platform path) = [platform])
  /\ forall m,
       In m (SimulateRoute.getFilesForConfig ignoreContent platform allSourceFiles config) ->
       requiredModules m = [] /\ platforms m = [platform].
Proof.
  split; [intros path; repeat split | intros m; apply getFilesForConfig_In].
Qed.

Lemma simulate_mappings_carry_no_modules_witness :
  requiredModules (Examples.bashrcMapping "linux") = []
  /\ platforms (Examples.bashrcMapping "linux") = ["linux"].
Proof.
  apply (@simulate_mappings_carry_no_modules Examples.rejectingHost
           "" "linux" ["dot_bashrc"] Examples.shellDisabled).
  vm_compute. left. reflexivity.
Defined.



(** ** The inclusion-state stack of the ignore parser *)

Section ConditionStack.
Variables (config : DotfilesConfig) (platform : Platform).

Lemma handleConditional_nonempty line stack :
  1 <= length stack ->
  1 <= length (IgnoreParser.handleConditional line stack config platform).
Proof.
  intros Hlen. unfold IgnoreParser.handleConditional.
  destruct (IgnoreParser.classify _); cbn; try lia.
  - destruct stack as [| currentState [| parentState below]]; cbn in *; lia.
  - destruct stack as [| currentState [| parentState below]]; cbn in *; lia.
Qed.

Lemma step_nonempty st line :
  1 <= length (IgnoreParser.conditionStack st) ->
  1 <= length (IgnoreParser.conditionStack (IgnoreParser.step config platform st line)).
Proof.
  intros Hlen. unfold IgnoreParser.step.
  repeat match goal with
         | |- context [if ?b then _ else _] => destruct b
         end; cbn; auto using handleConditional_nonempty.
Qed.

Lemma statesFrom_nonempty lines : forall st,
  1 <= length (IgnoreParser.conditionStack st) ->
  Forall (fun st' => 1 <= length (IgnoreParser.conditionStack st'))
    (IgnoreParser.statesFrom config platform st lines).
Proof.
  induction lines as [| line lines IH]; intros st Hlen; cbn.
  - constructor; [assumption | constructor].
  - constructor; [assumption |]. apply IH. now apply step_nonempty.
Qed.

Lemma statesFrom_last lines : forall st d,
  List.last (IgnoreParser.statesFrom config platform st lines) d
  = fold_left (IgnoreParser.step config platform) lines st.
Proof.
  induction lines as [| line lines IH]; intros st d; [reflexivity |].
  cbn [fold_left]. rewrite <- (IH (IgnoreParser.step config platform st line) d).
  cbn [IgnoreParser.statesFrom]. destruct lines; reflexivity.
Qed.

End ConditionStack.

(** C6: the stack of the ignore parser starts as [[true]]; in every state
    of the loop, from the first to the one [parse] returns its patterns
    from, it holds at least one entry; and an [end] marker met while the
    stack holds exactly one entry leaves it as it is. *)
Theorem condition_stack_never_empty (ignoreContent : string)
    (config : DotfilesConfig) (platform : Platform) :
  let trace := IgnoreParser.states ignoreContent config platform in
  IgnoreParser.conditionStack <$> head trace = Some [true]
  /\ List.last trace IgnoreParser.initial = IgnoreParser.run ignoreContent config platform
  /\ Forall (fun st => 1 <= length (IgnoreParser.conditionStack st)) trace
  /\ forall line stack,
       IgnoreParser.classify (JS.trim line) = IgnoreParser.MarkEnd ->
       length stack = 1 ->
       IgnoreParser.handleConditional line stack config platform = stack.
Proof.
  cbn zeta. unfold IgnoreParser.states, IgnoreParser.run. repeat split.
  - destruct (JS.split _ _); reflexivity.
  - apply statesFrom_last.
  - apply statesFrom_nonempty. cbn. lia.
  - intros line stack Hend Hlen. unfold IgnoreParser.handleConditional.
    rewrite Hend. destruct stack as [| b [| b' below]]; cbn in *; try reflexivity; lia.
Qed.

Lemma condition_stack_never_empty_witness :
  IgnoreParser.handleConditional "{{- end }}" [true] Examples.shellDisabled "linux" = [true].
Proof.
  apply (condition_stack_never_empty Examples.ignoreByOs Examples.shellDisabled "linux");
    reflexivity.
Defined.

(** ** Simulating the shell module *)

(** Whatever the ignore file, the configuration and the changes, no file
    reported as added or removed requires a module. *)
Lemma simulate_diff_requires_no_module `{RegExp.Host} body baseConfig ignoreContent
    allSourceFiles response m :
  SimulateRoute.POST body baseConfig ignoreContent allSourceFiles = Ok response ->
  In m (filesAdded response) \/ In m (filesRemoved response) ->
  requiredModules m = [].
Proof.
  unfold SimulateRoute.POST.
  destruct (req_moduleChanges body) as [moduleChanges |]; [| discriminate].
  destruct (TemplateParser.applyModuleChanges baseConfig moduleChanges)
    as [simulatedConfig |]; [| discriminate].
  intros [= <-]. cbn [filesAdded filesRemoved].
  intros [Hin | Hin]; apply filter_In in Hin as [Hin _];
    now apply getFilesForConfig_In in Hin.
Qed.

(** C1, at the failing input: with [shell.enabled] false in the base
    configuration, the single source file [dot_bashrc], the change
    [shell: true], no ignore pattern and platform linux, the simulate
    endpoint answers with no added file, no removed file and one file
    both before and after: the mapping of [dot_bashrc] requires no
    module, so it is deployed under both configurations. *)
Theorem simulate_enabling_shell_adds_nothing `{RegExp.Host} :
  SimulateRoute.POST Examples.enableShell Examples.shellDisabled "" ["dot_bashrc"]
  = Ok {| filesAdded := [];
          filesRemoved := [];
          totalFilesBefore := 1;
          totalFilesAfter := 1;
          resp_platform := "linux";
          resp_moduleChanges := {["shell" := true]} |}
  /\ SimulateRoute.getFilesForConfig "" "linux" ["dot_bashrc"] Examples.shellDisabled
     = [Examples.bashrcMapping "linux"]
  /\ moduleEnabled Examples.shellDisabled "shell" = false
  /\ (fun simulatedConfig => moduleEnabled simulatedConfig "shell")
     <$> TemplateParser.applyModuleChanges Examples.shellDisabled {["shell" := true]}
     = Some true.
Proof. repeat split; vm_compute; reflexivity. Qed.

(** ** The path mapper *)

Section Segments.

Lemma split_nonempty sep s : JS.split sep s <> [].
Proof.
  destruct s as [| c s]; cbn; [discriminate |].
  destruct (Ascii.eqb c sep); [discriminate |].
  destruct (JS.split sep s); discriminate.
Qed.

Lemma split_noSlash s : Forall (fun x => noSlash x = true) (JS.split "/" s).
Proof.
  induction s as [| c s IH]; cbn [JS.split].
  - repeat constructor.
  - destruct (Ascii.eqb c "/") eqn:Hc.
    + constructor; [reflexivity | assumption].
    + destruct (JS.split "/" s) as [| h t].
      * repeat constructor. cbn [noSlash]. now rewrite Hc.
      * inversion IH as [| ? ? Hh Ht]; subst. constructor; [| assumption].
        cbn [noSlash]. now rewrite Hc.
Qed.

Lemma split_app_noSlash x r :
  noSlash x = true -> JS.split "/" (x ++ String "/" r) = x :: JS.split "/" r.
Proof.
  induction x as [| c x IH]; cbn [noSlash]; intros Hx; [reflexivity |].
  apply andb_true_iff in Hx as [Hc Hx]. apply negb_true_iff in Hc.
  change (String c x ++ String "/" r) with (String c (x ++ String "/" r)).
  cbn [JS.split]. rewrite Hc, (IH Hx). reflexivity.
Qed.

Lemma split_noSlash_id x : noSlash x = true -> JS.split "/" x = [x].
Proof.
  induction x as [| c x IH]; cbn [noSlash JS.split]; intros Hx; [reflexivity |].
  apply andb_true_iff in Hx as [Hc Hx]. apply negb_true_iff in Hc.
  rewrite Hc, (IH Hx). reflexivity.
Qed.

Lemma join_cons x y xs :
  JS.join "/" (x :: y :: xs) = x ++ String "/" (JS.join "/" (y :: xs)).
Proof. reflexivity. Qed.

Lemma split_join xs :
  xs <> [] -> Forall (fun x => noSlash x = true) xs ->
  JS.split "/" (JS.join "/" xs) = xs.
Proof.
  induction xs as [| x xs IH]; [congruence |]. intros _ Hall.
  inversion Hall as [| ? ? Hx Hxs]; subst.
  destruct xs as [| y xs].
  - now apply split_noSlash_id.
  - rewrite join_cons, split_app_noSlash by assumption.
    f_equal. apply IH; [discriminate | assumption].
Qed.

Lemma startsWith_slash_cons c x : JS.startsWith (String c x) "/" = Ascii.eqb c "/".
Proof.
  unfold JS.startsWith. cbn [String.prefix].
  destruct (ascii_dec "/" c) as [<- | Hne]; [now destruct x |].
  symmetry. apply Ascii.eqb_neq. congruence.
Qed.

Lemma startsWith_noSlash x : noSlash x = true -> JS.startsWith x "/" = false.
Proof.
  destruct x as [| c x]; [reflexivity |]. cbn [noSlash]. intros Hx.
  apply andb_true_iff in Hx as [Hc _]. apply negb_true_iff in Hc.
  now rewrite startsWith_slash_cons.
Qed.

Lemma startsWith_join xs :
  Forall (fun x => noSlash x = true) xs ->
  JS.startsWith (JS.join "/" xs) "/" = slashFirst xs.
Proof.
  destruct xs as [| x [| y xs]]; intros Hall; [reflexivity | |].
  - inversion Hall; subst. change (JS.join "/" [x]) with x.
    rewrite startsWith_noSlash by assumption.
    destruct x; reflexivity.
  - inversion Hall as [| ? ? Hx _]; subst. rewrite join_cons.
    destruct x as [| c x].
    { change (JS.startsWith (String "/" (JS.join "/" (y :: xs))) "/" = true).
      now rewrite startsWith_slash_cons. }
    cbn [noSlash] in Hx. apply andb_true_iff in Hx as [Hc _]. apply negb_true_iff in Hc.
    change (String c x ++ String "/" (JS.join "/" (y :: xs)))
      with (String c (x ++ String "/" (JS.join "/" (y :: xs)))).
    now rewrite startsWith_slash_cons.
Qed.

Lemma slashFirst_split s : slashFirst (JS.split "/" s) = JS.startsWith s "/".
Proof.
  destruct s as [| c s]; [reflexivity |].
  rewrite startsWith_slash_cons. cbn [JS.split].
  destruct (Ascii.eqb c "/") eqn:Hc.
  - pose proof (split_nonempty "/" s). destruct (JS.split "/" s); [congruence | reflexivity].
  - destruct (JS.split "/" s); reflexivity.
Qed.

Lemma slashFirst_map (f : string -> string) xs :
  (forall x, JS.isEmpty (f x) = JS.isEmpty x) ->
  slashFirst (map f xs) = slashFirst xs.
Proof.
  intros Hf. destruct xs as [| x [| y xs]]; cbn.
  - reflexivity.
  - destruct (f x), x; reflexivity.
  - specialize (Hf x). destruct (f x), x; cbn in Hf; congruence.
Qed.

Lemma slashFirst_replace_last xs y :
  slashFirst (removelast xs ++ [y]) = slashFirst xs.
Proof.
  destruct xs as [| x [| x2 xs]].
  - cbn. destruct y; reflexivity.
  - cbn. destruct y, x; reflexivity.
  - change (removelast (x :: x2 :: xs) ++ [y])%list
      with (x :: (removelast (x2 :: xs) ++ [y]))%list.
    destruct (removelast (x2 :: xs) ++ [y])%list eqn:E; [| reflexivity].
    now apply app_eq_nil in E as [_ E].
Qed.

Lemma noSlash_app x y : noSlash x = true -> noSlash y = true -> noSlash (x ++ y) = true.
Proof.
  induction x as [| c x IH]; [auto |]. intros Hx Hy.
  change (String c x ++ y) with (String c (x ++ y)). cbn [noSlash] in *.
  apply andb_true_iff in Hx as [Hc Hx]. rewrite Hc. cbn [andb]. auto.
Qed.

Lemma noSlash_substringFrom n : forall x,
  noSlash x = true -> noSlash (JS.substringFrom n x) = true.
Proof.
  induction n as [| n IH]; intros [| c x] Hx; cbn [JS.substringFrom]; auto.
  cbn [noSlash] in Hx. apply andb_true_iff in Hx as [_ Hx]. auto.
Qed.

Lemma noSlash_substring n : forall x,
  noSlash x = true -> noSlash (String.substring 0 n x) = true.
Proof.
  induction n as [| n IH]; intros [| c x] Hx; cbn [String.substring noSlash] in *; auto.
  apply andb_true_iff in Hx as [Hc Hx]. rewrite Hc. cbn [andb]. auto.
Qed.

Lemma noSlash_replacePrefix p by_ x :
  noSlash by_ = true -> noSlash x = true -> noSlash (JS.replacePrefix p by_ x) = true.
Proof.
  intros Hb Hx. unfold JS.replacePrefix. destruct (JS.startsWith x p); [| assumption].
  apply noSlash_app; [assumption | now apply noSlash_substringFrom].
Qed.

Lemma noSlash_replaceSuffix p by_ x :
  noSlash by_ = true -> noSlash x = true -> noSlash (JS.replaceSuffix p by_ x) = true.
Proof.
  intros Hb Hx. unfold JS.replaceSuffix. destruct (JS.endsWith x p); [| assumption].
  apply noSlash_app; [now apply noSlash_substring | assumption].
Qed.

Lemma isEmpty_dot x : JS.isEmpty (JS.replacePrefix "dot_" "." x) = JS.isEmpty x.
Proof.
  unfold JS.replacePrefix. destruct (JS.startsWith x "dot_") eqn:E; [| reflexivity].
  destruct x; [discriminate | reflexivity].
Qed.

Lemma Forall_noSlash_removelast xs :
  Forall (fun x => noSlash x = true) xs ->
  Forall (fun x => noSlash x = true) (removelast xs).
Proof.
  induction 1 as [| x xs Hx Hxs IH]; cbn; [constructor |].
  destruct xs; [constructor | constructor; assumption].
Qed.

Lemma noSlash_last xs :
  Forall (fun x => noSlash x = true) xs -> noSlash (List.last xs "") = true.
Proof.
  induction 1 as [| x xs Hx Hxs IH]; cbn; [reflexivity |].
  destruct xs; assumption.
Qed.

End Segments.

(** The deploy path before the home marker is added begins with a
    separator exactly when the source path does. *)
Lemma mapFile_deployPath sourcePath :
  exists deployPath,
    JS.startsWith deployPath "/" = JS.startsWith sourcePath "/"
    /\ partial_deployPath (FileMapper.mapFile sourcePath)
       = if negb (JS.startsWith deployPath "/") && negb (JS.startsWith deployPath ".")
         then "~/" ++ deployPath
         else if JS.startsWith deployPath "." then "~/" ++ deployPath
         else deployPath.
Proof.
  unfold FileMapper.mapFile. cbn [partial_deployPath].
  set (pathParts := JS.split "/" sourcePath).
  set (filename := if JS.endsWith _ ".tmpl" then _ else _).
  eexists. split; [| reflexivity].
  assert (Hparts : Forall (fun x => noSlash x = true) pathParts) by apply split_noSlash.
  assert (Hfile : noSlash filename = true).
  { subst filename. pose proof (noSlash_last _ Hparts) as Hlast.
    assert (noSlash (if JS.startsWith (List.last pathParts "") "executable_"
                     then JS.replacePrefix "executable_" "" (List.last pathParts "")
                     else List.last pathParts "") = true) as Hexec.
    { destruct (JS.startsWith _ _); [| assumption].
      now apply noSlash_replacePrefix. }
    destruct (JS.endsWith _ _); [| assumption].
    now apply noSlash_replaceSuffix. }
  assert (Hall : Forall (fun x => noSlash x = true) (removelast pathParts ++ [filename])).
  { apply Forall_app. split; [now apply Forall_noSlash_removelast | repeat constructor; assumption]. }
  rewrite split_join; [| now destruct (removelast pathParts) | assumption].
  rewrite startsWith_join.
  - rewrite slashFirst_map by apply isEmpty_dot.
    rewrite slashFirst_replace_last. apply slashFirst_split.
  - apply Forall_map. eapply Forall_impl; [exact Hall |].
    intros x Hx. now apply noSlash_replacePrefix.
Qed.

(** The claim as stated fails: an absolute source path is mapped to
    itself. *)
Lemma deploy_path_of_absolute_source_not_home_relative :
  ~ (forall sourcePath,
       JS.startsWith (partial_deployPath (FileMapper.mapFile sourcePath)) "~/" = true).
Proof. intros Hall. specialize (Hall "/etc/hosts"). vm_compute in Hall. discriminate. Qed.

(** C7, amended: every text is accepted as a source path; the deploy
    path begins with the home marker [~/] exactly when the source path
    does not begin with a separator, and a source path that begins with
    a separator is mapped to a deploy path that begins with one too. *)
Theorem deploy_path_home_relative (sourcePath : string) :
  JS.startsWith (partial_deployPath (FileMapper.mapFile sourcePath)) "~/"
  = negb (JS.startsWith sourcePath "/")
  /\ (JS.startsWith sourcePath "/" = true ->
      JS.startsWith (partial_deployPath (FileMapper.mapFile sourcePath)) "/" = true).
Proof.
  destruct (mapFile_deployPath sourcePath) as (deployPath & Hslash & ->).
  rewrite <- Hslash. clear Hslash.
  destruct deployPath as [| c deployPath]; [split; [reflexivity | discriminate] |].
  rewrite startsWith_slash_cons.
  destruct (Ascii.eqb c "/") eqn:Hc.
  - apply Ascii.eqb_eq in Hc as ->. split; intros; destruct deployPath; reflexivity.
  - split; [| discriminate]. cbn [negb andb].
    destruct (JS.startsWith (String c deployPath) "."); destruct deployPath; reflexivity.
Qed.

Lemma deploy_path_home_relative_witness :
  JS.startsWith (partial_deployPath (FileMapper.mapFile "/etc/hosts")) "/" = true.
Proof. apply (deploy_path_home_relative "/etc/hosts"). reflexivity. Defined.

(** ** The matcher *)

Section Matcher.
Import RegExp.

Lemma orElse_is_Some {A} (a b : option A) :
  is_Some (match a with Some z => Some z | None => b end) <-> is_Some a \/ is_Some b.
Proof.
  destruct a as [z |].
  - split; [left |]; eauto.
  - split; [now right |]. intros [[? [=]] | Hb]. assumption.
Qed.

Lemma repeatMatcher_mono m greedy :
  monotone m ->
  forall fuel, monotone (fun x k => repeatMatcher m greedy k fuel x).
Proof.
  intros Hm fuel. induction fuel as [| fuel IH]; intros x k k' Hk; cbn [repeatMatcher].
  - apply Hk.
  - assert (Hagain :
      is_Some (m x (fun y => if (String.length (rest y) <? String.length (rest x))%nat
                             then repeatMatcher m greedy k fuel y else None)) ->
      is_Some (m x (fun y => if (String.length (rest y) <? String.length (rest x))%nat
                             then repeatMatcher m greedy k' fuel y else None))).
    { apply Hm. intros y. destruct (_ <? _)%nat; [| auto]. now apply IH. }
    destruct greedy; rewrite !orElse_is_Some; intros [H1 | H2]; auto.
Qed.

Lemma matcher_mono r : monotone (matcher r).
Proof.
  induction r as [| a | cl | r1 IH1 r2 IH2 | r1 IH1 r2 IH2 | g r0 IH | n r0 IH | |];
    intros x k k' Hk; cbn [matcher].
  - apply Hk.
  - destruct (rest x) as [| b s']; [auto |]. destruct (Ascii.eqb a b); [apply Hk | auto].
  - destruct (rest x) as [| b s']; [auto |]. destruct (inClass cl b); [apply Hk | auto].
  - apply IH1. intros y. now apply IH2.
  - rewrite !orElse_is_Some. intros [H1 | H2]; [left | right]; eauto.
  - now apply (repeatMatcher_mono (matcher r0) g IH).
  - apply IH. intros y. apply Hk.
  - destruct (_ =? _)%nat; [apply Hk | auto].
  - destruct (JS.isEmpty _); [apply Hk | auto].
Qed.

(** A repetition followed by a continuation that always succeeds
    succeeds. *)
Lemma repeatMatcher_total m greedy k fuel x :
  (forall y, is_Some (k y)) -> is_Some (repeatMatcher m greedy k fuel x).
Proof.
  intros Hk. destruct fuel as [| fuel]; cbn [repeatMatcher]; [apply Hk |].
  destruct greedy; rewrite orElse_is_Some; auto.
Qed.

Lemma shift_0 x : shift 0 x = x.
Proof. now destruct x. Qed.

Lemma substringFrom_add j1 : forall j2 s,
  JS.substringFrom j2 (JS.substringFrom j1 s) = JS.substringFrom (j1 + j2) s.
Proof.
  induction j1 as [| j1 IH]; intros j2 s; [reflexivity |].
  destruct s as [| c s]; cbn [JS.substringFrom Nat.add]; [now destruct j2 | apply IH].
Qed.

Lemma substringFrom_length j : forall s,
  String.length (JS.substringFrom j s) = String.length s - j.
Proof.
  induction j as [| j IH]; intros [| c s]; cbn [JS.substringFrom String.length];
    auto with lia.
Qed.

Lemma shift_shift j1 j2 x : shift j2 (shift j1 x) = shift (j1 + j2) x.
Proof.
  unfold shift; cbn [endIndex rest captures].
  rewrite substringFrom_add. f_equal. lia.
Qed.

Lemma advances_here x (k : Continuation) :
  is_Some (k x) -> exists j, j <= String.length (rest x) /\ is_Some (k (shift j x)).
Proof. intros Hk. exists 0. rewrite shift_0. split; [lia | assumption]. Qed.

Lemma advances_step x b s' (k : Continuation) :
  rest x = String b s' -> is_Some (k (advance x s')) ->
  exists j, j <= String.length (rest x) /\ is_Some (k (shift j x)).
Proof.
  intros Hrest Hk. exists 1. rewrite Hrest. split; [cbn; lia |].
  unfold shift. rewrite Hrest. exact Hk.
Qed.

Lemma advances_then x j (k : Continuation) :
  j <= String.length (rest x) ->
  (exists j', j' <= String.length (rest (shift j x)) /\ is_Some (k (shift j' (shift j x)))) ->
  exists j, j <= String.length (rest x) /\ is_Some (k (shift j x)).
Proof.
  intros Hj (j' & Hj' & Hk). exists (j + j'). rewrite <- shift_shift. split; [| assumption].
  cbn [shift rest] in Hj'. rewrite substringFrom_length in Hj'. lia.
Qed.

Lemma repeatMatcher_reaches m greedy (k : Continuation) :
  advances m ->
  forall fuel x, is_Some (repeatMatcher m greedy k fuel x) ->
    exists j, j <= String.length (rest x) /\ is_Some (k (shift j x)).
Proof.
  intros Hm fuel. induction fuel as [| fuel IH]; intros x; cbn [repeatMatcher].
  - apply advances_here.
  - assert (Hagain :
      is_Some (m x (fun y => if (String.length (rest y) <? String.length (rest x))%nat
                             then repeatMatcher m greedy k fuel y else None)) ->
      exists j, j <= String.length (rest x) /\ is_Some (k (shift j x))).
    { intros H. apply Hm in H as (j & Hj & H).
      destruct (_ <? _)%nat; [| now destruct H].
      apply (advances_then x j k Hj). now apply IH. }
    destruct greedy; rewrite orElse_is_Some; intros [H1 | H2];
      auto using advances_here.
Qed.

Lemma matcher_advances r : groupless r = true -> advances (matcher r).
Proof.
  induction r as [| a | cl | r1 IH1 r2 IH2 | r1 IH1 r2 IH2 | g r0 IH | n r0 IH | |];
    cbn [groupless]; intros Hg x k; cbn [matcher].
  - apply advances_here.
  - destruct (rest x) as [| b s'] eqn:Hrest; [now intros [? [=]] |].
    destruct (Ascii.eqb a b); [| now intros [? [=]]].
    rewrite <- Hrest. now apply advances_step with b.
  - destruct (rest x) as [| b s'] eqn:Hrest; [now intros [? [=]] |].
    destruct (inClass cl b); [| now intros [? [=]]].
    rewrite <- Hrest. now apply advances_step with b.
  - apply andb_true_iff in Hg as [Hg1 Hg2]. intros H.
    apply (IH1 Hg1) in H as (j & Hj & H).
    apply (advances_then x j k Hj). now apply (IH2 Hg2).
  - apply andb_true_iff in Hg as [Hg1 Hg2].
    rewrite orElse_is_Some. intros [H | H]; [now apply (IH1 Hg1) | now apply (IH2 Hg2)].
  - apply repeatMatcher_reaches. now apply IH.
  - discriminate.
  - destruct (_ =? _)%nat; [apply advances_here | now intros [? [=]]].
  - destruct (JS.isEmpty _); [apply advances_here | now intros [? [=]]].
Qed.

(** *** Searching *)

Lemma search_eq r i s :
  search r i s
  = match matcher r (start i s) Some with
    | Some y => Some (i, y)
    | None => match s with
              | "" => None
              | String _ s' => search r (S i) s'
              end
    end.
Proof. destruct s; reflexivity. Qed.

Lemma search_at_suffix r j : forall s i,
  j <= String.length s ->
  is_Some (matcher r (shift j (start i s)) Some) -> is_Some (search r i s).
Proof.
  induction j as [| j IH]; intros s i Hj H; rewrite search_eq.
  - rewrite shift_0 in H. destruct H as [y ->]. eauto.
  - destruct s as [| c s]; [cbn in Hj; lia |].
    destruct (matcher r (start i (String c s)) Some); [eauto |].
    apply IH; [cbn in Hj; lia |].
    replace (shift j (start (S i) s)) with (shift (S j) (start i (String c s))); [assumption |].
    unfold shift, start; cbn [endIndex rest captures JS.substringFrom]. f_equal. lia.
Qed.

Lemma search_transfer r1 r2 :
  (forall i s, is_Some (matcher r1 (start i s) Some) ->
     exists j, j <= String.length s /\ is_Some (matcher r2 (shift j (start i s)) Some)) ->
  forall s i, is_Some (search r1 i s) -> is_Some (search r2 i s).
Proof.
  intros Hr s. induction s as [| c s IH]; intros i; rewrite (search_eq r1).
  - destruct (matcher r1 (start i "") Some) eqn:E; [| now intros [? [=]]].
    intros _. destruct (Hr i "") as (j & Hj & H); [rewrite E; eauto |].
    now apply (search_at_suffix r2 j "" i Hj).
  - destruct (matcher r1 (start i (String c s)) Some) eqn:E.
    + intros _. destruct (Hr i (String c s)) as (j & Hj & H); [rewrite E; eauto |].
      now apply (search_at_suffix r2 j (String c s) i Hj).
    + intros H. apply IH in H. rewrite search_eq.
      destruct (matcher r2 (start i (String c s)) Some); [eauto | assumption].
Qed.

Lemma test_transfer r1 r2 s :
  (forall i s, is_Some (matcher r1 (start i s) Some) ->
     exists j, j <= String.length s /\ is_Some (matcher r2 (shift j (start i s)) Some)) ->
  test r2 s = false -> exec r1 s = None.
Proof.
  intros Hr Htest. unfold test, exec in *.
  destruct (search r1 0 s) eqn:E1; [| reflexivity].
  assert (is_Some (search r2 0 s)) as [z Hz] by (apply (search_transfer r1 r2 Hr); rewrite E1; eauto).
  rewrite Hz in Htest. discriminate.
Qed.

End Matcher.

(** ** Expressions of no recognized form *)

Section Forms.
Import RegExp.

Lemma seq_tail_mono a b b' :
  (forall y, is_Some (matcher b y Some) -> is_Some (matcher b' y Some)) ->
  forall x, is_Some (matcher (Seq a b) x Some) -> is_Some (matcher (Seq a b') x Some).
Proof. intros Hb x. cbn [matcher]. apply matcher_mono. exact Hb. Qed.

Lemma matcher_Char_Some a x k :
  is_Some (matcher (Char a) x k) ->
  exists s', rest x = String a s' /\ is_Some (k (advance x s')).
Proof.
  cbn [matcher]. destruct (rest x) as [| b s']; [now intros [? [=]] |].
  destruct (Ascii.eqb a b) eqn:E; [| now intros [? [=]]].
  apply Ascii.eqb_eq in E as <-. eauto.
Qed.

Lemma enabled_tail_is_property_tail z :
  is_Some (matcher (Seq (Lit ".enabled") Empty) z Some) ->
  is_Some (matcher (Seq (Char ".") (Seq (Group 2 (Plus true (Class CWord))) Empty)) z Some).
Proof.
  cbn [Lit]. intros H.
  change (is_Some (matcher (Char ".") z (fun y =>
            matcher (Char "e") y (fun y' =>
              matcher (Seq (Lit "nabled") Empty) y' Some)))) in H.
  apply matcher_Char_Some in H as (s1 & Hz & H).
  apply matcher_Char_Some in H as (s2 & Hs1 & _). cbn [rest advance] in Hs1. subst s1.
  cbn [matcher Plus]. rewrite Hz. cbn [rest advance].
  change (inClass CWord "e") with true. cbv iota.
  change (Ascii.eqb "." ".") with true. cbv iota.
  apply repeatMatcher_total. intros y. eauto.
Qed.

Lemma enabled_is_property x :
  is_Some (matcher IgnoreParser.re_enabled x Some) ->
  is_Some (matcher IgnoreParser.re_property x Some).
Proof.
  unfold IgnoreParser.re_enabled, IgnoreParser.re_property, Cat. cbn [fold_right].
  apply seq_tail_mono. intros y. apply seq_tail_mono. exact enabled_tail_is_property_tail.
Qed.

Lemma not_prefix_reaches R i s :
  is_Some (matcher (Cat [Lit "not"; Plus true IgnoreParser.ws; R]) (start i s) Some) ->
  exists j, j <= String.length s /\ is_Some (matcher R (shift j (start i s)) Some).
Proof.
  unfold Cat. cbn [fold_right]. intros H.
  change (is_Some (matcher (Lit "not") (start i s) (fun y =>
            matcher (Plus true IgnoreParser.ws) y (fun y' => matcher R y' Some)))) in H.
  apply (matcher_advances (Lit "not") eq_refl) in H as (j & Hj & H).
  apply (advances_then (start i s) j (fun y => matcher R y Some) Hj).
  now apply (matcher_advances (Plus true IgnoreParser.ws) eq_refl) in H.
Qed.

Lemma matches_here r1 r2 :
  (forall x, is_Some (matcher r1 x Some) -> is_Some (matcher r2 x Some)) ->
  forall i s, is_Some (matcher r1 (start i s) Some) ->
    exists j, j <= String.length s /\ is_Some (matcher r2 (shift j (start i s)) Some).
Proof.
  intros Hr i s H. exists 0. rewrite shift_0. split; [lia | now apply Hr].
Qed.

Lemma test_false_exec r s : test r s = false -> exec r s = None.
Proof. unfold test. now destruct (exec r s). Qed.

(** A regular expression that matches the whole of a text matches in
    it. *)
Lemma whole_matches_within r i s :
  is_Some (matcher (whole r) (start i s) Some) ->
  exists j, j <= String.length s /\ is_Some (matcher r (shift j (start i s)) Some).
Proof.
  unfold whole, Cat. cbn [fold_right matcher]. intros H.
  destruct (endIndex (start i s) =? 0)%nat; [| now destruct H as [? [=]]].
  exists 0. rewrite shift_0. split; [lia |].
  eapply (matcher_mono r); [| exact H]. intros y _. now eexists.
Qed.

Lemma test_whole r s : test r s = false -> test (whole r) s = false.
Proof.
  intros Htest. unfold test.
  now rewrite (test_transfer (whole r) r s (whole_matches_within r) Htest).
Qed.

(** An expression that mentions no test is matched by none of the five
    regular expressions of the evaluators. *)
Lemma unrecognized_matches_nothing e :
  mentionsTest e = false ->
  exec IgnoreParser.re_eq_os e = None
  /\ exec IgnoreParser.re_property e = None
  /\ exec IgnoreParser.re_enabled e = None
  /\ exec IgnoreParser.re_not_property e = None
  /\ exec IgnoreParser.re_not_enabled e = None.
Proof.
  unfold mentionsTest. rewrite !orb_false_iff. intros [Heq Hprop].
  repeat split.
  - now apply test_false_exec.
  - now apply test_false_exec.
  - apply (test_transfer _ IgnoreParser.re_property); [| assumption].
    apply matches_here. exact enabled_is_property.
  - apply (test_transfer _ IgnoreParser.re_property); [| assumption].
    intros i s. apply not_prefix_reaches.
  - apply (test_transfer _ IgnoreParser.re_property); [| assumption].
    intros i s H. apply not_prefix_reaches in H as (j & Hj & H).
    exists j. split; [assumption | now apply enabled_is_property].
Qed.

End Forms.

(** The claim as stated fails: [neq .chezmoi.os "windows"] is of none
    of the documented forms, and both evaluators answer false for it on
    the platform linux: they find the platform test inside it. *)
Lemma expression_of_no_documented_form_is_false :
  documentedForm Examples.otherThanWindows = false
  /\ TemplateParser.evaluateCondition Examples.otherThanWindows Examples.shellDisabled "linux"
     = false
  /\ IgnoreParser.evaluateCondition Examples.otherThanWindows Examples.shellDisabled "linux"
     = false.
Proof. repeat split; vm_compute; reflexivity. Qed.

(** C10, amended: an expression in which, once trimmed, none of the
    recognized forms occurs (it does not begin with [not], [and] or
    [or], and no part of it is a platform test or a module test) is of
    no documented form and evaluates to true, under every
    configuration and platform and in both evaluators; the ignore-file
    evaluator is given the trimmed expression, as [extractCondition]
    hands it over.  That evaluator, which knows no leading operator,
    answers true for every expression that mentions no test.  The
    recursive evaluator answers within the bound set from the length
    of the expression, so the answer is not the default for an
    exhausted bound. *)
Theorem unrecognized_expression_is_true (expression : string)
    (config : DotfilesConfig) (platform : Platform) :
  (containsForm (JS.trim expression) = false ->
   documentedForm expression = false
   /\ TemplateParser.evaluateWithin (S (String.length expression)) expression config platform
      = Some true
   /\ TemplateParser.evaluateCondition expression config platform = true
   /\ IgnoreParser.evaluateCondition (JS.trim expression) config platform = true)
  /\ (mentionsTest expression = false ->
      IgnoreParser.evaluateCondition expression config platform = true).
Proof.
  assert (Hignore : forall e, mentionsTest e = false ->
            IgnoreParser.evaluateCondition e config platform = true).
  { intros e Hform.
    destruct (unrecognized_matches_nothing _ Hform) as (Heq & Hprop & Hen & Hnp & Hne).
    unfold IgnoreParser.evaluateCondition, IgnoreParser.guarded.
    rewrite Heq, Hprop, Hen, Hnp, Hne.
    now repeat match goal with |- context [if ?b then _ else _] => destruct b end. }
  split; [| apply Hignore].
  - intros Hform.
    unfold containsForm in Hform. rewrite !orb_false_iff in Hform.
    destruct Hform as [[[Hnot Hand] Hor] Htest].
    assert (TemplateParser.evaluateWithin (S (String.length expression)) expression
              config platform = Some true) as Heval.
    { destruct (unrecognized_matches_nothing _ Htest) as (Heq & Hprop & Hen & _).
      cbn [TemplateParser.evaluateWithin]. rewrite Hnot, Hand, Hor.
      unfold IgnoreParser.guarded. rewrite Heq, Hprop, Hen.
      now repeat match goal with |- context [if ?b then _ else _] => destruct b end. }
    split_and!; [| assumption | | now apply Hignore].
    + unfold documentedForm. cbn zeta. rewrite Hnot, Hand, Hor.
      unfold mentionsTest in Htest. apply orb_false_iff in Htest as [Heq Hprop].
      now rewrite (test_whole _ _ Heq), (test_whole _ _ Hprop).
    + unfold TemplateParser.evaluateCondition. now rewrite Heval.
Qed.

Lemma unrecognized_expression_is_true_witness :
  documentedForm " true " = false
  /\ TemplateParser.evaluateCondition " true " Examples.shellDisabled "linux" = true
  /\ IgnoreParser.evaluateCondition "true" Examples.shellDisabled "linux" = true
  /\ IgnoreParser.evaluateCondition "and" Examples.shellDisabled "linux" = true.
Proof.
  split_and!.
  - apply (unrecognized_expression_is_true " true " Examples.shellDisabled "linux").
    reflexivity.
  - apply (unrecognized_expression_is_true " true " Examples.shellDisabled "linux").
    reflexivity.
  - apply (unrecognized_expression_is_true " true " Examples.shellDisabled "linux").
    reflexivity.
  - apply (unrecognized_expression_is_true "and" Examples.shellDisabled "linux").
    reflexivity.
Defined.

(** ** The recursive evaluator always answers *)

Section Fuel.

Lemma trimStart_length s : String.length (JS.trimStart s) <= String.length s.
Proof.
  induction s as [| c s IH]; cbn [JS.trimStart String.length]; [lia |].
  destruct (JS.isSpace c); cbn [String.length]; lia.
Qed.

Lemma trimEnd_length s : String.length (JS.trimEnd s) <= String.length s.
Proof.
  induction s as [| c s IH]; cbn [JS.trimEnd String.length]; [lia |].
  destruct (JS.isSpace c && JS.isEmpty (JS.trimEnd s)); cbn [String.length]; lia.
Qed.

Lemma trim_length s : String.length (JS.trim s) <= String.length s.
Proof.
  unfold JS.trim. pose proof (trimEnd_length (JS.trimStart s)).
  pose proof (trimStart_length s). lia.
Qed.

Lemma startsWith_length s p :
  JS.startsWith s p = true -> String.length p <= String.length s.
Proof.
  unfold JS.startsWith. revert s.
  induction p as [| a p IH]; intros s; [cbn [String.length]; lia |].
  destruct s as [| b s]; cbn [String.prefix String.length]; [discriminate |].
  destruct (ascii_dec a b); [| discriminate].
  intros H. apply IH in H. lia.
Qed.

Lemma append_length s t : String.length (s ++ t) = String.length s + String.length t.
Proof.
  induction s as [| c s IH]; [reflexivity |].
  change (String c s ++ t) with (String c (s ++ t)). cbn [String.length]. lia.
Qed.

(** Every part cut by the loop is at most as long as the text read so
    far. *)
Lemma splitLoop_length chars : forall st n,
  String.length (TemplateParser.current st) <= n ->
  Forall (fun part => String.length part <= n) (TemplateParser.parts st) ->
  let st' := fold_left TemplateParser.splitStep chars st in
  String.length (TemplateParser.current st') <= n + length chars
  /\ Forall (fun part => String.length part <= n + length chars) (TemplateParser.parts st').
Proof.
  induction chars as [| char chars IH]; intros st n Hcur Hparts; cbn [fold_left length].
  - rewrite Nat.add_0_r. auto.
  - replace (n + S (length chars)) with (S n + length chars) by lia.
    apply IH.
    + unfold TemplateParser.splitStep.
      repeat match goal with |- context [if ?b then _ else _] => destruct b end;
        cbn [TemplateParser.current]; rewrite ?append_length; cbn [String.length]; lia.
    + assert (Forall (fun part => String.length part <= S n) (TemplateParser.parts st)) as Hparts'.
      { eapply Forall_impl; [exact Hparts |]. cbn. intros. lia. }
      unfold TemplateParser.splitStep.
      repeat match goal with |- context [if ?b then _ else _] => destruct b end;
        cbn [TemplateParser.parts]; try assumption.
      apply Forall_app. split; [assumption |]. repeat constructor.
      pose proof (trim_length (TemplateParser.current st)). lia.
Qed.

Lemma list_ascii_length s : length (list_ascii_of_string s) = String.length s.
Proof. induction s as [| c s IH]; cbn; [reflexivity | now rewrite IH]. Qed.

Lemma splitExpression_length expr :
  Forall (fun part => String.length part <= String.length expr)
    (TemplateParser.splitExpression expr).
Proof.
  unfold TemplateParser.splitExpression, TemplateParser.splitLoop.
  destruct (splitLoop_length (list_ascii_of_string expr)
              {| TemplateParser.parts := []; TemplateParser.current := "";
                 TemplateParser.inQuotes := false |} 0) as [Hcur Hparts];
    [cbn; lia | constructor |].
  rewrite list_ascii_length in Hcur, Hparts. cbn [Nat.add] in Hcur, Hparts.
  set (st := fold_left _ _ _) in *.
  assert (Forall (fun part => String.length part <= String.length expr)
            (if negb (JS.isEmpty (JS.trim (TemplateParser.current st)))
             then (TemplateParser.parts st ++ [JS.trim (TemplateParser.current st)])%list
             else TemplateParser.parts st)) as Hall.
  { destruct (negb _); [| assumption].
    apply Forall_app. split; [assumption |]. repeat constructor.
    pose proof (trim_length (TemplateParser.current st)). lia. }
  destruct (if negb _ then _ else _); [repeat constructor | assumption].
Qed.

Lemma every_total f parts :
  Forall (fun part => is_Some (f part)) parts -> is_Some (TemplateParser.every f parts).
Proof.
  induction 1 as [| part parts [b Hb] _ IH]; cbn [TemplateParser.every]; [eauto |].
  rewrite Hb. destruct b; eauto.
Qed.

Lemma some_total f parts :
  Forall (fun part => is_Some (f part)) parts -> is_Some (TemplateParser.some f parts).
Proof.
  induction 1 as [| part parts [b Hb] _ IH]; cbn [TemplateParser.some]; [eauto |].
  rewrite Hb. destruct b; eauto.
Qed.

(** The bound [S (String.length expression)] that [evaluateCondition]
    sets is never reached. *)
Lemma evaluateWithin_enough config platform fuel : forall expression,
  String.length expression < fuel ->
  is_Some (TemplateParser.evaluateWithin fuel expression config platform).
Proof.
  induction fuel as [| fuel IH]; intros expression Hlen; [lia |].
  cbn [TemplateParser.evaluateWithin].
  pose proof (trim_length expression) as Htrim.
  assert (Hsub : forall n p, JS.startsWith (JS.trim expression) p = true ->
            String.length p = n -> 0 < n ->
            String.length (JS.trim (JS.substringFrom n (JS.trim expression))) < fuel).
  { intros n p Hp Hn Hpos. apply startsWith_length in Hp.
    pose proof (trim_length (JS.substringFrom n (JS.trim expression))) as H1.
    rewrite substringFrom_length in H1. lia. }
  destruct (JS.startsWith (JS.trim expression) "not ") eqn:Hnot.
  { destruct (IH (JS.trim (JS.substringFrom 4 (JS.trim expression)))) as [b ->];
      [apply (Hsub 4 "not " Hnot eq_refl); lia | cbn; eauto]. }
  destruct (JS.startsWith (JS.trim expression) "and ") eqn:Hand.
  { apply every_total.
    eapply Forall_impl; [apply splitExpression_length |].
    cbn beta. intros part Hpart. apply IH.
    specialize (Hsub 4 "and " Hand eq_refl ltac:(lia)). lia. }
  destruct (JS.startsWith (JS.trim expression) "or ") eqn:Hor.
  { apply some_total.
    eapply Forall_impl; [apply splitExpression_length |].
    cbn beta. intros part Hpart. apply IH.
    specialize (Hsub 3 "or " Hor eq_refl ltac:(lia)). lia. }
  repeat match goal with
         | |- context [match ?o with Some _ => _ | None => _ end] => destruct o
         | |- context [if ?b then _ else _] => destruct b
         end; eauto.
Qed.

Lemma evaluateCondition_eq expression config platform :
  TemplateParser.evaluateWithin (S (String.length expression)) expression config platform
  = Some (TemplateParser.evaluateCondition expression config platform).
Proof.
  unfold TemplateParser.evaluateCondition.
  destruct (evaluateWithin_enough config platform (S (String.length expression)) expression)
    as [b ->]; [lia | reflexivity].
Qed.

Lemma every_more f g parts b :
  (forall part b, f part = Some b -> g part = Some b) ->
  TemplateParser.every f parts = Some b -> TemplateParser.every g parts = Some b.
Proof.
  intros Hfg. induction parts as [| part parts IH]; cbn [TemplateParser.every]; [auto |].
  destruct (f part) as [[] |] eqn:Hf; [| | discriminate]; rewrite (Hfg _ _ Hf); auto.
Qed.

Lemma some_more f g parts b :
  (forall part b, f part = Some b -> g part = Some b) ->
  TemplateParser.some f parts = Some b -> TemplateParser.some g parts = Some b.
Proof.
  intros Hfg. induction parts as [| part parts IH]; cbn [TemplateParser.some]; [auto |].
  destruct (f part) as [[] |] eqn:Hf; [| | discriminate]; rewrite (Hfg _ _ Hf); auto.
Qed.

Lemma evaluateWithin_S config platform fuel expression :
  TemplateParser.evaluateWithin (S fuel) expression config platform
  = let trimmed := JS.trim expression in
    if JS.startsWith trimmed "not " then
      negb <$> TemplateParser.evaluateWithin fuel
                 (JS.trim (JS.substringFrom 4 trimmed)) config platform
    else if JS.startsWith trimmed "and " then
      TemplateParser.every
        (fun part => TemplateParser.evaluateWithin fuel part config platform)
        (TemplateParser.splitExpression (JS.trim (JS.substringFrom 4 trimmed)))
    else if JS.startsWith trimmed "or " then
      TemplateParser.some
        (fun part => TemplateParser.evaluateWithin fuel part config platform)
        (TemplateParser.splitExpression (JS.trim (JS.substringFrom 3 trimmed)))
    else TemplateParser.evaluateWithin 1 expression config platform.
Proof.
  cbn [TemplateParser.evaluateWithin]. cbv zeta.
  now repeat match goal with |- context [if ?b then _ else _] => destruct b end.
Qed.

(** An answer found within a bound is found within every larger bound. *)
Lemma evaluateWithin_more config platform fuel : forall expression b,
  TemplateParser.evaluateWithin fuel expression config platform = Some b ->
  TemplateParser.evaluateWithin (S fuel) expression config platform = Some b.
Proof.
  induction fuel as [| fuel IH]; intros expression b; [discriminate |].
  rewrite (evaluateWithin_S _ _ (S fuel)), (evaluateWithin_S _ _ fuel). cbv zeta.
  destruct (JS.startsWith (JS.trim expression) "not ").
  { destruct (TemplateParser.evaluateWithin fuel _ config platform) as [b' |] eqn:E;
      [| discriminate].
    now rewrite (IH _ _ E). }
  destruct (JS.startsWith (JS.trim expression) "and ");
    [apply every_more; exact IH |].
  destruct (JS.startsWith (JS.trim expression) "or ");
    [apply some_more; exact IH |].
  auto.
Qed.

Lemma evaluateWithin_stable config platform expression b fuel fuel' :
  fuel <= fuel' ->
  TemplateParser.evaluateWithin fuel expression config platform = Some b ->
  TemplateParser.evaluateWithin fuel' expression config platform = Some b.
Proof.
  induction 1 as [| fuel' _ IH]; [auto |].
  intros H. apply evaluateWithin_more. auto.
Qed.

(** With any bound above the length of the expression the recursive
    evaluator returns the value of [evaluateCondition]. *)
Lemma evaluateWithin_evaluateCondition config platform expression fuel :
  String.length expression < fuel ->
  TemplateParser.evaluateWithin fuel expression config platform
  = Some (TemplateParser.evaluateCondition expression config platform).
Proof.
  intros Hlen. apply (evaluateWithin_stable _ _ _ _ (S (String.length expression)));
    [lia | apply evaluateCondition_eq].
Qed.


End Fuel.

(** ** Applying module changes *)

Section Changes.

Lemma withModules_withModules config ms ms' :
  withModules (withModules config ms) ms' = withModules config ms'.
Proof. reflexivity. Qed.

Lemma withModules_id config : withModules config (modules (data config)) = config.
Proof. now destruct config as [[] ? ?]. Qed.

Lemma weight_lookup (props : gmap string jsval) name v :
  props !! name = Some v -> weight v < weight (JObj props).
Proof.
  cbn [weight]. revert name v.
  induction props as [|k x m Hk Hfold IH] using map_first_key_ind.
  - intros name v. rewrite lookup_empty. discriminate.
  - intros name v. rewrite map_fold_insert_first_key by assumption.
    destruct (decide (name = k)) as [->|Hne].
    + rewrite lookup_insert_eq. intros [= ->]. lia.
    + rewrite lookup_insert_ne by congruence. intros Hv. specialize (IH _ _ Hv). lia.
Qed.

(** A JSON copy is read back as it is. *)
Lemma jsonCopy_idem v : jsonCopy (jsonCopy v) = jsonCopy v.
Proof.
  remember (weight v) as n eqn:Hn. revert v Hn.
  induction n as [n IH] using lt_wf_ind. intros v ->.
  destruct v as [| | | |props| | |]; try reflexivity.
  cbn [jsonCopy]. f_equal. apply map_eq. intros name.
  rewrite !lookup_fmap. destruct (props !! name) as [x|] eqn:Hx; [|reflexivity].
  cbn. f_equal. apply (IH (weight x)); [|reflexivity]. now apply (weight_lookup props name).
Qed.

(** No date is left in a JSON copy: what is an object there has
    properties. *)
Lemma jsonCopy_isObject v :
  isObject (Some (jsonCopy v)) = true -> exists props, jsonCopy v = JObj props.
Proof. destruct v as [| | | |props| | |]; try discriminate. intros _. now eexists. Qed.

Lemma copied_isObject (ms : gmap string jsval) name v :
  (jsonCopy <$> ms) !! name = Some v -> isObject (Some v) = true ->
  exists props, v = JObj props.
Proof.
  rewrite lookup_fmap. destruct (ms !! name) as [v0|]; [|discriminate].
  intros [= <-]. apply jsonCopy_isObject.
Qed.

Lemma copied_twice (ms : gmap string jsval) : jsonCopy <$> (jsonCopy <$> ms) = jsonCopy <$> ms.
Proof.
  apply map_eq. intros name. rewrite !lookup_fmap.
  destruct (ms !! name); [|reflexivity]. cbn. now rewrite jsonCopy_idem.
Qed.

Lemma applyChange_step config realm moduleName enabled :
  TemplateParser.applyChange (Some (config, realm)) (moduleName, enabled)
  = match holder realm (modules (data config)) moduleName with
    | OwnValue module =>
        (fun module' =>
           (withModules config (<[moduleName := module']> (modules (data config))), realm))
        <$> setProp module "enabled" (JBool enabled)
    | ThePrototype => Some (config, writePrototype realm "enabled" (JBool enabled))
    | PrototypeFunction f => Some (config, writeFunction realm f "enabled" (JBool enabled))
    | PrototypeValue v =>
        (fun v' => (config, writePrototype realm moduleName v'))
        <$> setProp v "enabled" (JBool enabled)
    | Missing => Some (config, realm)
    end.
Proof.
  unfold TemplateParser.applyChange, hasProperty. cbn [mbind option_bind].
  now destruct (holder realm (modules (data config)) moduleName).
Qed.

Lemma applyChange_None entries : fold_left TemplateParser.applyChange entries None = None.
Proof. induction entries as [|e entries IH]; [done|]. exact IH. Qed.

Lemma holder_own realm (ms : gmap string jsval) name v :
  ms !! name = Some v -> holder realm ms name = OwnValue v.
Proof. unfold holder. now intros ->. Qed.

(** While nothing has been written on Object.prototype, a name that
    the module map lacks is one of the functions or is missing. *)
Lemma holder_inherited realm (ms : gmap string jsval) name :
  ms !! name = None -> prototypeProps realm = ∅ -> name <> "__proto__" ->
  holder realm ms name = Missing \/ holder realm ms name = PrototypeFunction name.
Proof.
  unfold holder. intros -> -> Hne. rewrite lookup_empty.
  destruct (String.eqb name "__proto__") eqn:E; [now apply String.eqb_eq in E|].
  destruct (existsb _ _); auto.
Qed.

(** The read of [enabled] in a pristine realm is the read of the own
    property. *)
Lemma moduleEnabledIn_pristine config name :
  moduleEnabledIn pristine config name = moduleEnabled config name.
Proof.
  unfold moduleEnabledIn, moduleEnabled, holder, enabledOf. cbn [prototypeProps functionProps pristine].
  destruct (modules (data config) !! name) as [v|].
  - cbn [mbind option_bind]. rewrite lookup_empty.
    destruct v; cbn [getProp]; try reflexivity. now destruct (props !! "enabled").
  - cbn [mbind option_bind]. rewrite !lookup_empty.
    destruct (String.eqb name "__proto__"); [reflexivity|].
    destruct (existsb _ _); [|reflexivity]. rewrite lookup_empty. reflexivity.
Qed.

Lemma applyChanges_list (entries : list (string * bool)) : forall config realm,
  NoDup entries.*1 ->
  (forall name b v, (name, b) ∈ entries -> modules (data config) !! name = Some v ->
                    exists props, v = JObj props) ->
  prototypeProps realm = ∅ ->
  (forall b, ("__proto__", b) ∈ entries -> is_Some (modules (data config) !! "__proto__")) ->
  exists ms realm',
    fold_left TemplateParser.applyChange entries (Some (config, realm))
    = Some (withModules config ms, realm')
    /\ prototypeProps realm' = ∅
    /\ forall name,
         ms !! name
         = changedModule ((list_to_map entries : gmap string bool) !! name)
                         (modules (data config) !! name).
Proof.
  induction entries as [| [moduleName enabled] entries IH];
    intros config realm Hdup Hobj Hclean Hproto.
  - exists (modules (data config)), realm. cbn [fold_left]. rewrite withModules_id.
    split_and!; [reflexivity | assumption |]. intros name. cbn. rewrite lookup_empty. reflexivity.
  - cbn [fmap list_fmap fst] in Hdup. apply NoDup_cons in Hdup as [Hfresh Hdup].
    cbn [fold_left]. rewrite applyChange_step.
    assert (Hnone : (list_to_map entries : gmap string bool) !! moduleName = None)
      by now apply not_elem_of_list_to_map_1.
    destruct (modules (data config) !! moduleName) as [module |] eqn:Hmod.
    + rewrite (holder_own _ _ _ _ Hmod).
      destruct (Hobj moduleName enabled module) as [props ->]; [left | assumption |].
      cbn [setProp fmap option_fmap option_map].
      set (config' := withModules config _).
      destruct (IH config' realm Hdup) as (ms & realm' & Hfold & Hclean' & Hms).
      { intros name b v Hin. subst config'. cbn [modules data withModules].
        destruct (decide (name = moduleName)) as [-> | Hne].
        - exfalso. apply Hfresh. apply list_elem_of_fmap. now exists (moduleName, b).
        - rewrite lookup_insert_ne by congruence. intros Hv.
          apply (Hobj name b); [now right | assumption]. }
      { assumption. }
      { intros b Hin. subst config'. cbn [modules data withModules].
        apply lookup_insert_is_Some'. right. apply (Hproto b). now right. }
      exists ms, realm'. split_and!; [now rewrite Hfold | assumption |].
      intros name. rewrite Hms, list_to_map_cons. subst config'.
      cbn [modules data withModules].
      destruct (decide (name = moduleName)) as [-> | Hne].
      * rewrite Hnone, !lookup_insert_eq, Hmod. reflexivity.
      * rewrite !lookup_insert_ne by congruence. reflexivity.
    + assert (Hne : moduleName <> "__proto__").
      { intros ->. destruct (Hproto enabled) as [v Hv]; [left | congruence]. }
      assert (Hrest : forall realm0, prototypeProps realm0 = ∅ ->
                exists ms realm',
                  fold_left TemplateParser.applyChange entries (Some (config, realm0))
                  = Some (withModules config ms, realm')
                  /\ prototypeProps realm' = ∅
                  /\ forall name,
                       ms !! name
                       = changedModule
                           ((list_to_map ((moduleName, enabled) :: entries) : gmap string bool)
                              !! name)
                           (modules (data config) !! name)).
      { intros realm0 Hclean0.
        destruct (IH config realm0 Hdup) as (ms & realm' & Hfold & Hclean' & Hms).
        - intros name b v Hin. apply (Hobj name b). now right.
        - assumption.
        - intros b Hin. apply (Hproto b). now right.
        - exists ms, realm'. split_and!; [assumption | assumption |].
          intros name. rewrite Hms, list_to_map_cons.
          destruct (decide (name = moduleName)) as [-> | Hne'].
          + rewrite Hnone, lookup_insert_eq, Hmod. reflexivity.
          + rewrite lookup_insert_ne by congruence. reflexivity. }
      destruct (holder_inherited realm _ moduleName Hmod Hclean Hne) as [-> | ->].
      * now apply Hrest.
      * now apply Hrest.
Qed.

Lemma applyChange_other config realm moduleName enabled config' realm' name :
  TemplateParser.applyChange (Some (config, realm)) (moduleName, enabled)
  = Some (config', realm') ->
  name <> moduleName ->
  modules (data config') !! name = modules (data config) !! name.
Proof.
  rewrite applyChange_step. intros Hstep Hne.
  destruct (holder realm (modules (data config)) moduleName) as [module| |f|v|].
  - destruct (setProp module "enabled" (JBool enabled)); [|discriminate].
    injection Hstep as <- <-. cbn [modules data withModules].
    now rewrite lookup_insert_ne by congruence.
  - now injection Hstep as <- <-.
  - now injection Hstep as <- <-.
  - destruct (setProp v "enabled" (JBool enabled)); [|discriminate].
    now injection Hstep as <- <-.
  - now injection Hstep as <- <-.
Qed.

Lemma applyChanges_fail (entries : list (string * bool)) : forall config realm name b v,
  NoDup entries.*1 ->
  (name, b) ∈ entries ->
  modules (data config) !! name = Some v ->
  isObject (Some v) = false ->
  fold_left TemplateParser.applyChange entries (Some (config, realm)) = None.
Proof.
  induction entries as [|[n e] entries IH]; intros config realm name b v Hnd Hin Hv Hobj.
  - now apply elem_of_nil in Hin.
  - cbn [fmap list_fmap fst] in Hnd. apply NoDup_cons in Hnd as [Hfresh Hnd].
    cbn [fold_left]. apply elem_of_cons in Hin as [Heq | Hin].
    + injection Heq as <- <-. rewrite applyChange_step, (holder_own _ _ _ _ Hv).
      destruct v; try discriminate; cbn; apply applyChange_None.
    + assert (Hne : name <> n).
      { intros ->. apply Hfresh. apply list_elem_of_fmap. now exists (n, b). }
      destruct (TemplateParser.applyChange (Some (config, realm)) (n, e))
        as [[config' realm']|] eqn:Hstep; [|apply applyChange_None].
      apply (IH _ _ name b v); try done.
      now rewrite (applyChange_other _ _ _ _ _ _ _ Hstep Hne).
Qed.

Lemma changesObjects_lookup ms entries name b v :
  changesObjects ms entries = true ->
  (name, b) ∈ entries -> ms !! name = Some v -> isObject (Some v) = true.
Proof.
  unfold changesObjects. rewrite forallb_forall. intros Hall Hb Hv.
  specialize (Hall (name, b)). cbn [fst] in Hall. rewrite Hv in Hall. apply Hall.
  now apply list_elem_of_In.
Qed.

Lemma changesObjects_false ms (entries : list (string * bool)) :
  changesObjects ms entries = false ->
  exists name b v, (name, b) ∈ entries /\ ms !! name = Some v
                   /\ isObject (Some v) = false.
Proof.
  unfold changesObjects. intros Hfalse.
  induction entries as [|[name b] entries IH]; [done|].
  cbn [forallb fst] in Hfalse. apply andb_false_iff in Hfalse as [He | Hl].
  - destruct (ms !! name) as [v|] eqn:Hv; [|done].
    exists name, b, v. split_and!; [left | done | done].
  - destruct (IH Hl) as (name' & b' & v & Hin & Hv & Hbad).
    exists name', b', v. split_and!; [now right | done | done].
Qed.

Lemma reachesPrototype_false (ms : gmap string jsval) entries b :
  reachesPrototype ms entries = false ->
  ("__proto__", b) ∈ entries -> is_Some (ms !! "__proto__").
Proof.
  unfold reachesPrototype. destruct (ms !! "__proto__") as [v|]; [by eexists|].
  intros Hnone Hin. exfalso.
  assert (existsb (fun entry => String.eqb (fst entry) "__proto__") entries = true) as Hex.
  { apply existsb_exists. exists ("__proto__", b). split; [now apply list_elem_of_In | reflexivity]. }
  congruence.
Qed.

(** What [applyModuleChanges] returns while no entry reaches
    Object.prototype: the JSON copy of the base configuration with
    [enabled] set in the modules that the entries name. *)
Lemma applyModuleChangesIn_spec realm baseConfig entries :
  NoDup entries.*1 ->
  prototypeProps realm = ∅ ->
  changesObjects (jsonCopy <$> modules (data baseConfig)) entries = true ->
  reachesPrototype (modules (data baseConfig)) entries = false ->
  exists ms realm',
    TemplateParser.applyModuleChangesIn realm baseConfig entries
    = Some (withModules baseConfig ms, realm')
    /\ prototypeProps realm' = ∅
    /\ forall name,
         ms !! name
         = changedModule ((list_to_map entries : gmap string bool) !! name)
                         (jsonCopy <$> modules (data baseConfig) !! name).
Proof.
  intros Hdup Hclean Hobj Hproto. unfold TemplateParser.applyModuleChangesIn.
  destruct (applyChanges_list entries (copyConfig baseConfig) realm)
    as (ms & realm' & Hfold & Hclean' & Hms).
  - assumption.
  - cbn [copyConfig modules data withModules]. intros name b v Hin Hv.
    apply (copied_isObject _ name v Hv).
    now apply (changesObjects_lookup (jsonCopy <$> modules (data baseConfig)) entries name b).
  - assumption.
  - cbn [copyConfig modules data withModules]. intros b Hin.
    rewrite lookup_fmap. apply fmap_is_Some.
    now apply (reachesPrototype_false _ entries b).
  - exists ms, realm'. split_and!; [exact Hfold | assumption |].
    intros name. rewrite Hms. cbn [copyConfig modules data withModules].
    now rewrite lookup_fmap.
Qed.

Lemma applyModuleChangesIn_fail realm baseConfig entries :
  NoDup entries.*1 ->
  changesObjects (jsonCopy <$> modules (data baseConfig)) entries = false ->
  TemplateParser.applyModuleChangesIn realm baseConfig entries = None.
Proof.
  intros Hdup Hfalse.
  apply changesObjects_false in Hfalse as (name & b & v & Hb & Hv & Hobj).
  unfold TemplateParser.applyModuleChangesIn.
  now apply (applyChanges_fail _ _ _ name b v).
Qed.

Lemma applyModuleChanges_spec baseConfig (moduleChanges : gmap string bool) :
  changesObjects (jsonCopy <$> modules (data baseConfig)) (map_to_list moduleChanges) = true ->
  reachesPrototype (modules (data baseConfig)) (map_to_list moduleChanges) = false ->
  exists ms,
    TemplateParser.applyModuleChanges baseConfig moduleChanges
    = Some (withModules baseConfig ms)
    /\ forall name,
         ms !! name
         = changedModule (moduleChanges !! name)
                         (jsonCopy <$> modules (data baseConfig) !! name).
Proof.
  intros Hobj Hproto. unfold TemplateParser.applyModuleChanges.
  destruct (applyModuleChangesIn_spec pristine baseConfig (map_to_list moduleChanges))
    as (ms & realm' & -> & _ & Hms); try done.
  - apply NoDup_fst_map_to_list.
  - setoid_rewrite list_to_map_to_list in Hms. now exists ms.
Qed.

Lemma applyModuleChanges_fail baseConfig (moduleChanges : gmap string bool) :
  changesObjects (jsonCopy <$> modules (data baseConfig)) (map_to_list moduleChanges) = false ->
  TemplateParser.applyModuleChanges baseConfig moduleChanges = None.
Proof.
  intros Hfalse. unfold TemplateParser.applyModuleChanges.
  rewrite applyModuleChangesIn_fail; [reflexivity | apply NoDup_fst_map_to_list | assumption].
Qed.

End Changes.

(** C8, at the failing input: the base configuration has the modules
    [shell: {enabled: false}] and [tools: {}] and the change mapping is
    [__proto__: true], a name that the module map lacks.  The guard of
    [applyModuleChanges] holds for it all the same, since every object
    inherits that name, and the assignment sets [enabled] on
    Object.prototype.  The configuration returned is the base
    configuration, but the change has had an effect: the module [tools],
    which has no [enabled] of its own and read as disabled before the
    call, reads as enabled after it, in the base configuration as in
    every other. *)
Theorem apply_module_changes_writes_object_prototype :
  modules (data Examples.bareModule) !! "__proto__" = None
  /\ moduleEnabledIn pristine Examples.bareModule "tools" = false
  /\ hasProperty pristine (modules (data Examples.bareModule)) "__proto__" = true
  /\ TemplateParser.applyModuleChanges Examples.bareModule {["__proto__" := true]}
     = Some Examples.bareModule
  /\ exists realm,
       TemplateParser.applyModuleChangesIn pristine Examples.bareModule [("__proto__", true)]
       = Some (Examples.bareModule, realm)
       /\ prototypeProps realm !! "enabled" = Some (JBool true)
       /\ moduleEnabledIn realm Examples.bareModule "tools" = true.
Proof.
  split_and!; try (vm_compute; reflexivity).
  eexists. split_and!; vm_compute; reflexivity.
Qed.

(** * Further properties *)

(** ** The lines kept by the ignore parser *)

Section IgnoreLines.
Variables (config : DotfilesConfig) (platform : Platform).

Lemma step_patterns st line :
  IgnoreParser.patterns (IgnoreParser.step config platform st line)
  = (IgnoreParser.patterns st
     ++ if patternLine (JS.trim line) && IgnoreParser.top (IgnoreParser.conditionStack st)
        then [JS.trim line] else [])%list.
Proof.
  unfold IgnoreParser.step, patternLine.
  destruct (JS.isEmpty (JS.trim line)); cbn [negb andb]; [now rewrite app_nil_r|].
  destruct (JS.startsWith (JS.trim line) "{{-"); cbn [negb andb IgnoreParser.patterns];
    [now rewrite app_nil_r|].
  destruct (JS.startsWith (JS.trim line) "#"); cbn [negb andb]; [now rewrite app_nil_r|].
  rewrite andb_true_r.
  destruct (IgnoreParser.top _); cbn [IgnoreParser.patterns]; [done|now rewrite app_nil_r].
Qed.

Lemma run_patterns lines : forall st,
  exists added,
    IgnoreParser.patterns (fold_left (IgnoreParser.step config platform) lines st)
    = (IgnoreParser.patterns st ++ added)%list
    /\ sublist added (map JS.trim lines)
    /\ Forall (fun p => patternLine p = true) added.
Proof.
  induction lines as [|line lines IH]; intros st; cbn [fold_left map].
  - exists []. now rewrite app_nil_r.
  - destruct (IH (IgnoreParser.step config platform st line)) as (added & -> & Hsub & Hall).
    rewrite step_patterns, <- app_assoc.
    destruct (patternLine (JS.trim line) && _) eqn:E.
    + exists (JS.trim line :: added). split_and!; [done| |].
      * now constructor.
      * constructor; [|done]. now apply andb_prop in E.
    + exists added. split_and!; [done| |done]. now constructor.
Qed.

Lemma handleConditional_nested line stack :
  nested stack = true ->
  nested (IgnoreParser.handleConditional line stack config platform) = true.
Proof.
  intros Hn. unfold IgnoreParser.handleConditional.
  destruct (IgnoreParser.classify _).
  - destruct stack as [|a [|b stack]]; [done| |].
    + cbn in *. subst. now destruct (IgnoreParser.evaluateCondition _ _ _).
    + cbn [nested IgnoreParser.top hd] in *.
      apply andb_prop in Hn as [Hab Hn]. rewrite Hab, Hn.
      now destruct a, (IgnoreParser.evaluateCondition _ _ _).
  - destruct stack as [|a [|b stack]]; [done..|].
    cbn [nested] in *. apply andb_prop in Hn as [Hab Hn].
    destruct stack as [|c stack].
    + cbn in *. subst. now destruct a.
    + cbn [nested] in *. apply andb_prop in Hn as [Hbc Hn]. rewrite Hbc, Hn.
      now destruct a, b.
  - destruct stack as [|a [|b stack]]; [done..|].
    cbn [nested] in Hn. now apply andb_prop in Hn as [_ Hn].
  - done.
Qed.

Lemma step_nested st line :
  nested (IgnoreParser.conditionStack st) = true ->
  nested (IgnoreParser.conditionStack (IgnoreParser.step config platform st line)) = true.
Proof.
  intros Hn. unfold IgnoreParser.step.
  destruct (JS.isEmpty _); [done|].
  destruct (JS.startsWith _ "{{-"); [now apply handleConditional_nested|].
  destruct (JS.startsWith _ "#"); [done|].
  now destruct (_ && _).
Qed.

Lemma statesFrom_nested lines : forall st,
  nested (IgnoreParser.conditionStack st) = true ->
  Forall (fun st' => nested (IgnoreParser.conditionStack st') = true)
    (IgnoreParser.statesFrom config platform st lines).
Proof.
  induction lines as [|line lines IH]; intros st Hn; cbn [IgnoreParser.statesFrom].
  - now constructor.
  - constructor; [done|]. apply IH. now apply step_nested.
Qed.

End IgnoreLines.

Lemma nested_top stack :
  nested stack = true -> IgnoreParser.top stack = forallb id stack.
Proof.
  induction stack as [|a [|b stack] IH]; [done| |].
  - cbn. intros ->. done.
  - intros Hn. cbn [nested] in Hn. apply andb_prop in Hn as [Hab Hn].
    specialize (IH Hn). cbn [IgnoreParser.top hd forallb id] in *.
    rewrite <- IH. now destruct a, b.
Qed.

Lemma nested_last stack : nested stack = true -> List.last stack false = true.
Proof.
  induction stack as [|a [|b stack] IH]; [done| |].
  - cbn. now intros ->.
  - intros Hn. cbn [nested] in Hn. apply andb_prop in Hn as [_ Hn]. now apply IH.
Qed.

(** X1: For every ignore text, configuration and platform, every pattern
    that [IgnoreParser.parse] returns is the trimmed text of a line of
    the input, is not empty, and begins neither with [#] nor with the
    marker prefix: blank lines, comments and conditional lines are
    never returned as patterns. *)
Theorem ignore_patterns_are_pattern_lines (ignoreContent : string)
    (config : DotfilesConfig) (platform : Platform) :
  Forall (fun pattern =>
            JS.isEmpty pattern = false
            /\ JS.startsWith pattern "#" = false
            /\ JS.startsWith pattern "{{-" = false
            /\ exists line, In line (JS.split "010" ignoreContent)
                            /\ pattern = JS.trim line)
    (IgnoreParser.parse ignoreContent config platform).
Proof.
  unfold IgnoreParser.parse, IgnoreParser.run.
  destruct (run_patterns config platform (JS.split "010" ignoreContent) IgnoreParser.initial)
    as (added & -> & Hsub & Hall).
  cbn [IgnoreParser.patterns IgnoreParser.initial app].
  apply Forall_forall. intros p Hp.
  rewrite Forall_forall in Hall. specialize (Hall p Hp).
  unfold patternLine in Hall.
  apply andb_prop in Hall as [Hall H3]. apply andb_prop in Hall as [H1 H2].
  apply negb_true_iff in H1, H2, H3. split_and!; try done.
  assert (Hin : p ∈ map JS.trim (JS.split "010" ignoreContent)).
  { apply (elem_of_sublist added); [|exact Hsub]. exact Hp. }
  apply list_elem_of_In, in_map_iff in Hin as (line & <- & Hline). now exists line.
Qed.

(** X2: The patterns returned by [IgnoreParser.getIgnorePatterns] are a
    subsequence of the trimmed lines of the ignore text: they come in
    the order of the lines, and a line gives at most one pattern. *)
Theorem ignore_patterns_keep_line_order (ignoreContent : string)
    (config : DotfilesConfig) (platform : Platform) :
  sublist (IgnoreParser.getIgnorePatterns ignoreContent config platform)
          (map JS.trim (JS.split "010" ignoreContent)).
Proof.
  unfold IgnoreParser.getIgnorePatterns, IgnoreParser.parse, IgnoreParser.run.
  destruct (run_patterns config platform (JS.split "010" ignoreContent) IgnoreParser.initial)
    as (added & -> & Hsub & _).
  exact Hsub.
Qed.

(** X3: In every state of the loop of [IgnoreParser.parse], each entry of
    the inclusion stack implies the entry below it and the bottom
    entry is true; so the top of the stack, which decides whether a
    pattern line is kept, is true exactly when every entry is: nothing
    is kept inside a block whose condition is false, whatever the
    blocks nested in it say. *)
Theorem ignore_stack_is_nested (ignoreContent : string)
    (config : DotfilesConfig) (platform : Platform) :
  Forall (fun st =>
            nested (IgnoreParser.conditionStack st) = true
            /\ IgnoreParser.top (IgnoreParser.conditionStack st)
               = forallb id (IgnoreParser.conditionStack st))
    (IgnoreParser.states ignoreContent config platform).
Proof.
  eapply Forall_impl.
  - apply statesFrom_nested. reflexivity.
  - intros st Hn. split; [done|]. now apply nested_top.
Qed.

(** ** Ignore files without conditional lines *)

Section Unconditional.
Variables (config : DotfilesConfig) (platform : Platform).

Lemma run_unconditional lines : forall st,
  forallb (fun line => negb (JS.startsWith (JS.trim line) "{{-")) lines = true ->
  IgnoreParser.top (IgnoreParser.conditionStack st) = true ->
  IgnoreParser.patterns (fold_left (IgnoreParser.step config platform) lines st)
  = (IgnoreParser.patterns st
     ++ List.filter (fun t => negb (JS.isEmpty t) && negb (JS.startsWith t "#"))
          (map JS.trim lines))%list.
Proof.
  induction lines as [|line lines IH]; intros st Hall Htop; cbn [fold_left map List.filter].
  - now rewrite app_nil_r.
  - cbn [forallb] in Hall. apply andb_prop in Hall as [Hline Hall].
    apply negb_true_iff in Hline.
    rewrite IH; [|done|].
    + rewrite step_patterns. unfold patternLine. rewrite Hline, Htop.
      cbn [negb]. rewrite !andb_true_r, <- app_assoc.
      now destruct (negb (JS.isEmpty (JS.trim line)) && negb (JS.startsWith (JS.trim line) "#")).
    + unfold IgnoreParser.step. rewrite Hline.
      destruct (JS.isEmpty _); [done|].
      destruct (JS.startsWith _ "#"); [done|].
      now destruct (_ && _).
Qed.

Lemma unconditional_filter ignoreContent :
  unconditional ignoreContent = true ->
  IgnoreParser.parse ignoreContent config platform
  = List.filter (fun t => negb (JS.isEmpty t) && negb (JS.startsWith t "#"))
      (map JS.trim (JS.split "010" ignoreContent)).
Proof.
  intros Hun. unfold IgnoreParser.parse, IgnoreParser.run.
  now rewrite run_unconditional.
Qed.

End Unconditional.

(** X4: For an ignore text without conditional lines,
    [IgnoreParser.parse] returns, for every configuration and
    platform, the trimmed lines that are neither blank nor comments. *)
Theorem unconditional_ignore_file_is_filtered (ignoreContent : string)
    (config : DotfilesConfig) (platform : Platform) :
  unconditional ignoreContent = true ->
  IgnoreParser.parse ignoreContent config platform
  = List.filter (fun trimmed => negb (JS.isEmpty trimmed) && negb (JS.startsWith trimmed "#"))
      (map JS.trim (JS.split "010" ignoreContent)).
Proof.
  apply unconditional_filter.
Qed.

Lemma unconditional_ignore_file_is_filtered_witness :
  IgnoreParser.parse ("# build output" ++ JS.newline ++ " dist/ " ++ JS.newline
                      ++ JS.newline ++ "README.md")
    Examples.shellDisabled "linux"
  = ["dist/"; "README.md"].
Proof.
  rewrite (unconditional_ignore_file_is_filtered _ Examples.shellDisabled "linux");
    [|vm_compute; reflexivity].
  vm_compute. reflexivity.
Defined.

(** ** What the two routes keep *)

Section Routes.
Context `{RegExp.Host}.

Lemma omap_sublist {A B} (f : A -> option B) (g : B -> A) (l : list A) :
  (forall x y, f x = Some y -> g y = x) -> sublist (map g (omap f l)) l.
Proof.
  intros Hfg. induction l as [|x l IH]; cbn; [constructor|].
  destruct (f x) as [y|] eqn:E; cbn.
  - rewrite (Hfg _ _ E). now constructor.
  - now constructor.
Qed.

Lemma files_resolve_source config platform ignorePatterns path m :
  FilesRoute.resolve config platform ignorePatterns path = Some m ->
  sourcePath m = path /\ FilesRoute.skipped path = false.
Proof.
  intros Hres. split.
  - now apply files_resolve_Some in Hres as [-> _].
  - unfold FilesRoute.resolve in Hres. now destruct (FilesRoute.skipped path).
Qed.

Lemma simulate_resolve_source config platform ignorePatterns path m :
  SimulateRoute.resolve config platform ignorePatterns path = Some m ->
  sourcePath m = path /\ SimulateRoute.skipped path = false.
Proof.
  intros Hres. split.
  - now apply simulate_resolve_Some in Hres as ->.
  - unfold SimulateRoute.resolve in Hres. now destruct (SimulateRoute.skipped path).
Qed.

(** The simulation reads the configuration through the ignore patterns
    only. *)
Lemma simulate_resolve_config config config' platform ignorePatterns path :
  SimulateRoute.resolve config platform ignorePatterns path
  = SimulateRoute.resolve config' platform ignorePatterns path.
Proof. reflexivity. Qed.

Lemma getFilesForConfig_patterns ignoreContent platform allSourceFiles config config' :
  IgnoreParser.getIgnorePatterns ignoreContent config platform
  = IgnoreParser.getIgnorePatterns ignoreContent config' platform ->
  SimulateRoute.getFilesForConfig ignoreContent platform allSourceFiles config
  = SimulateRoute.getFilesForConfig ignoreContent platform allSourceFiles config'.
Proof.
  unfold SimulateRoute.getFilesForConfig. intros ->.
  induction allSourceFiles as [|path l IH]; [done|].
  cbn [omap list_omap]. now rewrite IH, (simulate_resolve_config config config').
Qed.

Lemma filter_own_paths (fs : list FileMapping) :
  List.filter (fun f => negb (bool_decide (deployPath f ∈ SimulateRoute.deployPaths fs))) fs
  = [].
Proof.
  assert (Hgen : forall l (S : gset string), (forall f, In f l -> deployPath f ∈ S) ->
            List.filter (fun f => negb (bool_decide (deployPath f ∈ S))) l = []).
  { induction l as [|f l IH]; intros S HS; [done|]. cbn [List.filter].
    rewrite bool_decide_eq_true_2 by (apply HS; now left). cbn [negb].
    apply IH. intros g Hg. apply HS. now right. }
  apply Hgen. intros f Hf. unfold SimulateRoute.deployPaths.
  apply elem_of_list_to_set, list_elem_of_In, in_map, Hf.
Qed.

End Routes.

(** ** When applying module changes succeeds *)

Section ChangesMore.

Lemma changedModule_idem change module :
  changedModule change (changedModule change module) = changedModule change module.
Proof.
  destruct change as [b|], module as [[| | | |props| | |]|]; try done.
  cbn. now rewrite insert_insert_eq.
Qed.

Lemma changedModule_is_Some change module :
  is_Some (changedModule change module) <-> is_Some module.
Proof. destruct change as [b|], module as [[| | | |props| | |]|]; cbn; done. Qed.

Lemma changedModule_isObject change module :
  isObject (changedModule change module) = isObject module.
Proof. destruct change as [b|], module as [[| | | |props| | |]|]; done. Qed.

(** A changed module of a JSON copy is read back as it is. *)
Lemma changedModule_copied change (module : option jsval) :
  jsonCopy <$> changedModule change (jsonCopy <$> module)
  = changedModule change (jsonCopy <$> module).
Proof.
  destruct module as [v|]; [|now destruct change].
  destruct change as [b|]; [|cbn; now rewrite jsonCopy_idem].
  destruct v as [| | | |props| | |]; try reflexivity.
  cbn. f_equal. f_equal. rewrite fmap_insert. cbn [jsonCopy]. f_equal.
  apply map_eq. intros name. rewrite !lookup_fmap.
  destruct (props !! name); [|reflexivity]. cbn. now rewrite jsonCopy_idem.
Qed.

Lemma changesObjects_true_iff ms (entries : list (string * bool)) :
  changesObjects ms entries = true
  <-> forall name b v, (name, b) ∈ entries -> ms !! name = Some v -> isObject (Some v) = true.
Proof.
  split.
  - intros Hall name b v. now apply changesObjects_lookup.
  - intros Hall. destruct (changesObjects ms entries) eqn:E; [reflexivity|].
    apply changesObjects_false in E as (name & b & v & Hin & Hv & Hbad).
    now rewrite (Hall name b v Hin Hv) in Hbad.
Qed.

Lemma reachesPrototype_keys (ms ms' : gmap string jsval) entries :
  (is_Some (ms' !! "__proto__") <-> is_Some (ms !! "__proto__")) ->
  reachesPrototype ms' entries = reachesPrototype ms entries.
Proof.
  unfold reachesPrototype. intros Hkeys.
  destruct (ms !! "__proto__") as [v|], (ms' !! "__proto__") as [v'|]; try reflexivity.
  - now destruct (proj2 Hkeys) as [? [=]].
  - now destruct (proj1 Hkeys) as [? [=]].
Qed.

End ChangesMore.

(** X5: Take a configuration whose [data.modules] is a plain object, a
    realm in which nothing has been written on Object.prototype, and
    the entries of a change mapping (distinct names), none of which is
    [__proto__] unless a module has that name.  Then
    [TemplateParser.applyModuleChanges] returns a configuration exactly
    when every module that an entry names and the configuration holds
    is an object in the JSON copy; it throws when one of them is
    [null], a primitive, a number that is not finite ([null] in the
    copy) or a timestamp (a text in the copy). *)
Theorem apply_module_changes_succeeds_iff (realm : Realm) (baseConfig : DotfilesConfig)
    (entries : list (string * bool)) :
  NoDup entries.*1 ->
  prototypeProps realm = ∅ ->
  reachesPrototype (modules (data baseConfig)) entries = false ->
  is_Some (TemplateParser.applyModuleChangesIn realm baseConfig entries)
  <-> changesObjects (jsonCopy <$> modules (data baseConfig)) entries = true.
Proof.
  intros Hdup Hclean Hproto.
  destruct (changesObjects (jsonCopy <$> modules (data baseConfig)) entries) eqn:Hobj.
  - destruct (applyModuleChangesIn_spec _ _ _ Hdup Hclean Hobj Hproto) as (ms & realm' & -> & _).
    split; [done|by eexists].
  - rewrite (applyModuleChangesIn_fail _ _ _ Hdup Hobj). split; [intros [? ?]; done|done].
Qed.

Lemma apply_module_changes_succeeds_iff_witness :
  is_Some (TemplateParser.applyModuleChangesIn pristine Examples.shellDisabled
             [("shell", true); ("toString", true); ("missing", false)])
  /\ ~ is_Some (TemplateParser.applyModuleChangesIn pristine Examples.datedModule
                  [("since", true)])
  /\ ~ is_Some (TemplateParser.applyModuleChangesIn pristine Examples.nullModule
                  [("extra", true)]).
Proof.
  split_and!.
  - apply (apply_module_changes_succeeds_iff pristine Examples.shellDisabled
             [("shell", true); ("toString", true); ("missing", false)]).
    + refine (bool_decide_unpack _ _). vm_compute. exact I.
    + reflexivity.
    + vm_compute. reflexivity.
    + vm_compute. reflexivity.
  - intros Hsome.
    apply (apply_module_changes_succeeds_iff pristine Examples.datedModule [("since", true)])
      in Hsome.
    + vm_compute in Hsome. discriminate.
    + refine (bool_decide_unpack _ _). vm_compute. exact I.
    + reflexivity.
    + vm_compute. reflexivity.
  - intros Hsome.
    apply (apply_module_changes_succeeds_iff pristine Examples.nullModule [("extra", true)])
      in Hsome.
    + vm_compute in Hsome. discriminate.
    + refine (bool_decide_unpack _ _). vm_compute. exact I.
    + reflexivity.
    + vm_compute. reflexivity.
Defined.

(** X6: Under the conditions of X5, when
    [TemplateParser.applyModuleChanges] returns a configuration, the
    same changes applied to that configuration, in the realm that the
    first call has left, return it again; the configuration returned
    has the module names of the base configuration (none added, none
    removed), and a module is an object in it exactly when it is one in
    the JSON copy of the base configuration. *)
Theorem apply_module_changes_idempotent (realm realm' : Realm)
    (baseConfig newConfig : DotfilesConfig) (entries : list (string * bool)) :
  NoDup entries.*1 ->
  prototypeProps realm = ∅ ->
  reachesPrototype (modules (data baseConfig)) entries = false ->
  TemplateParser.applyModuleChangesIn realm baseConfig entries = Some (newConfig, realm') ->
  (exists realm'',
     TemplateParser.applyModuleChangesIn realm' newConfig entries = Some (newConfig, realm''))
  /\ dom (modules (data newConfig)) = dom (modules (data baseConfig))
  /\ forall name, isObject (modules (data newConfig) !! name)
                  = isObject (jsonCopy <$> modules (data baseConfig) !! name).
Proof.
  intros Hdup Hclean Hproto Happly.
  assert (Hobj : changesObjects (jsonCopy <$> modules (data baseConfig)) entries = true).
  { destruct (changesObjects _ _) eqn:E; [done|].
    now rewrite (applyModuleChangesIn_fail _ _ _ Hdup E) in Happly. }
  destruct (applyModuleChangesIn_spec _ _ _ Hdup Hclean Hobj Hproto)
    as (ms & realm1 & Heq & Hclean1 & Hms).
  rewrite Heq in Happly. injection Happly as <- <-.
  assert (Hcopied : jsonCopy <$> ms = ms).
  { apply map_eq. intros name. rewrite lookup_fmap, Hms. apply changedModule_copied. }
  assert (Hobj' : changesObjects (jsonCopy <$> modules (data (withModules baseConfig ms)))
                    entries = true).
  { cbn [modules data withModules]. rewrite Hcopied. apply changesObjects_true_iff.
    intros name b v Hin Hv. rewrite <- Hv, Hms, changedModule_isObject.
    destruct ((jsonCopy <$> modules (data baseConfig)) !! name) as [v0|] eqn:Hv0.
    - rewrite lookup_fmap in Hv0. rewrite Hv0.
      apply (changesObjects_lookup (jsonCopy <$> modules (data baseConfig)) entries name b);
        [assumption | assumption | now rewrite lookup_fmap].
    - rewrite lookup_fmap in Hv0. rewrite Hms, Hv0 in Hv. now destruct (list_to_map entries !! name). }
  assert (Hproto' : reachesPrototype (modules (data (withModules baseConfig ms))) entries = false).
  { rewrite <- Hproto. apply reachesPrototype_keys. cbn [modules data withModules].
    rewrite Hms, changedModule_is_Some. apply fmap_is_Some. }
  destruct (applyModuleChangesIn_spec _ _ _ Hdup Hclean1 Hobj' Hproto')
    as (ms' & realm2 & Heq' & _ & Hms').
  cbn [modules data withModules] in *. split_and!.
  - exists realm2. rewrite Heq', withModules_withModules. f_equal. f_equal. f_equal.
    apply map_eq. intros name. rewrite Hms', <- lookup_fmap, Hcopied, Hms.
    apply changedModule_idem.
  - apply set_eq. intros name. rewrite !elem_of_dom, Hms, changedModule_is_Some.
    apply fmap_is_Some.
  - intros name. now rewrite Hms, changedModule_isObject.
Qed.

Lemma apply_module_changes_idempotent_witness :
  exists newConfig realm',
    TemplateParser.applyModuleChangesIn pristine Examples.shellDisabled
      [("shell", true); ("toString", true); ("missing", false)] = Some (newConfig, realm')
    /\ (exists realm'',
          TemplateParser.applyModuleChangesIn realm' newConfig
            [("shell", true); ("toString", true); ("missing", false)]
          = Some (newConfig, realm''))
    /\ dom (modules (data newConfig)) = dom (modules (data Examples.shellDisabled))
    /\ forall name, isObject (modules (data newConfig) !! name)
                    = isObject (jsonCopy <$> modules (data Examples.shellDisabled) !! name).
Proof.
  eexists. eexists. split; [vm_compute; reflexivity|].
  apply (apply_module_changes_idempotent pristine _ Examples.shellDisabled).
  - refine (bool_decide_unpack _ _). vm_compute. exact I.
  - reflexivity.
  - vm_compute. reflexivity.
  - vm_compute. reflexivity.
Defined.

(** ** The answers of the two routes *)

Section RouteProperties.
Context `{RegExp.Host}.

Lemma post_Ok body baseConfig ignoreContent allSourceFiles response :
  SimulateRoute.POST body baseConfig ignoreContent allSourceFiles = Ok response ->
  exists moduleChanges simulatedConfig,
    req_moduleChanges body = Some moduleChanges
    /\ TemplateParser.applyModuleChanges baseConfig moduleChanges = Some simulatedConfig
    /\ let platform := default "linux" (req_platform body) in
       let baseFiles :=
         SimulateRoute.getFilesForConfig ignoreContent platform allSourceFiles baseConfig in
       let simulatedFiles :=
         SimulateRoute.getFilesForConfig ignoreContent platform allSourceFiles simulatedConfig in
       response
       = {| filesAdded :=
              List.filter
                (fun f => negb (bool_decide (deployPath f ∈ SimulateRoute.deployPaths baseFiles)))
                simulatedFiles;
            filesRemoved :=
              List.filter
                (fun f => negb (bool_decide (deployPath f ∈ SimulateRoute.deployPaths simulatedFiles)))
                baseFiles;
            totalFilesBefore := length baseFiles;
            totalFilesAfter := length simulatedFiles;
            resp_platform := platform;
            resp_moduleChanges := moduleChanges |}.
Proof.
  unfold SimulateRoute.POST. intros Hpost.
  destruct (req_moduleChanges body) as [moduleChanges|]; [|done].
  destruct (TemplateParser.applyModuleChanges baseConfig moduleChanges)
    as [simulatedConfig|] eqn:Happly; [|done].
  injection Hpost as <-. now exists moduleChanges, simulatedConfig.
Qed.

(** X7: The files returned by GET /api/files come in the order of the
    listing of the repository: their source paths are a subsequence of
    the source files given; none of them is a skipped file (a
    directory, [README.md], anything under [.git/] or [docs/], ...),
    and [totalFiles] is at most the number of source files. *)
Theorem files_route_keeps_source_order (platformParam : option string)
    (config : DotfilesConfig) (ignoreContent : string) (allSourceFiles : list string) :
  let response := FilesRoute.GET platformParam config ignoreContent allSourceFiles in
  sublist (map sourcePath (FilesRoute.files response)) allSourceFiles
  /\ Forall (fun m => FilesRoute.skipped (sourcePath m) = false) (FilesRoute.files response)
  /\ FilesRoute.totalFiles response <= length allSourceFiles.
Proof.
  cbn zeta. unfold FilesRoute.GET, FilesRoute.resolveFiles.
  cbn [FilesRoute.files FilesRoute.totalFiles].
  set (platform := FileMapper.orText _ _).
  set (ignorePatterns := IgnoreParser.getIgnorePatterns _ _ _).
  assert (Hsub : sublist (map sourcePath
                            (omap (FilesRoute.resolve config platform ignorePatterns)
                               allSourceFiles)) allSourceFiles).
  { apply omap_sublist. intros path m Hres.
    now apply files_resolve_source in Hres as [-> _]. }
  split_and!.
  - exact Hsub.
  - apply Forall_forall. intros m Hm.
    apply list_elem_of_omap in Hm as (path & _ & Hres).
    now apply files_resolve_source in Hres as [-> ?].
  - apply sublist_length in Hsub. now rewrite length_map in Hsub.
Qed.

(** X8: POST /api/simulate with an empty [moduleChanges] object compares
    the base configuration with its JSON copy.  When the copy reads the
    modules back as they are (no number that is not finite and no
    timestamp among their values), it answers with no file added, no
    file removed and equal totals, for every ignore text, platform and
    list of source files. *)
Theorem simulate_without_changes_changes_nothing (platform : option Platform)
    (baseConfig : DotfilesConfig) (ignoreContent : string) (allSourceFiles : list string) :
  jsonCopy <$> modules (data baseConfig) = modules (data baseConfig) ->
  let files :=
    SimulateRoute.getFilesForConfig ignoreContent (default "linux" platform)
      allSourceFiles baseConfig in
  SimulateRoute.POST {| req_moduleChanges := Some ∅; req_platform := platform |}
    baseConfig ignoreContent allSourceFiles
  = Ok {| filesAdded := [];
          filesRemoved := [];
          totalFilesBefore := length files;
          totalFilesAfter := length files;
          resp_platform := default "linux" platform;
          resp_moduleChanges := ∅ |}.
Proof.
  intros Hstable. cbn zeta. unfold SimulateRoute.POST. cbn [req_moduleChanges req_platform].
  unfold TemplateParser.applyModuleChanges, TemplateParser.applyModuleChangesIn.
  rewrite map_to_list_empty. cbn [fold_left fmap option_fmap option_map fst].
  unfold copyConfig. rewrite Hstable, withModules_id. now rewrite filter_own_paths.
Qed.

(** X9: When the ignore text has no conditional line, POST /api/simulate
    reports no added and no removed file and equal totals, whatever
    the module changes are: the simulation reads the configuration
    through the ignore patterns only. *)
Theorem simulate_unconditional_ignore_file (body : SimulateRequest)
    (baseConfig : DotfilesConfig) (ignoreContent : string) (allSourceFiles : list string)
    (response : SimulateResponse) :
  unconditional ignoreContent = true ->
  SimulateRoute.POST body baseConfig ignoreContent allSourceFiles = Ok response ->
  filesAdded response = [] /\ filesRemoved response = []
  /\ totalFilesBefore response = totalFilesAfter response.
Proof.
  intros Hun Hpost.
  apply post_Ok in Hpost as (moduleChanges & simulatedConfig & _ & _ & ->).
  cbn zeta. cbn [filesAdded filesRemoved totalFilesBefore totalFilesAfter].
  rewrite (getFilesForConfig_patterns _ _ _ simulatedConfig baseConfig).
  - now rewrite filter_own_paths.
  - unfold IgnoreParser.getIgnorePatterns.
    now rewrite !unconditional_filter.
Qed.

(** X10: In a response of POST /api/simulate no deploy path is reported both
    as added and as removed; [filesAdded] is at most as long as
    [totalFilesAfter] and [filesRemoved] at most as long as
    [totalFilesBefore]. *)
Theorem simulate_added_and_removed_are_disjoint (body : SimulateRequest)
    (baseConfig : DotfilesConfig) (ignoreContent : string) (allSourceFiles : list string)
    (response : SimulateResponse) :
  SimulateRoute.POST body baseConfig ignoreContent allSourceFiles = Ok response ->
  (forall added removed,
     In added (filesAdded response) -> In removed (filesRemoved response) ->
     deployPath added <> deployPath removed)
  /\ length (filesAdded response) <= totalFilesAfter response
  /\ length (filesRemoved response) <= totalFilesBefore response.
Proof.
  intros Hpost.
  apply post_Ok in Hpost as (moduleChanges & simulatedConfig & _ & _ & ->).
  cbn zeta. cbn [filesAdded filesRemoved totalFilesBefore totalFilesAfter].
  split_and!; [|apply List.filter_length_le..].
  intros added removed Hadd Hrem Heq.
  apply filter_In in Hadd as [_ Hadd], Hrem as [Hrem _].
  apply negb_true_iff, bool_decide_eq_false in Hadd. apply Hadd.
  rewrite Heq. unfold SimulateRoute.deployPaths.
  apply elem_of_list_to_set, list_elem_of_In, in_map, Hrem.
Qed.

(** X11: The three outcomes of POST /api/simulate, in a process in which
    nothing has been written on Object.prototype and once the
    configuration (with a plain object for [data.modules]), the ignore
    file and the list of source files have been fetched.  Status 400:
    the body is a JSON value other than [null] without a
    [moduleChanges] object.  Status
    500: the body is not JSON or is [null], or [applyModuleChanges]
    throws: a change names a module of the configuration that is not an
    object in the JSON copy, or (the only other way) a change is keyed
    [__proto__].  Otherwise, a response that echoes the changes and the
    platform, [linux] when the body names none; every module named by
    a change is then an object in the JSON copy. *)
Theorem simulate_status (body : RequestBody)
    (baseConfig : DotfilesConfig) (ignoreContent : string) (allSourceFiles : list string) :
  match SimulateRoute.handle body baseConfig ignoreContent allSourceFiles with
  | BadRequest => exists request, body = Body request /\ req_moduleChanges request = None
  | ServerError =>
      body = Unreadable \/ body = NullBody
      \/ exists request moduleChanges,
           body = Body request
           /\ req_moduleChanges request = Some moduleChanges
           /\ (changesObjects (jsonCopy <$> modules (data baseConfig))
                 (map_to_list moduleChanges) = false
               \/ reachesPrototype (modules (data baseConfig))
                    (map_to_list moduleChanges) = true)
  | Ok response =>
      exists request moduleChanges,
        body = Body request
        /\ req_moduleChanges request = Some moduleChanges
        /\ changesObjects (jsonCopy <$> modules (data baseConfig))
             (map_to_list moduleChanges) = true
        /\ resp_moduleChanges response = moduleChanges
        /\ resp_platform response = default "linux" (req_platform request)
  end.
Proof.
  destruct body as [| |request]; cbn [SimulateRoute.handle]; [now left | now right; left |].
  unfold SimulateRoute.POST.
  destruct (req_moduleChanges request) as [moduleChanges|] eqn:Hreq; [|now exists request].
  destruct (changesObjects (jsonCopy <$> modules (data baseConfig)) (map_to_list moduleChanges))
    eqn:Hobj.
  - destruct (TemplateParser.applyModuleChanges baseConfig moduleChanges) eqn:Happly.
    + now exists request, moduleChanges.
    + right; right. exists request, moduleChanges. split_and!; try done. right.
      destruct (reachesPrototype _ _) eqn:Hproto; [reflexivity|].
      destruct (applyModuleChanges_spec _ _ Hobj Hproto) as (ms & Heq & _). congruence.
  - rewrite (applyModuleChanges_fail _ _ Hobj).
    right; right. exists request, moduleChanges. split_and!; try done. now left.
Qed.

End RouteProperties.

Lemma simulate_without_changes_changes_nothing_witness :
  SimulateRoute.POST (H := Examples.rejectingHost)
    {| req_moduleChanges := Some ∅; req_platform := None |}
    Examples.shellDisabled Examples.ignoreHistory ["bar"; "foo"]
  = Ok {| filesAdded := [];
          filesRemoved := [];
          totalFilesBefore := 2;
          totalFilesAfter := 2;
          resp_platform := "linux";
          resp_moduleChanges := ∅ |}
  /\ match SimulateRoute.POST (H := Examples.rejectingHost)
             {| req_moduleChanges := Some ∅; req_platform := None |}
             Examples.datedModule Examples.ignoreHistory ["bar"; "foo"] with
     | Ok response =>
         map sourcePath (filesAdded response) = ["foo"]
         /\ filesRemoved response = []
         /\ totalFilesBefore response = 1
         /\ totalFilesAfter response = 2
     | _ => False
     end.
Proof.
  split.
  - apply (simulate_without_changes_changes_nothing (H := Examples.rejectingHost) None
             Examples.shellDisabled Examples.ignoreHistory ["bar"; "foo"]).
    vm_compute. reflexivity.
  - vm_compute. repeat split.
Defined.

Lemma simulate_unconditional_ignore_file_witness :
  exists response,
    SimulateRoute.POST (H := Examples.rejectingHost) Examples.enableShell
      Examples.shellDisabled "dist/" ["dot_bashrc"; "dist/app.js"] = Ok response
    /\ filesAdded response = [] /\ filesRemoved response = []
    /\ totalFilesBefore response = totalFilesAfter response.
Proof.
  eexists. split; [vm_compute; reflexivity|].
  apply (simulate_unconditional_ignore_file (H := Examples.rejectingHost)
           Examples.enableShell Examples.shellDisabled "dist/" ["dot_bashrc"; "dist/app.js"]);
    vm_compute; reflexivity.
Defined.

Lemma simulate_added_and_removed_are_disjoint_witness :
  exists response,
    SimulateRoute.POST (H := Examples.rejectingHost) Examples.enableShell
      Examples.shellDisabled
      ("{{- if .modules.shell.enabled }}" ++ JS.newline ++ "legacy" ++ JS.newline
       ++ "{{- else }}" ++ JS.newline ++ "dot_bashrc" ++ JS.newline ++ "{{- end }}")
      ["dot_bashrc"; "legacy"] = Ok response
    /\ map sourcePath (filesAdded response) = ["dot_bashrc"]
    /\ map sourcePath (filesRemoved response) = ["legacy"]
    /\ (forall added removed,
          In added (filesAdded response) -> In removed (filesRemoved response) ->
          deployPath added <> deployPath removed).
Proof.
  eexists. split; [vm_compute; reflexivity|].
  split; [vm_compute; reflexivity|]. split; [vm_compute; reflexivity|].
  apply (simulate_added_and_removed_are_disjoint (H := Examples.rejectingHost)
           Examples.enableShell Examples.shellDisabled
           ("{{- if .modules.shell.enabled }}" ++ JS.newline ++ "legacy" ++ JS.newline
            ++ "{{- else }}" ++ JS.newline ++ "dot_bashrc" ++ JS.newline ++ "{{- end }}")
           ["dot_bashrc"; "legacy"]).
  vm_compute. reflexivity.
Defined.

(** ** Validation of the module configuration *)

Section YAML.

Lemma checkModule_true ms name :
  YAMLParser.checkModule ms name = true
  <-> exists props value, ms !! name = Some (JObj props) /\ props !! "enabled" = Some value.
Proof.
  unfold YAMLParser.checkModule. split.
  - destruct (ms !! name) as [[| | | |props| | |]|]; try done.
    intros Hen. apply bool_decide_eq_true in Hen as [value Hen]. now exists props, value.
  - intros (props & value & -> & Hen). apply bool_decide_eq_true. now exists value.
Qed.

Lemma checkModule_changed change ms name :
  YAMLParser.checkModule ms name = true ->
  forall ms', ms' !! name = changedModule change (jsonCopy <$> ms !! name) ->
  YAMLParser.checkModule ms' name = true.
Proof.
  intros Hcheck ms' Hms'. apply checkModule_true in Hcheck as (props & value & Hname & Hen).
  apply checkModule_true. rewrite Hms', Hname. destruct change as [b|]; cbn.
  - exists (<["enabled" := JBool b]> (jsonCopy <$> props)), (JBool b).
    now rewrite lookup_insert_eq.
  - exists (jsonCopy <$> props), (jsonCopy value). now rewrite lookup_fmap, Hen.
Qed.

End YAML.


(** X13: In a configuration that [YAMLParser.validateModules] accepts, the
    simulated change of any required module succeeds, the module then
    reads as enabled or disabled as the change says, and the
    simulated configuration is accepted as well. *)
Theorem valid_configuration_can_be_toggled (baseConfig : DotfilesConfig)
    (name : string) (enabled : bool) :
  YAMLParser.validateModules (YAMLParser.getModules baseConfig) = true ->
  In name YAMLParser.requiredModuleNames ->
  exists newConfig,
    TemplateParser.applyModuleChanges baseConfig {[name := enabled]} = Some newConfig
    /\ moduleEnabled newConfig name = enabled
    /\ YAMLParser.validateModules (YAMLParser.getModules newConfig) = true.
Proof.
  unfold YAMLParser.getModules, YAMLParser.validateModules.
  intros Hvalid Hname. rewrite forallb_forall in Hvalid.
  pose proof (Hvalid name Hname) as Hcheck.
  apply checkModule_true in Hcheck as (props & value & Hprops & _).
  assert (Hobj : changesObjects (jsonCopy <$> modules (data baseConfig))
                   (map_to_list ({[name := enabled]} : gmap string bool)) = true).
  { unfold changesObjects. rewrite map_to_list_singleton. cbn [forallb fst].
    now rewrite lookup_fmap, Hprops. }
  assert (Hproto : reachesPrototype (modules (data baseConfig))
                     (map_to_list ({[name := enabled]} : gmap string bool)) = false).
  { unfold reachesPrototype. rewrite map_to_list_singleton. cbn [existsb fst].
    destruct (modules (data baseConfig) !! "__proto__") eqn:Hown; [reflexivity|].
    destruct (String.eqb name "__proto__") eqn:E; [|reflexivity].
    apply String.eqb_eq in E. subst name. congruence. }
  destruct (applyModuleChanges_spec _ _ Hobj Hproto) as (ms & -> & Hms).
  exists (withModules baseConfig ms). cbn [modules data withModules]. split_and!.
  - reflexivity.
  - unfold moduleEnabled. cbn [modules data withModules].
    rewrite Hms, lookup_singleton_eq, Hprops. cbn.
    rewrite lookup_insert_eq. now destruct enabled.
  - apply forallb_forall. intros n Hn.
    apply (checkModule_changed (({[name := enabled]} : gmap string bool) !! n)
             (modules (data baseConfig)));
      [now apply Hvalid|apply Hms].
Qed.

Lemma valid_configuration_can_be_toggled_witness :
  exists newConfig,
    TemplateParser.applyModuleChanges Fixtures.allModules {["git" := false]}
    = Some newConfig
    /\ moduleEnabled newConfig "git" = false
    /\ YAMLParser.validateModules (YAMLParser.getModules newConfig) = true.
Proof.
  apply (valid_configuration_can_be_toggled Fixtures.allModules "git" false).
  - vm_compute. reflexivity.
  - cbn. tauto.
Defined.

(** ** The segments of a deploy path *)

Section Deploy.

Lemma strippedName_noSlash filename :
  noSlash filename = true -> noSlash (strippedName filename) = true.
Proof.
  intros Hfile. unfold strippedName.
  assert (noSlash (if JS.startsWith filename "executable_"
                   then JS.replacePrefix "executable_" "" filename
                   else filename) = true) as Hexec.
  { destruct (JS.startsWith _ _); [|assumption]. now apply noSlash_replacePrefix. }
  destruct (JS.endsWith _ _); [|assumption]. now apply noSlash_replaceSuffix.
Qed.

Lemma deploySegments_noSlash sourcePath :
  Forall (fun x => noSlash x = true) (deploySegments sourcePath).
Proof.
  unfold deploySegments. apply Forall_map.
  pose proof (split_noSlash sourcePath) as Hparts.
  apply Forall_app. split.
  - eapply Forall_impl; [now apply Forall_noSlash_removelast|].
    intros x Hx. now apply noSlash_replacePrefix.
  - repeat constructor. apply noSlash_replacePrefix; [done|].
    apply strippedName_noSlash. now apply noSlash_last.
Qed.

Lemma deploySegments_nonempty sourcePath : deploySegments sourcePath <> [].
Proof.
  unfold deploySegments. now destruct (removelast (JS.split "/" sourcePath)).
Qed.

Lemma startsWith_slash_not_dot x :
  JS.startsWith x "/" = true -> JS.startsWith x "." = false.
Proof.
  destruct x as [|c x]; [done|]. rewrite startsWith_slash_cons.
  intros Hc. apply Ascii.eqb_eq in Hc as ->. reflexivity.
Qed.

Lemma mapFile_segments sourcePath :
  partial_deployPath (FileMapper.mapFile sourcePath)
  = (if JS.startsWith sourcePath "/" then "" else "~/")
    ++ JS.join "/" (deploySegments sourcePath).
Proof.
  destruct (mapFile_deployPath sourcePath) as (d & Hslash & Heq).
  unfold FileMapper.mapFile in *. cbn [partial_deployPath] in *.
  fold (strippedName (List.last (JS.split "/" sourcePath) "")) in *.
  rewrite split_join in *.
  - fold (deploySegments sourcePath) in *.
    pose proof (startsWith_join (deploySegments sourcePath)
                  (deploySegments_noSlash sourcePath)) as Hjoin.
    assert (Hsame : JS.startsWith (JS.join "/" (deploySegments sourcePath)) "/"
                    = JS.startsWith sourcePath "/").
    { rewrite Hjoin. unfold deploySegments.
      rewrite slashFirst_map by apply isEmpty_dot.
      rewrite slashFirst_replace_last. apply slashFirst_split. }
    rewrite Hsame. destruct (JS.startsWith sourcePath "/") eqn:Habs; cbn [negb andb].
    + now rewrite (startsWith_slash_not_dot _ Hsame).
    + now destruct (JS.startsWith (JS.join "/" (deploySegments sourcePath)) ".").
  - now destruct (removelast (JS.split "/" sourcePath)).
  - apply Forall_app. split.
    + apply Forall_noSlash_removelast, split_noSlash.
    + repeat constructor. apply strippedName_noSlash, noSlash_last, split_noSlash.
  - now destruct (removelast (JS.split "/" sourcePath)).
  - apply Forall_app. split.
    + apply Forall_noSlash_removelast, split_noSlash.
    + repeat constructor. apply strippedName_noSlash, noSlash_last, split_noSlash.
Qed.

Lemma join_split s : JS.join "/" (JS.split "/" s) = s.
Proof.
  induction s as [|c s IH]; [done|]. cbn [JS.split].
  destruct (Ascii.eqb c "/") eqn:Hc.
  - apply Ascii.eqb_eq in Hc as ->.
    destruct (JS.split "/" s) as [|h t] eqn:Hs; [now apply split_nonempty in Hs|].
    rewrite join_cons, IH. reflexivity.
  - destruct (JS.split "/" s) as [|h t] eqn:Hs; [now apply split_nonempty in Hs|].
    destruct t as [|y t].
    + cbn [JS.join] in *. now rewrite IH.
    + rewrite join_cons in *.
      change (String c h ++ String "/" (JS.join "/" (y :: t)))
        with (String c (h ++ String "/" (JS.join "/" (y :: t)))).
      now rewrite IH.
Qed.

Lemma replacePrefix_dot_not_dot x :
  JS.startsWith (JS.replacePrefix "dot_" "." x) "dot_" = false.
Proof.
  unfold JS.replacePrefix. destruct (JS.startsWith x "dot_") eqn:E; [|exact E].
  reflexivity.
Qed.

Lemma mapFile_nonempty sourcePath :
  JS.isEmpty (partial_deployPath (FileMapper.mapFile sourcePath)) = false.
Proof.
  rewrite mapFile_segments. destruct (JS.startsWith sourcePath "/") eqn:Habs; [|done].
  change ("" ++ ?x) with x.
  destruct (JS.join "/" (deploySegments sourcePath)) eqn:E; [|done].
  pose proof (startsWith_join (deploySegments sourcePath)
                (deploySegments_noSlash sourcePath)) as Hjoin.
  unfold deploySegments in Hjoin at 2.
  rewrite slashFirst_map in Hjoin by apply isEmpty_dot.
  rewrite slashFirst_replace_last, slashFirst_split, Habs, E in Hjoin. done.
Qed.

End Deploy.

(** X14: For a relative source path in which no segment begins with [dot_]
    and whose file name neither begins with [executable_] nor ends in
    [.tmpl], [FileMapper.mapFile] returns the path itself under the
    home directory, and neither flag is set. *)
Theorem plain_path_is_deployed_as_is (sourcePath : string) :
  plainPath sourcePath = true ->
  FileMapper.mapFile sourcePath
  = {| partial_sourcePath := sourcePath;
       partial_deployPath := "~/" ++ sourcePath;
       partial_isTemplate := false;
       partial_isExecutable := false;
       partial_requiredModules := None;
       partial_platforms := None |}.
Proof.
  unfold plainPath. intros Hplain.
  apply andb_prop in Hplain as [Hplain Habs]. apply andb_prop in Hplain as [Hplain Htmpl].
  apply andb_prop in Hplain as [Hdot Hexec].
  apply negb_true_iff in Habs, Htmpl, Hexec.
  assert (Hpath : partial_deployPath (FileMapper.mapFile sourcePath) = "~/" ++ sourcePath).
  { rewrite mapFile_segments, Habs. f_equal. unfold deploySegments, strippedName.
    rewrite Hexec, Htmpl.
    rewrite <- app_removelast_last by apply split_nonempty.
    rewrite <- (join_split sourcePath) at 2. f_equal.
    rewrite <- (map_id (JS.split "/" sourcePath)) at 2.
    apply map_ext_in. intros part Hpart.
    rewrite forallb_forall in Hdot. specialize (Hdot part Hpart).
    apply negb_true_iff in Hdot. unfold JS.replacePrefix. now rewrite Hdot. }
  revert Hpath. unfold FileMapper.mapFile. cbn [partial_deployPath].
  rewrite Hexec, Htmpl. now intros ->.
Qed.

Lemma plain_path_is_deployed_as_is_witness :
  partial_deployPath (FileMapper.mapFile "bin/tools/run.sh") = "~/bin/tools/run.sh".
Proof.
  rewrite (plain_path_is_deployed_as_is "bin/tools/run.sh"); [reflexivity|].
  vm_compute. reflexivity.
Defined.

(** X15: For every source path, no segment of the deploy path returned by
    [FileMapper.mapFile] begins with [dot_]. *)
Theorem deploy_path_has_no_dot_prefix (sourcePath : string) :
  Forall (fun part => JS.startsWith part "dot_" = false)
    (JS.split "/" (partial_deployPath (FileMapper.mapFile sourcePath))).
Proof.
  rewrite mapFile_segments.
  assert (Hsegs : Forall (fun part => JS.startsWith part "dot_" = false)
                    (deploySegments sourcePath)).
  { unfold deploySegments. apply Forall_map, Forall_forall.
    intros x _. apply replacePrefix_dot_not_dot. }
  destruct (JS.startsWith sourcePath "/").
  - change ("" ++ ?x) with x.
    rewrite split_join; [done|apply deploySegments_nonempty|apply deploySegments_noSlash].
  - change ("~/" ++ ?x) with ("~" ++ String "/" x).
    rewrite split_app_noSlash by reflexivity.
    rewrite split_join; [|apply deploySegments_nonempty|apply deploySegments_noSlash].
    now constructor.
Qed.

(** X16: The mapping built for a source path by POST /api/simulate and the
    one built by [FileMapper.buildFileMapping] (GET /api/files) have
    the same source path, deploy path and flags, those of
    [FileMapper.mapFile]; the deploy path is never empty, so neither
    fallback of the two call sites is ever taken. *)
Theorem routes_agree_on_deploy_path (platform : Platform) (path : string)
    (requiredModules : option (list string)) (platforms : option (list Platform)) :
  let simulated := SimulateRoute.fullMapping platform path in
  let listed := FileMapper.buildFileMapping path requiredModules platforms in
  deployPath simulated = partial_deployPath (FileMapper.mapFile path)
  /\ deployPath listed = partial_deployPath (FileMapper.mapFile path)
  /\ JS.isEmpty (deployPath listed) = false
  /\ isTemplate simulated = isTemplate listed
  /\ isExecutable simulated = isExecutable listed
  /\ sourcePath simulated = sourcePath listed.
Proof.
  cbn zeta. unfold SimulateRoute.fullMapping, FileMapper.buildFileMapping.
  cbn [deployPath isTemplate isExecutable sourcePath].
  unfold FileMapper.orText. rewrite !mapFile_nonempty, !orb_false_r. done.
Qed.

(** X17: The modules inferred for a source path are a subsequence of shell,
    vscode, powershell, start_menu, git, smart_search: each at most
    once, in this order, and never another module. *)
Theorem inferred_modules_are_known (sourcePath : string) :
  sublist (FileMapper.inferModules sourcePath)
    ["shell"; "vscode"; "powershell"; "start_menu"; "git"; "smart_search"].
Proof.
  unfold FileMapper.inferModules.
  change ["shell"; "vscode"; "powershell"; "start_menu"; "git"; "smart_search"]
    with (["shell"] ++ ["vscode"] ++ ["powershell"] ++ ["start_menu"] ++ ["git"]
          ++ ["smart_search"])%list.
  assert (Hpush : forall cond m, sublist (FileMapper.pushIf cond m) [m]).
  { intros [] m; cbn; [done|]. now constructor. }
  repeat (apply sublist_app; [apply Hpush|]). apply Hpush.
Qed.

Lemma inferModules_In sourcePath m :
  In m (FileMapper.inferModules sourcePath)
  <-> let has := JS.includes sourcePath in
      (m = "shell" /\ has "shell/" || has "dot_bashrc" || has "dot_zshrc" = true)
      \/ (m = "vscode" /\ has "Code/User/" = true)
      \/ (m = "powershell" /\ has "PowerShell/" = true)
      \/ (m = "start_menu" /\ has "start_menu" = true)
      \/ (m = "git" /\ has "gitconfig" = true)
      \/ (m = "smart_search" /\ has "smart-search" || has "smart_search" = true).
Proof.
  unfold FileMapper.inferModules, FileMapper.pushIf. cbn zeta.
  rewrite !in_app_iff.
  destruct (_ || _ || _), (JS.includes sourcePath "Code/User/"),
    (JS.includes sourcePath "PowerShell/"), (JS.includes sourcePath "start_menu"),
    (JS.includes sourcePath "gitconfig"), (_ || _);
    cbn [In]; intuition (discriminate || congruence).
Qed.

(** X18: For every source path: the inferred platforms are [windows] alone
    exactly when the powershell module is inferred; linux is among
    the inferred platforms exactly when powershell is not inferred,
    and exactly when darwin is; and a path that holds [dot_bashrc] or
    [dot_zshrc] requires the shell module and is deployed on windows
    only if it is a PowerShell path as well. *)
Theorem powershell_files_are_windows_only (sourcePath : string) :
  (In "powershell" (FileMapper.inferModules sourcePath)
   <-> FileMapper.inferPlatforms sourcePath = ["windows"])
  /\ (In "linux" (FileMapper.inferPlatforms sourcePath)
      <-> ~ In "powershell" (FileMapper.inferModules sourcePath))
  /\ (In "linux" (FileMapper.inferPlatforms sourcePath)
      <-> In "darwin" (FileMapper.inferPlatforms sourcePath))
  /\ (JS.includes sourcePath "dot_bashrc" || JS.includes sourcePath "dot_zshrc" = true ->
      In "shell" (FileMapper.inferModules sourcePath)
      /\ (In "windows" (FileMapper.inferPlatforms sourcePath)
          <-> In "powershell" (FileMapper.inferModules sourcePath))).
Proof.
  assert (Hps : In "powershell" (FileMapper.inferModules sourcePath)
                <-> JS.includes sourcePath "PowerShell/" = true).
  { rewrite inferModules_In. cbn zeta. intuition discriminate. }
  assert (Hsh : JS.includes sourcePath "dot_bashrc" || JS.includes sourcePath "dot_zshrc" = true ->
                In "shell" (FileMapper.inferModules sourcePath)).
  { intros Hrc. apply inferModules_In. left. split; [done|].
    now rewrite <- orb_assoc, Hrc, orb_true_r. }
  rewrite Hps. unfold FileMapper.inferPlatforms. cbn zeta.
  destruct (JS.includes sourcePath "PowerShell/"),
    (JS.includes sourcePath "dot_bashrc" || JS.includes sourcePath "dot_zshrc"),
    (JS.includes sourcePath "Code/User/"),
    (JS.includes sourcePath "bin/executable_" || JS.includes sourcePath "scripts/");
    cbn [In]; intuition (discriminate || congruence).
Qed.

Lemma powershell_files_are_windows_only_witness :
  In "shell" (FileMapper.inferModules "dot_bashrc")
  /\ (In "windows" (FileMapper.inferPlatforms "dot_bashrc")
      <-> In "powershell" (FileMapper.inferModules "dot_bashrc")).
Proof.
  apply (powershell_files_are_windows_only "dot_bashrc"). vm_compute. reflexivity.
Defined.

(** ** Inclusion of a template *)

Section Include.
Variables (config : DotfilesConfig) (platform : Platform).

Lemma includeStep_length stack line :
  1 <= length stack ->
  length (TemplateParser.includeStep config platform stack line)
  = S (depthStep (length stack - 1) line).
Proof.
  intros Hlen. unfold TemplateParser.includeStep, depthStep, RegExp.test.
  destruct (RegExp.exec TemplateParser.re_if_head _).
  - destruct (RegExp.exec IgnoreParser.re_if _); cbn [length]; lia.
  - destruct (RegExp.exec TemplateParser.re_else _).
    + destruct stack as [|a [|b stack]]; cbn [length] in *; lia.
    + destruct (RegExp.exec TemplateParser.re_end _).
      * destruct stack as [|a [|b stack]]; cbn [length Nat.pred] in *; lia.
      * lia.
Qed.

Lemma includeStep_nested stack line :
  nested stack = true ->
  nested (TemplateParser.includeStep config platform stack line) = true.
Proof.
  intros Hn. unfold TemplateParser.includeStep.
  destruct (RegExp.test TemplateParser.re_if_head _).
  - destruct (RegExp.exec IgnoreParser.re_if _); [|done].
    destruct stack as [|a [|b stack]]; [done| |].
    + cbn in *. subst. now destruct (TemplateParser.evaluateCondition _ _ _).
    + cbn [nested IgnoreParser.top hd] in *.
      apply andb_prop in Hn as [Hab Hn]. rewrite Hab, Hn.
      now destruct a, (TemplateParser.evaluateCondition _ _ _).
  - destruct (RegExp.test TemplateParser.re_else _).
    + destruct stack as [|a [|b stack]]; [done..|].
      cbn [nested] in *. apply andb_prop in Hn as [Hab Hn].
      destruct stack as [|c stack].
      * cbn in *. subst. now destruct a.
      * cbn [nested] in *. apply andb_prop in Hn as [Hbc Hn]. rewrite Hbc, Hn.
        now destruct a, b.
    + destruct (RegExp.test TemplateParser.re_end _); [|done].
      destruct stack as [|a [|b stack]]; [done..|].
      cbn [nested] in Hn. now apply andb_prop in Hn as [_ Hn].
Qed.

Lemma includeLoop lines : forall stack,
  1 <= length stack -> nested stack = true ->
  let stack' := fold_left (TemplateParser.includeStep config platform) lines stack in
  nested stack' = true
  /\ length stack' = S (fold_left depthStep lines (length stack - 1)).
Proof.
  induction lines as [|line lines IH]; intros stack Hlen Hn; cbn [fold_left].
  - split; [done|lia].
  - pose proof (includeStep_length stack line Hlen) as Hl.
    destruct (IH (TemplateParser.includeStep config platform stack line)) as [Hn' Hl'].
    + lia.
    + now apply includeStep_nested.
    + split; [done|]. cbn zeta in Hl'. rewrite Hl', Hl. do 2 f_equal. lia.
Qed.

Lemma includeStack_spec templateContent :
  nested (TemplateParser.includeStack templateContent config platform) = true
  /\ length (TemplateParser.includeStack templateContent config platform)
     = S (openBlocks templateContent).
Proof.
  unfold TemplateParser.includeStack, openBlocks.
  now apply (includeLoop (JS.split "010" templateContent) [true]).
Qed.

End Include.

(** X19: A template in which every [if] block is closed is included by
    [TemplateParser.shouldIncludeTemplate] for every configuration
    and platform, whatever its conditions evaluate to. *)
Theorem closed_template_is_included (templateContent : string)
    (config : DotfilesConfig) (platform : Platform) :
  openBlocks templateContent = 0 ->
  TemplateParser.shouldIncludeTemplate templateContent config platform = true.
Proof.
  intros Hclosed. unfold TemplateParser.shouldIncludeTemplate.
  destruct (includeStack_spec config platform templateContent) as [Hn Hlen].
  rewrite Hclosed in Hlen.
  destruct (TemplateParser.includeStack templateContent config platform) as [|a [|b stack]];
    [done| |done].
  cbn in *. now rewrite Hn.
Qed.

Lemma closed_template_is_included_witness :
  TemplateParser.evaluateCondition ".modules.shell.enabled" Examples.shellDisabled "linux"
  = false
  /\ TemplateParser.shouldIncludeTemplate
       ("{{ if .modules.shell.enabled }}" ++ JS.newline ++ "alias ll='ls -l'" ++ JS.newline
        ++ "{{ end }}")
       Examples.shellDisabled "linux" = true.
Proof.
  split; [vm_compute; reflexivity|].
  apply closed_template_is_included. vm_compute. reflexivity.
Defined.

(** X20: The answer of [TemplateParser.shouldIncludeTemplate] is the entry
    on top of the stack after the last line, the state of the
    innermost block still open; the stack holds one entry more than
    there are open blocks, and its bottom entry is true. *)
Theorem template_inclusion_is_innermost_open_block (templateContent : string)
    (config : DotfilesConfig) (platform : Platform) :
  let stack := TemplateParser.includeStack templateContent config platform in
  TemplateParser.shouldIncludeTemplate templateContent config platform
  = IgnoreParser.top stack
  /\ length stack = S (openBlocks templateContent)
  /\ List.last stack false = true.
Proof.
  cbn zeta. unfold TemplateParser.shouldIncludeTemplate.
  destruct (includeStack_spec config platform templateContent) as [Hn Hlen].
  split_and!; [now rewrite nested_top|done|now apply nested_last].
Qed.
(** ** Runs of the matcher on texts of a known shape *)

Section Runs.
Import RegExp.

Lemma matcher_Seq r1 r2 x k :
  matcher (Seq r1 r2) x k = matcher r1 x (fun y => matcher r2 y k).
Proof. reflexivity. Qed.

Lemma matcher_Char c i t caps k :
  matcher (Char c) (state i (String c t) caps) k = k (state (S i) t caps).
Proof. cbn [matcher rest state]. now rewrite Ascii.eqb_refl. Qed.

Lemma matcher_Lit p : forall i t caps k,
  matcher (Lit p) (state i (p ++ t) caps) k = k (state (i + String.length p) t caps).
Proof.
  induction p as [|c p IH]; intros i t caps k.
  - cbn [Lit matcher String.length]. now rewrite Nat.add_0_r.
  - change (String c p ++ t) with (String c (p ++ t)).
    cbn [Lit String.length]. rewrite matcher_Seq, matcher_Char, IH.
    now rewrite Nat.add_succ_r.
Qed.

Lemma append_nil_r s : s ++ "" = s.
Proof.
  induction s as [|c s IH]; [done|].
  change (String c s ++ "") with (String c (s ++ "")). now rewrite IH.
Qed.

Lemma matcher_Lit_end p i caps k :
  matcher (Lit p) (state i p caps) k = k (state (i + String.length p) "" caps).
Proof. rewrite <- (append_nil_r p) at 2. apply matcher_Lit. Qed.

Lemma repeatMatcher_greedy_S m k fuel x :
  repeatMatcher m true k (S fuel) x
  = match m x (fun y => if (String.length (rest y) <? String.length (rest x))%nat
                        then repeatMatcher m true k fuel y else None) with
    | Some z => Some z
    | None => k x
    end.
Proof. reflexivity. Qed.

Lemma repeatMatcher_lazy_S m k fuel x :
  repeatMatcher m false k (S fuel) x
  = match k x with
    | Some z => Some z
    | None => m x (fun y => if (String.length (rest y) <? String.length (rest x))%nat
                            then repeatMatcher m false k fuel y else None)
    end.
Proof. reflexivity. Qed.

Lemma matcher_Class_in cl a i s caps k :
  inClass cl a = true ->
  matcher (Class cl) (state i (String a s) caps) k = k (state (S i) s caps).
Proof. intros Ha. cbn [matcher rest state]. now rewrite Ha. Qed.

Lemma matcher_Class_out cl i t caps k :
  stops cl t = true -> matcher (Class cl) (state i t caps) k = None.
Proof.
  intros Hstop. cbn [matcher rest state]. destruct t as [|c t]; [done|].
  cbn [stops] in Hstop. apply negb_true_iff in Hstop. now rewrite Hstop.
Qed.

Lemma star_greedy_class cl w : forall fuel i t caps k z,
  allChars (inClass cl) w = true ->
  stops cl t = true ->
  String.length w <= fuel ->
  k (state (i + String.length w) t caps) = Some z ->
  repeatMatcher (matcher (Class cl)) true k fuel (state i (w ++ t) caps) = Some z.
Proof.
  induction w as [|a w IH]; intros fuel i t caps k z Hall Hstop Hfuel Hk.
  - cbn [String.length] in Hk. rewrite Nat.add_0_r in Hk.
    change ("" ++ t) with t.
    destruct fuel as [|fuel]; [exact Hk|].
    now rewrite repeatMatcher_greedy_S, matcher_Class_out.
  - change (String a w ++ t) with (String a (w ++ t)).
    cbn [allChars] in Hall. apply andb_prop in Hall as [Ha Hall].
    cbn [String.length] in Hfuel, Hk.
    destruct fuel as [|fuel]; [lia|].
    rewrite repeatMatcher_greedy_S, matcher_Class_in by done.
    cbn [rest state String.length].
    rewrite (proj2 (Nat.ltb_lt _ _)) by lia.
    rewrite (IH fuel (S i) t caps k z); try done; [lia|].
    now rewrite Nat.add_succ_l, <- Nat.add_succ_r.
Qed.

Lemma matcher_Star_greedy cl w i t caps k z :
  allChars (inClass cl) w = true ->
  stops cl t = true ->
  k (state (i + String.length w) t caps) = Some z ->
  matcher (Star true (Class cl)) (state i (w ++ t) caps) k = Some z.
Proof.
  intros Hall Hstop Hk. cbn [matcher]. apply star_greedy_class; try done.
  cbn [rest state]. rewrite append_length. lia.
Qed.

Lemma matcher_Plus_greedy cl w i t caps k z :
  JS.isEmpty w = false ->
  allChars (inClass cl) w = true ->
  stops cl t = true ->
  k (state (i + String.length w) t caps) = Some z ->
  matcher (Plus true (Class cl)) (state i (w ++ t) caps) k = Some z.
Proof.
  intros Hne Hall Hstop Hk. destruct w as [|a w]; [done|].
  cbn [allChars] in Hall. apply andb_prop in Hall as [Ha Hall].
  change (String a w ++ t) with (String a (w ++ t)).
  unfold Plus. rewrite matcher_Seq, matcher_Class_in by done.
  apply matcher_Star_greedy; try done.
  cbn [String.length] in Hk. now rewrite Nat.add_succ_l, <- Nat.add_succ_r.
Qed.

Lemma substring_prefix w : forall t,
  String.substring 0 (String.length w) (w ++ t) = w.
Proof.
  induction w as [|a w IH]; intros t.
  - now destruct t.
  - change (String a w ++ t) with (String a (w ++ t)). cbn. now rewrite IH.
Qed.

Lemma matcher_Group_Plus_greedy n cl w i t caps k z :
  JS.isEmpty w = false ->
  allChars (inClass cl) w = true ->
  stops cl t = true ->
  k (state (i + String.length w) t ((n, w) :: caps)) = Some z ->
  matcher (Group n (Plus true (Class cl))) (state i (w ++ t) caps) k = Some z.
Proof.
  intros Hne Hall Hstop Hk. cbn [matcher].
  apply matcher_Plus_greedy; try done.
  unfold capture. cbn [rest state endIndex captures].
  rewrite append_length.
  replace (String.length w + String.length t - String.length t) with (String.length w) by lia.
  now rewrite substring_prefix.
Qed.

Lemma exec_at_start r s z :
  matcher r (state 0 s []) Some = Some z -> exec r s = Some z.
Proof.
  intros Hm. unfold exec. rewrite search_eq. unfold start.
  change {| endIndex := 0; rest := s; captures := [] |} with (state 0 s []).
  now rewrite Hm.
Qed.

End Runs.

(** ** The evaluators on the basic forms *)

Section Conditions.
Import RegExp.


End Conditions.

Section Texts.
Import RegExp.

Lemma prefix_nil s : String.prefix "" s = true.
Proof. now destruct s. Qed.

Lemma prefix_cons c p a s :
  String.prefix (String c p) (String a s) = Ascii.eqb c a && String.prefix p s.
Proof.
  cbn [String.prefix]. destruct (ascii_dec c a) as [->|Hne].
  - now rewrite Ascii.eqb_refl.
  - apply Ascii.eqb_neq in Hne. now rewrite Hne.
Qed.

Lemma prefix_app p : forall t, String.prefix p (p ++ t) = true.
Proof.
  induction p as [|c p IH]; intros t; [apply prefix_nil|].
  change (String c p ++ t) with (String c (p ++ t)).
  now rewrite prefix_cons, Ascii.eqb_refl, IH.
Qed.

Lemma includes_cons c s p :
  JS.includes (String c s) p = String.prefix p (String c s) || JS.includes s p.
Proof. reflexivity. Qed.

Lemma includes_prefix p t : JS.includes (p ++ t) p = true.
Proof.
  destruct p as [|c p]; [destruct t; cbn [JS.includes]; now rewrite ?prefix_nil|].
  change (String c p ++ t) with (String c (p ++ t)).
  rewrite includes_cons. change (String c (p ++ t)) with (String c p ++ t).
  now rewrite prefix_app.
Qed.


Lemma prefix_occurs c p : forall s,
  String.prefix p s = true -> occurs c p = true -> occurs c s = true.
Proof.
  induction p as [|a p IH]; intros s Hpre Hocc; [done|].
  destruct s as [|b s]; [done|].
  rewrite prefix_cons in Hpre. apply andb_prop in Hpre as [Hab Hpre].
  apply Ascii.eqb_eq in Hab as ->. cbn [occurs] in *.
  destruct (Ascii.eqb b c); [done|]. cbn [orb] in *. now apply IH.
Qed.

Lemma includes_occurs c p s :
  occurs c p = true -> occurs c s = false -> JS.includes s p = false.
Proof.
  intros Hp. induction s as [|a s IH]; intros Hs.
  - cbn [JS.includes]. rewrite orb_false_r.
    destruct (String.prefix p "") eqn:E; [|done].
    now rewrite (prefix_occurs c p "" E Hp) in Hs.
  - rewrite includes_cons. cbn [occurs] in Hs. apply orb_false_iff in Hs as [Ha Hs].
    rewrite (IH Hs), orb_false_r.
    destruct (String.prefix p (String a s)) eqn:E; [|done].
    pose proof (prefix_occurs c p _ E Hp) as Hocc. cbn [occurs] in Hocc.
    now rewrite Ha, Hs in Hocc.
Qed.

Lemma occurs_app c s t : occurs c (s ++ t) = occurs c s || occurs c t.
Proof.
  induction s as [|a s IH]; [done|].
  change (String a s ++ t) with (String a (s ++ t)). cbn [occurs].
  now rewrite IH, orb_assoc.
Qed.

Lemma occurs_allChars (p : ascii -> bool) c s :
  p c = false -> allChars p s = true -> occurs c s = false.
Proof.
  intros Hc. induction s as [|a s IH]; [done|]. cbn [allChars occurs].
  intros Hall. apply andb_prop in Hall as [Ha Hall]. rewrite (IH Hall), orb_false_r.
  destruct (Ascii.eqb a c) eqn:E; [|done]. apply Ascii.eqb_eq in E as ->. congruence.
Qed.

Lemma trimEnd_app s : forall t,
  JS.isEmpty t = false -> JS.trimEnd t = t -> JS.trimEnd (s ++ t) = s ++ t.
Proof.
  induction s as [|c s IH]; intros t Hne Ht; [exact Ht|].
  change (String c s ++ t) with (String c (s ++ t)).
  cbn [JS.trimEnd]. rewrite (IH t Hne Ht).
  destruct s; destruct t; try done; cbn [JS.isEmpty]; now rewrite andb_false_r.
Qed.

Lemma trim_keep c s t :
  JS.isSpace c = false -> JS.isEmpty t = false -> JS.trimEnd t = t ->
  JS.trim (String c (s ++ t)) = String c (s ++ t).
Proof.
  intros Hc Hne Ht. unfold JS.trim. cbn [JS.trimStart]. rewrite Hc.
  change (String c (s ++ t)) with (String c s ++ t). now apply trimEnd_app.
Qed.

End Texts.

Section BaseForms.
Import RegExp.
Variables (config : DotfilesConfig) (platform : Platform).

Lemma template_base expression :
  JS.startsWith (JS.trim expression) "not " = false ->
  JS.startsWith (JS.trim expression) "and " = false ->
  JS.startsWith (JS.trim expression) "or " = false ->
  TemplateParser.evaluateCondition expression config platform
  = let trimmed := JS.trim expression in
    match IgnoreParser.guarded (JS.includes trimmed "eq .chezmoi.os")
            IgnoreParser.re_eq_os trimmed with
    | Some m => String.eqb platform (group 1 m)
    | None =>
    match IgnoreParser.guarded (JS.includes trimmed ".modules.")
            IgnoreParser.re_enabled trimmed with
    | Some m => moduleEnabled config (group 1 m)
    | None =>
    match IgnoreParser.guarded (JS.startsWith trimmed ".modules.")
            IgnoreParser.re_property trimmed with
    | Some m =>
        let module := modules (data config) !! group 1 m in
        if isObject module
        then truthyOpt (module ≫= fun v => getProp v (group 2 m))
        else true
    | None => true
    end end end.
Proof.
  intros Hnot Hand Hor. unfold TemplateParser.evaluateCondition.
  cbn [TemplateParser.evaluateWithin]. rewrite Hnot, Hand, Hor. cbn zeta.
  destruct (IgnoreParser.guarded _ IgnoreParser.re_eq_os _); [done|].
  destruct (IgnoreParser.guarded _ IgnoreParser.re_enabled _); [done|].
  destruct (IgnoreParser.guarded _ IgnoreParser.re_property _); [|done].
  now destruct (isObject _).
Qed.





End BaseForms.

Section MoreForms.
Import RegExp.
Variables (config : DotfilesConfig) (platform : Platform).


Lemma exec_eq_os w :
  isName w = true ->
  exists m, exec IgnoreParser.re_eq_os
              ("eq .chezmoi.os " ++ JS.dquote ++ w ++ JS.dquote) = Some m
            /\ group 1 m = w.
Proof.
  intros Hname. apply andb_prop in Hname as [Hne Hall]. apply negb_true_iff in Hne.
  eexists. split.
  - apply exec_at_start. unfold IgnoreParser.re_eq_os, Cat. cbn [fold_right].
    change ("eq .chezmoi.os " ++ JS.dquote ++ w ++ JS.dquote)
      with ("eq" ++ " " ++ ".chezmoi.os" ++ " " ++ String "034" (w ++ JS.dquote)).
    rewrite matcher_Seq, matcher_Lit. cbn beta.
    rewrite matcher_Seq.
    apply (matcher_Plus_greedy CSpace " "); [done..|].
    rewrite matcher_Seq, matcher_Lit. cbn beta.
    rewrite matcher_Seq.
    apply (matcher_Plus_greedy CSpace " "); [done..|].
    rewrite matcher_Seq, matcher_Char, matcher_Seq.
    apply (matcher_Group_Plus_greedy 1 CWord w); [done..|].
    unfold JS.dquote. rewrite matcher_Seq, matcher_Char. reflexivity.
  - reflexivity.
Qed.


Lemma ignore_platform_test w :
  isName w = true ->
  IgnoreParser.evaluateCondition
    ("eq .chezmoi.os " ++ JS.dquote ++ w ++ JS.dquote) config platform
  = String.eqb platform w.
Proof.
  intros Hname. destruct (exec_eq_os w Hname) as (m & Hexec & Hgroup).
  unfold IgnoreParser.evaluateCondition, IgnoreParser.guarded.
  change ("eq .chezmoi.os " ++ JS.dquote ++ w ++ JS.dquote)
    with ("eq .chezmoi.os" ++ " " ++ JS.dquote ++ w ++ JS.dquote) at 1.
  rewrite includes_prefix.
  now rewrite Hexec, Hgroup.
Qed.

Lemma template_platform_test w :
  isName w = true ->
  TemplateParser.evaluateCondition
    ("eq .chezmoi.os " ++ JS.dquote ++ w ++ JS.dquote) config platform
  = String.eqb platform w.
Proof.
  intros Hname. destruct (exec_eq_os w Hname) as (m & Hexec & Hgroup).
  set (e := "eq .chezmoi.os " ++ JS.dquote ++ w ++ JS.dquote) in *.
  assert (Htrim : JS.trim e = e).
  { unfold e. change ("eq .chezmoi.os " ++ JS.dquote ++ w ++ JS.dquote)
      with (String "e" (("q .chezmoi.os " ++ JS.dquote ++ w) ++ JS.dquote)) at 1.
    rewrite trim_keep by done. reflexivity. }
  rewrite template_base; rewrite Htrim; try reflexivity.
  cbn zeta. unfold IgnoreParser.guarded.
  assert (Heq : JS.includes e "eq .chezmoi.os" = true).
  { unfold e. change ("eq .chezmoi.os " ++ JS.dquote ++ w ++ JS.dquote)
      with ("eq .chezmoi.os" ++ " " ++ JS.dquote ++ w ++ JS.dquote).
    apply includes_prefix. }
  now rewrite Heq, Hexec, Hgroup.
Qed.



End MoreForms.

(** X21: For every name [target], both evaluators read the expression
    [eq .chezmoi.os "target"] as the comparison of the platform with
    [target], whatever the configuration is. *)
Theorem platform_test_compares_platform (target : string) (config : DotfilesConfig)
    (platform : Platform) :
  isName target = true ->
  let expression := "eq .chezmoi.os " ++ JS.dquote ++ target ++ JS.dquote in
  IgnoreParser.evaluateCondition expression config platform = String.eqb platform target
  /\ TemplateParser.evaluateCondition expression config platform
     = String.eqb platform target.
Proof.
  intros Hname. split.
  - now apply ignore_platform_test.
  - now apply template_platform_test.
Qed.

Lemma platform_test_compares_platform_witness :
  IgnoreParser.evaluateCondition
    ("eq .chezmoi.os " ++ JS.dquote ++ "darwin" ++ JS.dquote) Examples.shellDisabled "darwin"
  = true
  /\ TemplateParser.evaluateCondition
       ("eq .chezmoi.os " ++ JS.dquote ++ "darwin" ++ JS.dquote) Examples.shellDisabled "darwin"
     = true.
Proof.
  apply (platform_test_compares_platform "darwin" Examples.shellDisabled "darwin").
  vm_compute. reflexivity.
Defined.





(** ** The operands of [and] and [or] *)

Section Operands.
Import RegExp.
Variables (config : DotfilesConfig) (platform : Platform).

Lemma operand_chars a :
  isOperand a = true ->
  JS.isEmpty a = false /\ JS.startsWith a "." = true
  /\ allChars (fun c => negb (JS.isSpace c)) a = true
  /\ allChars (fun c => negb (JS.isSpace c) && negb (Ascii.eqb c "034")) a = true.
Proof.
  intros Hop. apply andb_prop in Hop as [Hdot Hall]. split_and!; try done.
  - now destruct a.
  - clear Hdot. induction a as [|c a IH]; [done|]. cbn [allChars] in *.
    apply andb_prop in Hall as [Hc Hall]. apply andb_prop in Hc as [Hc _].
    now rewrite Hc, IH.
Qed.

Lemma trimEnd_noSpace a :
  allChars (fun c => negb (JS.isSpace c)) a = true -> JS.trimEnd a = a.
Proof.
  induction a as [|c a IH]; [done|]. cbn [allChars JS.trimEnd].
  intros Hall. apply andb_prop in Hall as [Hc Hall]. apply negb_true_iff in Hc.
  now rewrite Hc, (IH Hall).
Qed.

Lemma trim_noSpace a :
  allChars (fun c => negb (JS.isSpace c)) a = true -> JS.trim a = a.
Proof.
  intros Hall. unfold JS.trim. destruct a as [|c a]; [done|].
  pose proof Hall as Hall'. cbn [allChars] in Hall'.
  apply andb_prop in Hall' as [Hc _]. apply negb_true_iff in Hc.
  cbn [JS.trimStart]. rewrite Hc. now apply trimEnd_noSpace.
Qed.

Lemma list_ascii_app s t :
  list_ascii_of_string (s ++ t) = (list_ascii_of_string s ++ list_ascii_of_string t)%list.
Proof.
  induction s as [|c s IH]; [done|].
  change (String c s ++ t) with (String c (s ++ t)). cbn. now rewrite IH.
Qed.

Lemma append_char s c u : (s ++ String c "") ++ u = s ++ String c u.
Proof.
  induction s as [|a s IH]; [done|].
  change ((String a s ++ String c "") ++ u) with (String a ((s ++ String c "") ++ u)).
  now rewrite IH.
Qed.

Lemma splitLoop_run u : forall st,
  allChars (fun c => negb (JS.isSpace c) && negb (Ascii.eqb c "034")) u = true ->
  fold_left TemplateParser.splitStep (list_ascii_of_string u) st
  = {| TemplateParser.parts := TemplateParser.parts st;
       TemplateParser.current := TemplateParser.current st ++ u;
       TemplateParser.inQuotes := TemplateParser.inQuotes st |}.
Proof.
  induction u as [|c u IH]; intros st Hall.
  - cbn. rewrite append_nil_r. now destruct st.
  - cbn [allChars] in Hall. apply andb_prop in Hall as [Hc Hall].
    apply andb_prop in Hc as [Hsp Hq]. apply negb_true_iff in Hsp, Hq.
    cbn [list_ascii_of_string fold_left]. rewrite (IH _ Hall).
    unfold TemplateParser.splitStep. rewrite Hq.
    assert (Hblank : Ascii.eqb c " " = false).
    { destruct (Ascii.eqb c " ") eqn:E; [|done]. apply Ascii.eqb_eq in E as ->. done. }
    rewrite Hblank. cbn [andb TemplateParser.parts TemplateParser.current
                          TemplateParser.inQuotes].
    f_equal. apply append_char.
Qed.

Lemma join_space_cons x y xs :
  JS.join " " (x :: y :: xs) = x ++ " " ++ JS.join " " (y :: xs).
Proof. reflexivity. Qed.

Lemma splitLoop_operands operands : forall acc,
  operands <> [] ->
  forallb isOperand operands = true ->
  let st := fold_left TemplateParser.splitStep
              (list_ascii_of_string (JS.join " " operands))
              {| TemplateParser.parts := acc; TemplateParser.current := "";
                 TemplateParser.inQuotes := false |} in
  exists a before,
    operands = (before ++ [a])%list
    /\ TemplateParser.parts st = (acc ++ before)%list
    /\ TemplateParser.current st = a.
Proof.
  induction operands as [|a operands IH]; intros acc Hne Hall; [done|].
  cbn [forallb] in Hall. apply andb_prop in Hall as [Ha Hall].
  destruct (operand_chars a Ha) as (Hempty & Hdot & Hnosp & Hplain).
  destruct operands as [|b operands].
  - cbn [JS.join]. cbn zeta. rewrite splitLoop_run by exact Hplain.
    exists a, []. cbn [app TemplateParser.parts TemplateParser.current].
    now rewrite app_nil_r.
  - rewrite join_space_cons. cbn zeta.
    rewrite list_ascii_app, fold_left_app, (splitLoop_run a) by exact Hplain.
    cbn [TemplateParser.parts TemplateParser.current TemplateParser.inQuotes].
    change ("" ++ a) with a.
    change (" " ++ JS.join " " (b :: operands)) with (String " " (JS.join " " (b :: operands))).
    cbn [list_ascii_of_string fold_left].
    assert (Hstep : TemplateParser.splitStep
                      {| TemplateParser.parts := acc; TemplateParser.current := a;
                         TemplateParser.inQuotes := false |} " "
                    = {| TemplateParser.parts := (acc ++ [a])%list;
                         TemplateParser.current := "";
                         TemplateParser.inQuotes := false |}).
    { unfold TemplateParser.splitStep.
      cbn [TemplateParser.parts TemplateParser.current TemplateParser.inQuotes].
      rewrite (trim_noSpace a Hnosp), Hempty, Hdot. reflexivity. }
    rewrite Hstep.
    destruct (IH (acc ++ [a])%list) as (l & before & Heq & Hparts & Hcur);
      [discriminate|exact Hall|].
    cbn zeta in Hparts, Hcur.
    exists l, (a :: before). split_and!.
    + cbn [app]. now f_equal.
    + rewrite Hparts, <- app_assoc. reflexivity.
    + exact Hcur.
Qed.

Lemma splitExpression_operands operands :
  operands <> [] ->
  forallb isOperand operands = true ->
  TemplateParser.splitExpression (JS.join " " operands) = operands.
Proof.
  intros Hne Hall. unfold TemplateParser.splitExpression, TemplateParser.splitLoop.
  destruct (splitLoop_operands operands [] Hne Hall) as (a & before & Heq & Hparts & Hcur).
  cbn zeta in Hparts, Hcur. rewrite Hparts, Hcur. cbn [app].
  assert (Ha : isOperand a = true).
  { rewrite forallb_forall in Hall. apply Hall. rewrite Heq. apply in_or_app. right. now left. }
  destruct (operand_chars a Ha) as (Hempty & _ & Hnosp & _).
  rewrite (trim_noSpace a Hnosp), Hempty. cbn [negb].
  rewrite <- Heq. now destruct operands.
Qed.

Lemma trimEnd_join operands :
  operands <> [] ->
  forallb isOperand operands = true ->
  JS.trimEnd (JS.join " " operands) = JS.join " " operands
  /\ JS.isEmpty (JS.join " " operands) = false
  /\ JS.startsWith (JS.join " " operands) "." = true.
Proof.
  induction operands as [|a operands IH]; intros Hne Hall; [done|].
  cbn [forallb] in Hall. apply andb_prop in Hall as [Ha Hall].
  destruct (operand_chars a Ha) as (Hempty & Hdot & Hnosp & _).
  destruct operands as [|b operands].
  - cbn [JS.join]. split_and!; [now apply trimEnd_noSpace|done..].
  - rewrite join_space_cons.
    destruct IH as (Htrim & Hne' & _); [done|done|].
    split_and!.
    + apply trimEnd_app; [done|].
      change (" " ++ JS.join " " (b :: operands))
        with (String " " (JS.join " " (b :: operands))).
      cbn [JS.trimEnd]. rewrite Htrim, Hne'. now rewrite andb_false_r.
    + now destruct a.
    + destruct a as [|c a]; [done|].
      change (String c a ++ " " ++ JS.join " " (b :: operands))
        with (String c (a ++ " " ++ JS.join " " (b :: operands))).
      unfold JS.startsWith in *. rewrite prefix_cons in *.
      apply andb_prop in Hdot as [-> _]. now rewrite prefix_nil.
Qed.

Lemma trim_join operands :
  operands <> [] ->
  forallb isOperand operands = true ->
  JS.trim (JS.join " " operands) = JS.join " " operands.
Proof.
  intros Hne Hall. destruct (trimEnd_join operands Hne Hall) as (Htrim & Hempty & Hdot).
  unfold JS.trim. destruct (JS.join " " operands) as [|c s] eqn:E; [done|].
  unfold JS.startsWith in Hdot. rewrite prefix_cons in Hdot.
  apply andb_prop in Hdot as [Hc _]. apply Ascii.eqb_eq in Hc as <-.
  cbn [JS.trimStart]. change (JS.isSpace ".") with false. cbn iota. exact Htrim.
Qed.

Lemma every_forallb (f : string -> option bool) (g : string -> bool) parts :
  Forall (fun part => f part = Some (g part)) parts ->
  TemplateParser.every f parts = Some (forallb g parts).
Proof.
  induction 1 as [|part parts Hpart _ IH]; [done|].
  cbn [TemplateParser.every forallb]. rewrite Hpart.
  destruct (g part); [exact IH|done].
Qed.

Lemma some_existsb (f : string -> option bool) (g : string -> bool) parts :
  Forall (fun part => f part = Some (g part)) parts ->
  TemplateParser.some f parts = Some (existsb g parts).
Proof.
  induction 1 as [|part parts Hpart _ IH]; [done|].
  cbn [TemplateParser.some existsb]. rewrite Hpart.
  destruct (g part); [done|exact IH].
Qed.

Lemma operands_within operands n :
  operands <> [] ->
  forallb isOperand operands = true ->
  String.length (JS.join " " operands) < n ->
  Forall (fun part =>
            TemplateParser.evaluateWithin n part config platform
            = Some (TemplateParser.evaluateCondition part config platform))
    operands.
Proof.
  intros Hne Hall Hlen.
  pose proof (splitExpression_length (JS.join " " operands)) as Hparts.
  rewrite splitExpression_operands in Hparts by done.
  eapply Forall_impl; [exact Hparts|]. intros part Hpart. cbn beta in Hpart.
  apply evaluateWithin_evaluateCondition. lia.
Qed.

Lemma template_and expression :
  JS.trim expression = expression ->
  JS.startsWith expression "not " = false ->
  JS.startsWith expression "and " = true ->
  TemplateParser.evaluateWithin (S (String.length expression)) expression config platform
  = TemplateParser.every
      (fun part =>
         TemplateParser.evaluateWithin (String.length expression) part config platform)
      (TemplateParser.splitExpression (JS.trim (JS.substringFrom 4 expression))).
Proof.
  intros Htrim Hnot Hand. rewrite evaluateWithin_S. cbn zeta.
  now rewrite Htrim, Hnot, Hand.
Qed.

Lemma template_or expression :
  JS.trim expression = expression ->
  JS.startsWith expression "not " = false ->
  JS.startsWith expression "and " = false ->
  JS.startsWith expression "or " = true ->
  TemplateParser.evaluateWithin (S (String.length expression)) expression config platform
  = TemplateParser.some
      (fun part =>
         TemplateParser.evaluateWithin (String.length expression) part config platform)
      (TemplateParser.splitExpression (JS.trim (JS.substringFrom 3 expression))).
Proof.
  intros Htrim Hnot Hand Hor. rewrite evaluateWithin_S. cbn zeta.
  now rewrite Htrim, Hnot, Hand, Hor.
Qed.

End Operands.

(** X24: For operands that begin with a dot and hold neither white space nor
    a double quote (such as module tests), separated by single
    spaces: [TemplateParser.splitExpression] returns exactly the
    operands, [and] is true when every operand is, and [or] when some
    operand is. *)
Theorem and_or_over_operands (operands : list string) (config : DotfilesConfig)
    (platform : Platform) :
  operands <> [] ->
  forallb isOperand operands = true ->
  TemplateParser.splitExpression (JS.join " " operands) = operands
  /\ TemplateParser.evaluateCondition ("and " ++ JS.join " " operands) config platform
     = forallb (fun part => TemplateParser.evaluateCondition part config platform) operands
  /\ TemplateParser.evaluateCondition ("or " ++ JS.join " " operands) config platform
     = existsb (fun part => TemplateParser.evaluateCondition part config platform) operands.
Proof.
  intros Hne Hall.
  destruct (trimEnd_join operands Hne Hall) as (Htrim & Hempty & _).
  pose proof (trim_join operands Hne Hall) as Htrim'.
  split_and!.
  - now apply splitExpression_operands.
  - unfold TemplateParser.evaluateCondition. rewrite template_and.
    + change (JS.substringFrom 4 ("and " ++ JS.join " " operands))
        with (JS.join " " operands).
      rewrite Htrim', splitExpression_operands by done.
      rewrite (every_forallb _
                 (fun part => TemplateParser.evaluateCondition part config platform));
        [done|].
      apply operands_within; try done. rewrite append_length. cbn. lia.
    + change ("and " ++ JS.join " " operands)
        with (String "a" ("nd " ++ JS.join " " operands)).
      now apply trim_keep.
    + reflexivity.
    + apply prefix_app.
  - unfold TemplateParser.evaluateCondition. rewrite template_or.
    + change (JS.substringFrom 3 ("or " ++ JS.join " " operands))
        with (JS.join " " operands).
      rewrite Htrim', splitExpression_operands by done.
      rewrite (some_existsb _
                 (fun part => TemplateParser.evaluateCondition part config platform));
        [done|].
      apply operands_within; try done. rewrite append_length. cbn. lia.
    + change ("or " ++ JS.join " " operands)
        with (String "o" ("r " ++ JS.join " " operands)).
      now apply trim_keep.
    + reflexivity.
    + reflexivity.
    + apply prefix_app.
Qed.

Lemma and_or_over_operands_witness :
  TemplateParser.evaluateCondition "and .modules.shell.enabled .modules.git.enabled"
    Examples.gitDisabled "linux"
  = forallb (fun part => TemplateParser.evaluateCondition part Examples.gitDisabled "linux")
      [".modules.shell.enabled"; ".modules.git.enabled"].
Proof.
  apply (and_or_over_operands [".modules.shell.enabled"; ".modules.git.enabled"]
           Examples.gitDisabled "linux"); [discriminate|vm_compute; reflexivity].
Defined.

(** ** The condition of an [if] line *)

Section Extract.
Import RegExp.

Lemma matcher_Alt_l r1 r2 x k z :
  matcher r1 x k = Some z -> matcher (Alt r1 r2) x k = Some z.
Proof. intros Hm. cbn [matcher]. now rewrite Hm. Qed.

Lemma star_lazy_class cl w : forall fuel i t caps k z,
  allChars (inClass cl) w = true ->
  String.length w <= fuel ->
  (forall u v, w = u ++ v -> JS.isEmpty v = false ->
     k (state (i + String.length u) (v ++ t) caps) = None) ->
  k (state (i + String.length w) t caps) = Some z ->
  repeatMatcher (matcher (Class cl)) false k fuel (state i (w ++ t) caps) = Some z.
Proof.
  induction w as [|a w IH]; intros fuel i t caps k z Hall Hfuel Hnone Hk.
  - cbn [String.length] in Hk. rewrite Nat.add_0_r in Hk.
    change ("" ++ t) with t.
    destruct fuel as [|fuel]; [exact Hk|].
    now rewrite repeatMatcher_lazy_S, Hk.
  - cbn [allChars] in Hall. apply andb_prop in Hall as [Ha Hall].
    cbn [String.length] in Hfuel, Hk.
    destruct fuel as [|fuel]; [lia|].
    rewrite repeatMatcher_lazy_S.
    pose proof (Hnone "" (String a w) eq_refl eq_refl) as H0.
    cbn [String.length] in H0. rewrite Nat.add_0_r in H0. rewrite H0.
    change (String a w ++ t) with (String a (w ++ t)).
    rewrite matcher_Class_in by done.
    cbn [rest state String.length].
    rewrite (proj2 (Nat.ltb_lt _ _)) by lia.
    apply IH; try done; [lia| |].
    + intros u v -> Hv.
      specialize (Hnone (String a u) v eq_refl Hv). cbn [String.length] in Hnone.
      now rewrite Nat.add_succ_l, <- Nat.add_succ_r.
    + now rewrite Nat.add_succ_l, <- Nat.add_succ_r.
Qed.

Lemma trimEnd_cons c v :
  JS.trimEnd (String c v) = String c v ->
  JS.trimEnd v = v /\ (JS.isSpace c = true -> JS.isEmpty v = false).
Proof.
  cbn [JS.trimEnd]. destruct (JS.isSpace c && JS.isEmpty (JS.trimEnd v)) eqn:E; [done|].
  intros Heq. injection Heq as Heq. split; [done|].
  intros Hc. rewrite Hc, Heq in E. cbn in E. exact E.
Qed.

Lemma trimEnd_suffix u : forall v,
  JS.trimEnd (u ++ v) = u ++ v -> JS.isEmpty v = false -> JS.trimEnd v = v.
Proof.
  induction u as [|c u IH]; intros v Heq Hv; [exact Heq|].
  change (String c u ++ v) with (String c (u ++ v)) in Heq.
  apply trimEnd_cons in Heq as [Heq _]. now apply IH.
Qed.

(** White space and then the closing braces: no match inside a text
    that holds no closing brace and does not end in white space. *)
Lemma close_fails fuel : forall v i caps,
  JS.isEmpty v = false -> occurs "}" v = false -> JS.trimEnd v = v ->
  repeatMatcher (matcher IgnoreParser.ws) true
    (fun y => matcher (Seq (Lit "}}") Empty) y Some) fuel (state i (v ++ " }}") caps)
  = None.
Proof.
  induction fuel as [|fuel IH]; intros v i caps Hne Hocc Htrim;
    destruct v as [|c v]; try done;
    change (String c v ++ " }}") with (String c (v ++ " }}"));
    cbn [occurs] in Hocc; apply orb_false_iff in Hocc as [Hc Hocc].
  - cbn [repeatMatcher Lit]. rewrite !matcher_Seq. cbn [matcher rest state].
    rewrite Ascii.eqb_sym, Hc. reflexivity.
  - rewrite repeatMatcher_greedy_S.
    assert (Hk : matcher (Seq (Lit "}}") Empty) (state i (String c (v ++ " }}")) caps) Some
                 = None).
    { cbn [Lit]. rewrite !matcher_Seq. cbn [matcher rest state].
      rewrite Ascii.eqb_sym, Hc. reflexivity. }
    rewrite Hk. apply trimEnd_cons in Htrim as [Htrim Hsp].
    unfold IgnoreParser.ws. cbn [matcher rest state inClass].
    destruct (JS.isSpace c) eqn:Hspace; [|done].
    change (advance (state i (String c (v ++ " }}")) caps) (v ++ " }}"))
      with (state (S i) (v ++ " }}") caps).
    cbn [rest state String.length]. rewrite (proj2 (Nat.ltb_lt _ _)) by lia.
    fold IgnoreParser.ws.
    rewrite IH; [done|now apply Hsp|done..].
Qed.

Lemma isCondition_parts condition :
  isCondition condition = true ->
  JS.isEmpty condition = false
  /\ allChars (inClass CDot) condition = true
  /\ occurs "}" condition = false
  /\ JS.trimStart condition = condition
  /\ JS.trimEnd condition = condition.
Proof.
  unfold isCondition. intros H.
  apply andb_prop in H as [H Hend]. apply andb_prop in H as [H Hstart].
  apply andb_prop in H as [H Hocc]. apply andb_prop in H as [Hne Hall].
  apply negb_true_iff in Hne, Hocc. apply String.eqb_eq in Hstart, Hend.
  done.
Qed.

Lemma trimStart_stops condition t :
  JS.isEmpty condition = false -> JS.trimStart condition = condition ->
  stops CSpace (condition ++ t) = true.
Proof.
  destruct condition as [|c s]; [done|]. intros _ Hstart.
  change (String c s ++ t) with (String c (s ++ t)). cbn [stops inClass].
  cbn [JS.trimStart] in Hstart. destruct (JS.isSpace c); [|done].
  pose proof (trimStart_length s) as Hlen. rewrite Hstart in Hlen. cbn in Hlen. lia.
Qed.

Lemma exec_if condition :
  isCondition condition = true ->
  exists m, exec IgnoreParser.re_if ("{{- if " ++ condition ++ " }}") = Some m
            /\ group 1 m = condition.
Proof.
  intros Hcond.
  destruct (isCondition_parts _ Hcond) as (Hne & Hall & Hocc & Hstart & Hend).
  pose proof (trimStart_stops condition " }}" Hne Hstart) as Hstops.
  destruct condition as [|c s]; [done|].
  cbn [allChars] in Hall. apply andb_prop in Hall as [Hc1 Hs].
  eexists. split.
  - apply exec_at_start. unfold IgnoreParser.re_if, Cat, Opt. cbn [fold_right].
    change ("{{- if " ++ String c s ++ " }}")
      with ("{{" ++ String "-" (" " ++ "if" ++ " " ++ String c s ++ " }}")).
    rewrite matcher_Seq, matcher_Lit. cbn beta.
    rewrite matcher_Seq. apply matcher_Alt_l. rewrite matcher_Char.
    rewrite matcher_Seq.
    apply (matcher_Star_greedy CSpace " "); [done..|].
    rewrite matcher_Seq, matcher_Lit. cbn beta.
    rewrite matcher_Seq.
    apply (matcher_Plus_greedy CSpace " "); [done|done|exact Hstops|].
    rewrite matcher_Seq. cbn [matcher]. unfold Plus. rewrite matcher_Seq.
    change (String c s ++ " }}") with (String c (s ++ " }}")).
    rewrite matcher_Class_in by done.
    cbn [matcher]. cbn [rest state].
    eapply (star_lazy_class CDot s); [done|rewrite append_length; lia| |].
    + intros u v Hs' Hv. cbn beta. unfold capture. cbn [rest state endIndex captures].
      apply (close_fails _ v); [done| |].
      * rewrite Hs' in Hocc. change (String c (u ++ v)) with (String c u ++ v) in Hocc.
        rewrite occurs_app in Hocc. now apply orb_false_iff in Hocc as [_ ?].
      * apply (trimEnd_suffix (String c u)); [|done].
        change (String c u ++ v) with (String c (u ++ v)). now rewrite <- Hs'.
    + cbn beta. unfold capture. cbn [rest state endIndex captures].
      apply (matcher_Star_greedy CSpace " "); [done..|].
      rewrite matcher_Lit_end. reflexivity.
  - unfold group, state. cbn [captures lookupGroup Nat.eqb].
    change (String c (s ++ " }}")) with (String c s ++ " }}").
    rewrite append_length.
    replace (String.length (String c s) + String.length " }}" - String.length " }}")
      with (String.length (String c s)) by lia.
    apply substring_prefix.
Qed.

Lemma extractCondition_if condition :
  isCondition condition = true ->
  IgnoreParser.extractCondition ("{{- if " ++ condition ++ " }}") = condition.
Proof.
  intros Hcond. destruct (exec_if condition Hcond) as (m & Hexec & Hgroup).
  unfold IgnoreParser.extractCondition. rewrite Hexec, Hgroup.
  destruct (isCondition_parts _ Hcond) as (_ & _ & _ & Hstart & Hend).
  unfold JS.trim. now rewrite Hstart.
Qed.

End Extract.

(** ** Blocks of an ignore file *)

Section Blocks.
Import RegExp.
Variables (config : DotfilesConfig) (platform : Platform).

Lemma split_app_sep sep x r :
  occurs sep x = false -> JS.split sep (x ++ String sep r) = x :: JS.split sep r.
Proof.
  induction x as [|c x IH]; cbn [occurs]; intros Hx.
  - change ("" ++ String sep r) with (String sep r). cbn [JS.split].
    now rewrite Ascii.eqb_refl.
  - apply orb_false_iff in Hx as [Hc Hx].
    change (String c x ++ String sep r) with (String c (x ++ String sep r)).
    cbn [JS.split]. now rewrite Hc, (IH Hx).
Qed.

Lemma split_no_sep sep x : occurs sep x = false -> JS.split sep x = [x].
Proof.
  induction x as [|c x IH]; cbn [occurs]; intros Hx; [done|].
  apply orb_false_iff in Hx as [Hc Hx]. cbn [JS.split]. now rewrite Hc, (IH Hx).
Qed.

Lemma if_line_trim condition :
  JS.trim ("{{- if " ++ condition ++ " }}") = "{{- if " ++ condition ++ " }}".
Proof.
  change ("{{- if " ++ condition ++ " }}")
    with (String "{" (("{- if " ++ condition) ++ " }}")).
  now apply trim_keep.
Qed.

Lemma if_line_one_line condition :
  isCondition condition = true ->
  occurs "010" ("{{- if " ++ condition ++ " }}") = false.
Proof.
  intros Hcond. destruct (isCondition_parts _ Hcond) as (_ & Hall & _).
  rewrite !occurs_app.
  now rewrite (occurs_allChars (inClass CDot) "010" condition).
Qed.

Lemma handleConditional_if condition stack :
  isCondition condition = true ->
  IgnoreParser.handleConditional ("{{- if " ++ condition ++ " }}") stack config platform
  = (IgnoreParser.top stack
     && IgnoreParser.evaluateCondition condition config platform) :: stack.
Proof.
  intros Hcond. unfold IgnoreParser.handleConditional, IgnoreParser.classify.
  rewrite if_line_trim.
  assert (Hif : JS.includes ("{{- if " ++ condition ++ " }}") "{{- if " = true)
    by apply includes_prefix.
  rewrite Hif. now rewrite extractCondition_if.
Qed.

Lemma step_stack st line :
  IgnoreParser.conditionStack (IgnoreParser.step config platform st line)
  = if negb (JS.isEmpty (JS.trim line)) && JS.startsWith (JS.trim line) "{{-"
    then IgnoreParser.handleConditional (JS.trim line) (IgnoreParser.conditionStack st)
           config platform
    else IgnoreParser.conditionStack st.
Proof.
  unfold IgnoreParser.step.
  destruct (JS.isEmpty (JS.trim line)); [done|].
  destruct (JS.startsWith (JS.trim line) "{{-"); [done|].
  destruct (JS.startsWith (JS.trim line) "#"); [done|].
  now destruct (_ && _).
Qed.

Lemma step_marker st line :
  JS.trim line = line -> JS.startsWith line "{{-" = true ->
  IgnoreParser.step config platform st line
  = {| IgnoreParser.conditionStack :=
         IgnoreParser.handleConditional line (IgnoreParser.conditionStack st)
           config platform;
       IgnoreParser.patterns := IgnoreParser.patterns st |}.
Proof.
  intros Htrim Hstart. unfold IgnoreParser.step. rewrite Htrim, Hstart.
  destruct line; [done|]. reflexivity.
Qed.

Lemma step_pattern st pattern :
  isPatternText pattern = true ->
  IgnoreParser.step config platform st pattern
  = {| IgnoreParser.conditionStack := IgnoreParser.conditionStack st;
       IgnoreParser.patterns :=
         (IgnoreParser.patterns st
          ++ if IgnoreParser.top (IgnoreParser.conditionStack st) then [pattern] else [])%list |}.
Proof.
  intros Hpat. apply andb_prop in Hpat as [Hpat _]. apply andb_prop in Hpat as [Hline Htrim].
  apply String.eqb_eq in Htrim.
  unfold patternLine in Hline. apply andb_prop in Hline as [Hline Hhash].
  apply andb_prop in Hline as [Hne Hmark]. apply negb_true_iff in Hne, Hmark, Hhash.
  unfold IgnoreParser.step. rewrite Htrim, Hne, Hmark, Hhash. cbn [negb].
  rewrite andb_true_r. destruct (IgnoreParser.top _); [done|].
  rewrite app_nil_r. now destruct st.
Qed.

End Blocks.

(** X25: For a line [{{- if condition }}], [IgnoreParser.extractCondition]
    returns the condition, and [IgnoreParser.handleConditional]
    pushes the conjunction of the top of the stack and the value of
    the condition. *)
Theorem if_line_pushes_its_condition (condition : string) (stack : list bool)
    (config : DotfilesConfig) (platform : Platform) :
  isCondition condition = true ->
  let line := "{{- if " ++ condition ++ " }}" in
  IgnoreParser.extractCondition line = condition
  /\ IgnoreParser.handleConditional line stack config platform
     = (IgnoreParser.top stack
        && IgnoreParser.evaluateCondition condition config platform) :: stack.
Proof.
  intros Hcond. split.
  - now apply extractCondition_if.
  - now apply handleConditional_if.
Qed.

Lemma if_line_pushes_its_condition_witness :
  IgnoreParser.extractCondition "{{- if not .modules.shell.enabled }}"
  = "not .modules.shell.enabled"
  /\ IgnoreParser.handleConditional "{{- if not .modules.shell.enabled }}" [true]
       Examples.shellDisabled "linux"
     = [IgnoreParser.top [true]
        && IgnoreParser.evaluateCondition "not .modules.shell.enabled"
             Examples.shellDisabled "linux"; true].
Proof.
  apply (if_line_pushes_its_condition "not .modules.shell.enabled" [true]
           Examples.shellDisabled "linux").
  vm_compute. reflexivity.
Defined.

(** X26: For every condition and every two patterns, the ignore text made of
    an [if] line, the first pattern, an [else] line, the second
    pattern and an [end] line gives the first pattern alone when the
    condition holds and the second alone when it does not. *)
Theorem if_else_block_keeps_one_branch (condition thenPattern elsePattern : string)
    (config : DotfilesConfig) (platform : Platform) :
  isCondition condition = true ->
  isPatternText thenPattern = true ->
  isPatternText elsePattern = true ->
  IgnoreParser.parse
    (("{{- if " ++ condition ++ " }}") ++ JS.newline
     ++ thenPattern ++ JS.newline
     ++ "{{- else }}" ++ JS.newline
     ++ elsePattern ++ JS.newline
     ++ "{{- end }}")
    config platform
  = if IgnoreParser.evaluateCondition condition config platform
    then [thenPattern] else [elsePattern].
Proof.
  intros Hcond Hthen Helse.
  assert (Hnl : forall p, isPatternText p = true -> occurs "010" p = false).
  { intros p Hp. apply andb_prop in Hp as [_ Hp]. now apply negb_true_iff in Hp. }
  unfold IgnoreParser.parse, IgnoreParser.run.
  change (("{{- if " ++ condition ++ " }}") ++ JS.newline ++ thenPattern ++ JS.newline
          ++ "{{- else }}" ++ JS.newline ++ elsePattern ++ JS.newline ++ "{{- end }}")
    with (("{{- if " ++ condition ++ " }}")
          ++ String "010" (thenPattern
          ++ String "010" ("{{- else }}"
          ++ String "010" (elsePattern ++ String "010" "{{- end }}")))).
  rewrite (split_app_sep "010" ("{{- if " ++ condition ++ " }}"))
    by now apply if_line_one_line.
  rewrite (split_app_sep "010" thenPattern) by now apply Hnl.
  rewrite (split_app_sep "010" "{{- else }}") by reflexivity.
  rewrite (split_app_sep "010" elsePattern) by now apply Hnl.
  rewrite (split_no_sep "010" "{{- end }}") by reflexivity.
  cbn [fold_left].
  rewrite (step_marker _ _ _ ("{{- if " ++ condition ++ " }}"));
    [|apply if_line_trim|reflexivity].
  rewrite handleConditional_if by done.
  rewrite (step_pattern _ _ _ thenPattern) by exact Hthen.
  rewrite (step_marker _ _ _ "{{- else }}") by reflexivity.
  rewrite (step_pattern _ _ _ elsePattern) by exact Helse.
  rewrite (step_marker _ _ _ "{{- end }}") by reflexivity.
  cbn [IgnoreParser.patterns IgnoreParser.conditionStack IgnoreParser.initial
       IgnoreParser.top hd andb app].
  change (IgnoreParser.handleConditional "{{- else }}" ?stack config platform)
    with (match stack with
          | currentState :: (parentState :: _) as below =>
              (parentState && negb currentState) :: below
          | _ => stack
          end).
  cbn [IgnoreParser.top hd andb].
  now destruct (IgnoreParser.evaluateCondition condition config platform).
Qed.

Lemma if_else_block_keeps_one_branch_witness :
  IgnoreParser.parse
    (("{{- if " ++ ".modules.shell.enabled" ++ " }}") ++ JS.newline
     ++ ".config/legacy-shell" ++ JS.newline
     ++ "{{- else }}" ++ JS.newline
     ++ ".bashrc" ++ JS.newline
     ++ "{{- end }}")
    Examples.shellDisabled "linux"
  = if IgnoreParser.evaluateCondition ".modules.shell.enabled" Examples.shellDisabled "linux"
    then [".config/legacy-shell"] else [".bashrc"].
Proof.
  apply (if_else_block_keeps_one_branch ".modules.shell.enabled" ".config/legacy-shell"
           ".bashrc" Examples.shellDisabled "linux"); vm_compute; reflexivity.
Defined.

(** ** Templates with an open block *)

Section Unclosed.
Import RegExp.
Variables (config : DotfilesConfig) (platform : Platform).

Lemma matcher_brace_first p r x k :
  match rest x with String a _ => Ascii.eqb "{" a = false | "" => True end ->
  matcher (Seq (Lit (String "{" p)) r) x k = None.
Proof.
  intros Hx. cbn [Lit]. rewrite !matcher_Seq. cbn [matcher].
  destruct (rest x) as [|a s]; [done|]. now rewrite Hx.
Qed.

Lemma search_brace_first p r s : forall i,
  occurs "{" s = false -> search (Seq (Lit (String "{" p)) r) i s = None.
Proof.
  induction s as [|a s IH]; intros i Hocc; rewrite search_eq.
  - now rewrite matcher_brace_first.
  - cbn [occurs] in Hocc. apply orb_false_iff in Hocc as [Ha Hocc].
    rewrite matcher_brace_first
      by (unfold start; cbn [rest]; rewrite Ascii.eqb_sym; exact Ha).
    now apply IH.
Qed.

Lemma test_brace_first p r s :
  occurs "{" s = false -> test (Seq (Lit (String "{" p)) r) s = false.
Proof. intros Hocc. unfold test, exec. now rewrite search_brace_first. Qed.

Lemma occurs_trimStart c s : occurs c s = false -> occurs c (JS.trimStart s) = false.
Proof.
  induction s as [|a s IH]; [done|]. intros Hocc. cbn [JS.trimStart].
  destruct (JS.isSpace a); [|done].
  cbn [occurs] in Hocc. apply orb_false_iff in Hocc as [_ Hocc]. now apply IH.
Qed.

Lemma occurs_trimEnd c s : occurs c s = false -> occurs c (JS.trimEnd s) = false.
Proof.
  induction s as [|a s IH]; [done|]. intros Hocc. cbn [JS.trimEnd].
  cbn [occurs] in Hocc. apply orb_false_iff in Hocc as [Ha Hocc].
  destruct (JS.isSpace a && JS.isEmpty (JS.trimEnd s)); [done|].
  cbn [occurs]. now rewrite Ha, IH.
Qed.

Lemma occurs_split c sep s :
  occurs c s = false -> Forall (fun line => occurs c line = false) (JS.split sep s).
Proof.
  induction s as [|a s IH]; intros Hocc; [now repeat constructor|].
  cbn [occurs] in Hocc. apply orb_false_iff in Hocc as [Ha Hocc].
  specialize (IH Hocc). cbn [JS.split].
  destruct (Ascii.eqb a sep); [now constructor|].
  destruct (JS.split sep s) as [|h t]; [now repeat constructor; cbn; rewrite Ha|].
  inversion IH as [|? ? Hh Ht]; subst. constructor; [|done].
  cbn [occurs]. now rewrite Ha, Hh.
Qed.

Lemma includeStep_plain stack line :
  occurs "{" line = false ->
  TemplateParser.includeStep config platform stack line = stack.
Proof.
  intros Hocc. unfold TemplateParser.includeStep.
  assert (Htrim : occurs "{" (JS.trim line) = false)
    by now apply occurs_trimEnd, occurs_trimStart.
  unfold TemplateParser.re_if_head, TemplateParser.re_else, TemplateParser.re_end, Cat.
  cbn [fold_right]. now rewrite !test_brace_first.
Qed.

Lemma includeLoop_plain lines : forall stack,
  Forall (fun line => occurs "{" line = false) lines ->
  fold_left (TemplateParser.includeStep config platform) lines stack = stack.
Proof.
  induction lines as [|line lines IH]; intros stack Hall; [done|].
  inversion Hall as [|? ? Hline Hlines]; subst.
  cbn [fold_left]. rewrite includeStep_plain by done. now apply IH.
Qed.

Lemma test_if_head condition :
  isCondition condition = true ->
  test TemplateParser.re_if_head ("{{- if " ++ condition ++ " }}") = true.
Proof.
  intros Hcond.
  destruct (isCondition_parts _ Hcond) as (Hne & _ & _ & Hstart & _).
  pose proof (trimStart_stops condition " }}" Hne Hstart) as Hstops.
  assert (Hexec : exists m, exec TemplateParser.re_if_head
                              ("{{- if " ++ condition ++ " }}") = Some m).
  { eexists. apply exec_at_start.
    unfold TemplateParser.re_if_head, Cat, Opt. cbn [fold_right].
    change ("{{- if " ++ condition ++ " }}")
      with ("{{" ++ String "-" (" " ++ "if" ++ " " ++ condition ++ " }}")).
    rewrite matcher_Seq, matcher_Lit. cbn beta.
    rewrite matcher_Seq. apply matcher_Alt_l. rewrite matcher_Char.
    rewrite matcher_Seq.
    apply (matcher_Star_greedy CSpace " "); [done..|].
    rewrite matcher_Seq, matcher_Lit. cbn beta.
    rewrite matcher_Seq.
    apply (matcher_Plus_greedy CSpace " "); [done|done|exact Hstops|].
    reflexivity. }
  destruct Hexec as [m Hexec]. unfold test. now rewrite Hexec.
Qed.

Lemma includeStep_if condition stack :
  isCondition condition = true ->
  TemplateParser.includeStep config platform stack ("{{- if " ++ condition ++ " }}")
  = (IgnoreParser.top stack
     && TemplateParser.evaluateCondition condition config platform) :: stack.
Proof.
  intros Hcond. unfold TemplateParser.includeStep.
  rewrite if_line_trim, test_if_head by done.
  destruct (exec_if condition Hcond) as (m & -> & ->). reflexivity.
Qed.

End Unclosed.

(** X27: A template that opens an [if] block on its first line and holds no
    brace after it is included exactly when the condition holds; a
    template with no brace at all is always included. *)
Theorem unclosed_block_decides_inclusion (condition body : string)
    (config : DotfilesConfig) (platform : Platform) :
  isCondition condition = true ->
  occurs "{" body = false ->
  TemplateParser.shouldIncludeTemplate
    (("{{- if " ++ condition ++ " }}") ++ JS.newline ++ body) config platform
  = TemplateParser.evaluateCondition condition config platform
  /\ TemplateParser.shouldIncludeTemplate body config platform = true.
Proof.
  intros Hcond Hbody.
  unfold TemplateParser.shouldIncludeTemplate, TemplateParser.includeStack.
  split.
  - change (("{{- if " ++ condition ++ " }}") ++ JS.newline ++ body)
      with (("{{- if " ++ condition ++ " }}") ++ String "010" body).
    rewrite split_app_sep by now apply if_line_one_line.
    cbn [fold_left]. rewrite includeStep_if by done.
    rewrite includeLoop_plain by now apply occurs_split.
    cbn. now rewrite !andb_true_r.
  - rewrite includeLoop_plain by now apply occurs_split. reflexivity.
Qed.

Lemma unclosed_block_decides_inclusion_witness :
  TemplateParser.shouldIncludeTemplate
    (("{{- if " ++ ".modules.shell.enabled" ++ " }}") ++ JS.newline ++ "export EDITOR=vim")
    Examples.shellDisabled "linux"
  = TemplateParser.evaluateCondition ".modules.shell.enabled" Examples.shellDisabled "linux"
  /\ TemplateParser.shouldIncludeTemplate "export EDITOR=vim" Examples.shellDisabled "linux"
     = true.
Proof.
  apply (unclosed_block_decides_inclusion ".modules.shell.enabled" "export EDITOR=vim"
           Examples.shellDisabled "linux"); vm_compute; reflexivity.
Defined.

(** ** Patterns without wildcards *)

Section Literal.
Import RegExp.

Lemma replaceAll_absent needle by_ s :
  JS.isEmpty needle = false ->
  JS.includes s needle = false -> JS.replaceAll needle by_ s = s.
Proof.
  intros Hne. unfold JS.replaceAll. induction s as [|c s IH]; [done|].
  rewrite includes_cons. intros Hinc. apply orb_false_iff in Hinc as [Hpre Hinc].
  cbn [JS.replaceAllFrom]. rewrite Hpre. now rewrite (IH Hinc).
Qed.

Lemma literal_no_wildcard c pattern :
  literalChar c = false -> allChars literalChar pattern = true -> occurs c pattern = false.
Proof. apply occurs_allChars. Qed.

Lemma replaceAll_dot_cons c s :
  JS.replaceAll "." "\." (String c s)
  = if Ascii.eqb c "." then String "\" (String "." (JS.replaceAll "." "\." s))
    else String c (JS.replaceAll "." "\." s).
Proof.
  unfold JS.replaceAll. cbn [JS.replaceAllFrom].
  rewrite prefix_cons, prefix_nil, andb_true_r, Ascii.eqb_sym.
  now destruct (Ascii.eqb c ".").
Qed.

Lemma parse_plain c src :
  isSyntaxChar c = false ->
  RegExp.parse (String c src)
  = match src with
    | String "*" src' => Seq (Star true (Char c)) <$> RegExp.parse src'
    | _ => Seq (Char c) <$> RegExp.parse src
    end.
Proof.
  destruct c as [[] [] [] [] [] [] [] []]; intros Hc; try discriminate Hc; reflexivity.
Qed.

Lemma parse_escaped_dot src :
  RegExp.parse (String "\" (String "." src))
  = match src with
    | String "*" src' => Seq (Star true (Char ".")) <$> RegExp.parse src'
    | _ => Seq (Char ".") <$> RegExp.parse src
    end.
Proof. reflexivity. Qed.

Lemma match_noStar {A} src (a : string -> A) (b : A) :
  noStar src = true ->
  match src with String "*" src' => a src' | _ => b end = b.
Proof.
  destruct src as [|c src]; [done|]. cbn [noStar]. intros Hc. apply negb_true_iff in Hc.
  destruct c as [[] [] [] [] [] [] [] []]; try reflexivity. discriminate Hc.
Qed.

Lemma escaped_noStar pattern tail :
  allChars literalChar pattern = true -> noStar tail = true ->
  noStar (JS.replaceAll "." "\." pattern ++ tail) = true.
Proof.
  intros Hall Htail. destruct pattern as [|c p]; [exact Htail|].
  cbn [allChars] in Hall. apply andb_prop in Hall as [Hc _].
  rewrite replaceAll_dot_cons. destruct (Ascii.eqb c ".") eqn:E; [reflexivity|].
  change (String c ?x ++ tail) with (String c (x ++ tail)). cbn [noStar].
  destruct (Ascii.eqb c "*") eqn:Estar; [|done].
  apply Ascii.eqb_eq in Estar as ->. discriminate Hc.
Qed.

Lemma parse_literal pattern : forall tail,
  allChars literalChar pattern = true -> noStar tail = true ->
  RegExp.parse (JS.replaceAll "." "\." pattern ++ tail)
  = litThen pattern <$> RegExp.parse tail.
Proof.
  induction pattern as [|c p IH]; intros tail Hall Htail.
  - change (JS.replaceAll "." "\." "" ++ tail) with tail. cbn [litThen].
    now destruct (RegExp.parse tail).
  - cbn [allChars] in Hall. apply andb_prop in Hall as [Hc Hall].
    pose proof (escaped_noStar p tail Hall Htail) as Hnext.
    rewrite replaceAll_dot_cons. destruct (Ascii.eqb c ".") eqn:E.
    + apply Ascii.eqb_eq in E as ->.
      change (String "\" (String "." ?x) ++ tail) with (String "\" (String "." (x ++ tail))).
      rewrite parse_escaped_dot, match_noStar by exact Hnext.
      rewrite (IH tail Hall Htail). cbn [litThen]. now destruct (RegExp.parse tail).
    + change (String c ?x ++ tail) with (String c (x ++ tail)).
      unfold literalChar in Hc. rewrite E, orb_false_r in Hc. apply negb_true_iff in Hc.
      rewrite parse_plain, match_noStar by done.
      rewrite (IH tail Hall Htail). cbn [litThen]. now destruct (RegExp.parse tail).
Qed.

Lemma matcher_litThen p : forall r i s caps k,
  matcher (litThen p r) (state i s caps) k
  = if String.prefix p s
    then matcher r (state (i + String.length p) (JS.substringFrom (String.length p) s) caps) k
    else None.
Proof.
  induction p as [|c p IH]; intros r i s caps k.
  - cbn [litThen String.length JS.substringFrom]. now rewrite prefix_nil, Nat.add_0_r.
  - cbn [litThen]. rewrite matcher_Seq. destruct s as [|a s]; [reflexivity|].
    rewrite prefix_cons. cbn [matcher rest state].
    destruct (Ascii.eqb c a) eqn:E; [|reflexivity].
    change (advance (state i (String a s) caps) s) with (state (S i) s caps).
    rewrite IH. cbn [andb String.length JS.substringFrom].
    now rewrite Nat.add_succ_l, <- Nat.add_succ_r.
Qed.

Lemma search_Bol r s : forall i, 0 < i -> search (Seq Bol r) i s = None.
Proof.
  induction s as [|c s IH]; intros i Hi; rewrite search_eq; unfold start;
    cbn [matcher endIndex]; destruct i as [|i]; try lia; cbn [Nat.eqb]; [done|].
  apply IH. lia.
Qed.

Lemma test_Bol r s :
  test (Seq Bol r) s
  = match matcher r (state 0 s []) Some with Some _ => true | None => false end.
Proof.
  unfold test, exec. rewrite search_eq. unfold start. cbn [matcher endIndex Nat.eqb].
  change {| endIndex := 0; rest := s; captures := [] |} with (state 0 s []).
  destruct (matcher r (state 0 s []) Some); [done|].
  destruct s as [|c s]; [done|]. now rewrite search_Bol by lia.
Qed.

Lemma prefix_exact p : forall s,
  String.prefix p s && JS.isEmpty (JS.substringFrom (String.length p) s) = String.eqb s p.
Proof.
  induction p as [|c p IH]; intros s.
  - rewrite prefix_nil. now destruct s.
  - destruct s as [|a s]; [done|]. rewrite prefix_cons.
    cbn [String.length JS.substringFrom String.eqb]. rewrite <- andb_assoc, IH.
    now rewrite Ascii.eqb_sym.
Qed.

Lemma regexPattern_literal pattern :
  literalPattern pattern = true ->
  IgnoreParser.regexPattern pattern = JS.replaceAll "." "\." pattern
  /\ FileMapper.regexPattern pattern = JS.replaceAll "." "\." pattern.
Proof.
  intros Hlit. apply andb_prop in Hlit as [Hall Hds]. apply negb_true_iff in Hds.
  assert (Hstar : occurs "*" pattern = false) by now apply literal_no_wildcard.
  assert (Hq : occurs "?" pattern = false) by now apply literal_no_wildcard.
  unfold IgnoreParser.regexPattern, FileMapper.regexPattern.
  rewrite (replaceAll_absent "**" _ pattern) by (try done; now apply (includes_occurs "*")).
  rewrite (replaceAll_absent "*" _ pattern) by (try done; now apply (includes_occurs "*")).
  rewrite (replaceAll_absent "___DOUBLESTAR___" _ pattern) by done.
  rewrite (replaceAll_absent "?" _ pattern) by (try done; now apply (includes_occurs "?")).
  done.
Qed.

Context `{RegExp.Host}.

Lemma ignore_literal filePath pattern :
  literalPattern pattern = true ->
  IgnoreParser.patternMatches filePath pattern = JS.startsWith filePath pattern.
Proof.
  intros Hlit. destruct (regexPattern_literal pattern Hlit) as [Hre _].
  apply andb_prop in Hlit as [Hall _].
  unfold IgnoreParser.patternMatches, compileAndTest. rewrite Hre.
  change ("^" ++ ?x) with (String "^" x).
  change (RegExp.parse (String "^" ?x)) with (Seq Bol <$> RegExp.parse x).
  rewrite <- (append_nil_r (JS.replaceAll "." "\." pattern)).
  rewrite parse_literal by done. cbn [RegExp.parse fmap option_fmap option_map].
  rewrite test_Bol, matcher_litThen. unfold JS.startsWith.
  now destruct (String.prefix pattern filePath).
Qed.

Lemma mapper_literal path pattern :
  literalPattern pattern = true ->
  FileMapper.patternMatches path pattern = String.eqb path pattern.
Proof.
  intros Hlit. destruct (regexPattern_literal pattern Hlit) as [_ Hre].
  apply andb_prop in Hlit as [Hall _].
  unfold FileMapper.patternMatches, compileAndTest. rewrite Hre.
  change ("^" ++ ?x) with (String "^" x).
  change (RegExp.parse (String "^" ?x)) with (Seq Bol <$> RegExp.parse x).
  rewrite parse_literal by done.
  change (RegExp.parse "$") with (Some (Seq Eol Empty)).
  cbn [fmap option_fmap option_map].
  rewrite test_Bol, matcher_litThen, <- prefix_exact.
  destruct (String.prefix pattern path); [|done].
  cbn [andb matcher rest state]. now destruct (JS.isEmpty _).
Qed.

End Literal.

(** X28: For patterns without wildcards, under every host:
    [IgnoreParser.shouldIgnore] is true exactly when the path begins
    with one of the patterns, and [FileMapper.shouldIgnore] exactly
    when the path is one of the patterns. *)
Theorem literal_patterns_match_by_prefix_or_equality `{RegExp.Host}
    (path : string) (patterns : list string) :
  forallb literalPattern patterns = true ->
  IgnoreParser.shouldIgnore path patterns = existsb (JS.startsWith path) patterns
  /\ FileMapper.shouldIgnore path patterns = existsb (String.eqb path) patterns.
Proof.
  unfold IgnoreParser.shouldIgnore, FileMapper.shouldIgnore.
  induction patterns as [|pattern patterns IH]; [done|].
  cbn [forallb existsb]. intros Hall. apply andb_prop in Hall as [Hlit Hall].
  destruct (IH Hall) as [-> ->].
  now rewrite ignore_literal, mapper_literal.
Qed.

Lemma literal_patterns_match_by_prefix_or_equality_witness :
  IgnoreParser.shouldIgnore (H := Examples.rejectingHost) "README.md.bak" ["README.md"]
  = true
  /\ FileMapper.shouldIgnore (H := Examples.rejectingHost) "README.md.bak" ["README.md"]
     = false.
Proof.
  destruct (literal_patterns_match_by_prefix_or_equality (H := Examples.rejectingHost)
              "README.md.bak" ["README.md"]) as [-> ->];
    [vm_compute; reflexivity|].
  split; vm_compute; reflexivity.
Defined.

(** ** The file tree *)

Section Tree.
Import FileMapper.

Lemma findChild_name part siblings child :
  findChild part siblings = Some child -> node_name child = part.
Proof.
  unfold findChild. intros Hfind. apply find_some in Hfind as [_ Heq].
  now apply String.eqb_eq in Heq.
Qed.

Lemma addPath_name file parts : forall upTo node,
  node_name (addPath file upTo parts node) = node_name node.
Proof.
  destruct parts as [|part rest]; intros upTo node; [done|].
  cbn [addPath]. destruct node as [name path type children fileInfo].
  now destruct (findChild part (default [] children)).
Qed.

Lemma findChild_replace part f siblings child :
  findChild part siblings = Some child ->
  (forall n, node_name (f n) = node_name n) ->
  findChild part (replaceChild part f siblings) = Some (f child).
Proof.
  intros Hfind Hname. unfold findChild in *.
  induction siblings as [|n siblings IH]; [done|].
  cbn [List.find replaceChild] in *.
  destruct (String.eqb (node_name n) part) eqn:E.
  - injection Hfind as <-. cbn [List.find]. now rewrite Hname, E.
  - cbn [List.find]. rewrite E. now apply IH.
Qed.

Lemma findChild_replace_ne part part' f siblings :
  part' <> part ->
  (forall n, node_name (f n) = node_name n) ->
  findChild part' (replaceChild part f siblings) = findChild part' siblings.
Proof.
  intros Hne Hname. unfold findChild.
  induction siblings as [|n siblings IH]; [done|].
  cbn [List.find replaceChild].
  destruct (String.eqb (node_name n) part) eqn:E.
  - cbn [List.find]. rewrite Hname. apply String.eqb_eq in E.
    destruct (String.eqb (node_name n) part') eqn:E'; [|done].
    apply String.eqb_eq in E'. congruence.
  - cbn [List.find]. now rewrite IH.
Qed.

Lemma findChild_app part siblings n :
  findChild part (siblings ++ [n])
  = match findChild part siblings with
    | Some child => Some child
    | None => if String.eqb (node_name n) part then Some n else None
    end.
Proof.
  unfold findChild. induction siblings as [|m siblings IH]; [done|].
  cbn [app List.find]. now destruct (String.eqb (node_name m) part).
Qed.

Lemma replaceChild_same part f siblings child :
  findChild part siblings = Some child -> f child = child ->
  replaceChild part f siblings = siblings.
Proof.
  unfold findChild. intros Hfind Hf.
  induction siblings as [|n siblings IH]; [done|].
  cbn [List.find replaceChild] in *.
  destruct (String.eqb (node_name n) part).
  - injection Hfind as ->. now rewrite Hf.
  - now rewrite IH.
Qed.

Lemma findChild_children part node child :
  findChild part (default [] (node_children node)) = Some child ->
  node_children node = Some (default [] (node_children node)).
Proof. destruct node as [? ? ? [siblings|] ?]; [done|]. discriminate. Qed.

(** A path that is in the tree already is not added again. *)
Lemma addPath_present file parts : forall upTo node,
  is_Some (findPath parts node) -> addPath file upTo parts node = node.
Proof.
  induction parts as [|part rest IH]; intros upTo node Hfound; [done|].
  cbn [findPath] in Hfound. destruct Hfound as [found Hfound].
  destruct (findChild part (default [] (node_children node))) as [child|] eqn:Hchild;
    [|done].
  cbn [mbind option_bind] in Hfound.
  pose proof (findChild_children _ _ _ Hchild) as Hsome.
  destruct node as [name path type children fileInfo]. cbn [node_children] in *.
  cbn [addPath]. rewrite Hchild.
  rewrite (replaceChild_same _ _ _ child Hchild); [now rewrite <- Hsome|].
  apply IH. now exists found.
Qed.

(** After a path has been added, it is in the tree. *)
Lemma addPath_found file parts : forall upTo node,
  is_Some (findPath parts (addPath file upTo parts node)).
Proof.
  induction parts as [|part rest IH]; intros upTo node; [done|].
  destruct node as [name path type children fileInfo].
  cbn [addPath]. set (siblings := default [] children).
  destruct (findChild part siblings) as [child|] eqn:Hchild.
  - cbn [findPath node_children]. change (default [] (Some ?x)) with x.
    rewrite (findChild_replace _ _ _ child Hchild) by (intros; apply addPath_name).
    cbn [mbind option_bind]. apply IH.
  - cbn [findPath node_children]. change (default [] (Some ?x)) with x.
    rewrite findChild_app, Hchild, addPath_name. cbn [node_name].
    rewrite String.eqb_refl. cbn [mbind option_bind]. apply IH.
Qed.

(** Adding a path keeps the paths of the tree. *)
Lemma addPath_keeps file parts : forall upTo node path,
  is_Some (findPath path node) ->
  is_Some (findPath path (addPath file upTo parts node)).
Proof.
  induction parts as [|part rest IH]; intros upTo node path Hfound; [done|].
  destruct path as [|step path]; [done|].
  cbn [findPath] in Hfound. destruct Hfound as [found Hfound].
  destruct (findChild step (default [] (node_children node))) as [next|] eqn:Hnext;
    [|done].
  cbn [mbind option_bind] in Hfound.
  destruct node as [name path0 type children fileInfo]. cbn [node_children] in *.
  cbn [addPath]. set (siblings := default [] children) in *.
  destruct (findChild part siblings) as [child|] eqn:Hchild.
  - cbn [findPath node_children]. change (default [] (Some ?x)) with x.
    destruct (String.eqb step part) eqn:E.
    + apply String.eqb_eq in E as ->. rewrite Hchild in Hnext. injection Hnext as ->.
      rewrite (findChild_replace _ _ _ next Hchild) by (intros; apply addPath_name).
      cbn [mbind option_bind]. apply IH. now exists found.
    + apply String.eqb_neq in E.
      rewrite findChild_replace_ne by (try done; intros; apply addPath_name).
      rewrite Hnext. cbn [mbind option_bind]. now exists found.
  - cbn [findPath node_children]. change (default [] (Some ?x)) with x.
    rewrite findChild_app, Hnext. cbn [mbind option_bind]. now exists found.
Qed.

Lemma findPath_name parts : forall node found,
  findPath parts node = Some found -> parts <> [] ->
  node_name found = List.last parts "".
Proof.
  induction parts as [|part rest IH]; intros node found Hfound Hne; [done|].
  cbn [findPath] in Hfound.
  destruct (findChild part (default [] (node_children node))) as [child|] eqn:Hchild;
    [|done].
  cbn [mbind option_bind] in Hfound. destruct rest as [|part' rest].
  - cbn in Hfound. injection Hfound as <-. now apply findChild_name in Hchild.
  - change (List.last (part :: part' :: rest) "") with (List.last (part' :: rest) "").
    now apply (IH child).
Qed.

Lemma build_keeps files : forall root path,
  is_Some (findPath path root) ->
  is_Some (findPath path
             (fold_left (fun root file => addPath file [] (relativeParts file) root)
                files root)).
Proof.
  induction files as [|file files IH]; intros root path Hfound; [done|].
  cbn [fold_left]. apply IH. now apply addPath_keeps.
Qed.

Lemma build_found files : forall root file,
  In file files ->
  is_Some (findPath (relativeParts file)
             (fold_left (fun root file => addPath file [] (relativeParts file) root)
                files root)).
Proof.
  induction files as [|first files IH]; intros root file Hin; [done|].
  cbn [fold_left]. destruct Hin as [-> | Hin].
  - apply build_keeps, addPath_found.
  - now apply IH.
Qed.

End Tree.

(** X29: In the tree built by [FileMapper.buildFileTree], the parts of the
    deploy path of every file lead from the root to a node, and that
    node is named by the last part. *)
Theorem file_tree_holds_every_path (files : list FileMapping) :
  Forall (fun file =>
            exists node,
              findPath (FileMapper.relativeParts file) (FileMapper.buildFileTree files)
              = Some node
              /\ FileMapper.node_name node = List.last (FileMapper.relativeParts file) "")
    files.
Proof.
  apply Forall_forall. intros file Hin. apply list_elem_of_In in Hin.
  destruct (build_found files FileMapper.treeRoot file Hin) as [node Hnode].
  exists node. split; [exact Hnode|].
  apply (findPath_name _ _ _ Hnode). unfold FileMapper.relativeParts. apply split_nonempty.
Qed.

(** X30: A file whose deploy path is that of an earlier file of the list
    leaves the tree unchanged: the node keeps the earlier file. *)
Theorem file_tree_drops_repeated_path (files : list FileMapping)
    (earlier file : FileMapping) :
  In earlier files ->
  FileMapper.relativeParts earlier = FileMapper.relativeParts file ->
  FileMapper.buildFileTree (files ++ [file]) = FileMapper.buildFileTree files.
Proof.
  intros Hin Hsame. unfold FileMapper.buildFileTree. rewrite fold_left_app.
  cbn [fold_left]. apply addPath_present. rewrite <- Hsame.
  now apply build_found.
Qed.

Lemma file_tree_drops_repeated_path_witness :
  FileMapper.buildFileTree
    ([FileMapper.buildFileMapping "dot_bashrc" None None]
     ++ [FileMapper.buildFileMapping "dot_bashrc.tmpl" None None])
  = FileMapper.buildFileTree [FileMapper.buildFileMapping "dot_bashrc" None None].
Proof.
  apply (file_tree_drops_repeated_path _ (FileMapper.buildFileMapping "dot_bashrc" None None));
    [now left|vm_compute; reflexivity].
Defined.
